(** * Timer_A software UART (MSP430G2xx1): embedding of [main.c]

    The program drives a 9600 baud 8N1 serial link with the two
    capture/compare channels of Timer_A: channel 0 shifts a frame out on
    TXD through the channel's output unit, channel 1 captures the start
    edge on RXD and then samples the line through the SCCI latch.

    The C code is embedded as functions on a [machine] record holding the
    globals, the function-local statics and the timer registers the code
    reads and writes.  [unsigned char] is [Z] modulo [2^8], [unsigned int]
    and the 16-bit registers are [Z] modulo [2^16].

    The program also drives an LED matrix behind a 16-bit shift register
    from Port 1: that part is embedded as functions on a [port] record
    holding the output register and the values stored to it. *)

From Stdlib Require Import ZArith List Bool Lia.
From Stdlib Require String Ascii.
Import ListNotations.
Import String.StringSyntax Ascii.AsciiSyntax.
Delimit Scope string_scope with string.
Delimit Scope char_scope with char.
Local Open Scope Z_scope.

(** ** Device header

    [msp430g2231.h] belongs to the compiler, not to the repository: the
    masks below are the Timer_A and status-register bits of the device as
    its header declares them. *)
Module Msp430.

Definition CCIFG   : Z := 0x0001.
Definition COV     : Z := 0x0002.
Definition OUT     : Z := 0x0004.
Definition CCI     : Z := 0x0008.
Definition CCIE    : Z := 0x0010.
Definition OUTMOD0 : Z := 0x0020.
Definition OUTMOD1 : Z := 0x0040.
Definition OUTMOD2 : Z := 0x0080.
Definition CAP     : Z := 0x0100.
Definition SCCI    : Z := 0x0400.
Definition SCS     : Z := 0x0800.
Definition CM0     : Z := 0x4000.
Definition CM1     : Z := 0x8000.

Definition MC_2     : Z := 0x0020.
Definition MC_3     : Z := 0x0030.
Definition TASSEL_2 : Z := 0x0200.

Definition TAIV_TACCR1 : Z := 0x0002.
Definition TAIV_TAIFG  : Z := 0x000A.

Definition CPUOFF    : Z := 0x0010.
Definition LPM0_bits : Z := CPUOFF.

End Msp430.
Import Msp430.

(** ** C integer types *)

Definition u8 (z : Z) : Z := z mod 2 ^ 8.
Definition u16 (z : Z) : Z := z mod 2 ^ 16.

(** C truth value of an integer expression. *)
Definition nonzero (z : Z) : bool := negb (z =? 0).

(** [~m] stored to a 16-bit register. *)
Definition inv16 (m : Z) : Z := u16 (Z.lnot m).

(** ** Bit timing (lines 54-55) *)

Definition TBIT (clock baud : Z) : Z := clock / baud.
Definition TBIT_DIV_2 (clock baud : Z) : Z := clock / (baud * 2).

Definition UART_TBIT_DIV_2 : Z := 1000000 / (9600 * 2).
Definition UART_TBIT : Z := 1000000 / 9600.

(** ** Machine state *)

Record machine : Type := Machine {
  TAR      : Z;      (* free-running 16-bit counter *)
  TACTL    : Z;      (* timer control *)
  TACCR0   : Z;      (* channel 0 compare register (TX) *)
  TACCTL0  : Z;      (* channel 0 control *)
  TACCR1   : Z;      (* channel 1 capture/compare register (RX) *)
  TACCTL1  : Z;      (* channel 1 control *)
  SR       : Z;      (* status register of the foreground context *)
  TXD      : bool;   (* level driven on P1.1 by output unit 0 *)
  txData   : Z;      (* unsigned int txData *)
  rxBuffer : Z;      (* unsigned char rxBuffer *)
  txBitCnt : Z;      (* static unsigned char txBitCnt = 10 *)
  rxBitCnt : Z;      (* static unsigned char rxBitCnt = 8 *)
  rxData   : Z       (* static unsigned char rxData = 0 *)
}.

Definition set_TAR (v : Z) (s : machine) : machine :=
  Machine v (TACTL s) (TACCR0 s) (TACCTL0 s) (TACCR1 s) (TACCTL1 s) (SR s)
          (TXD s) (txData s) (rxBuffer s) (txBitCnt s) (rxBitCnt s) (rxData s).
Definition set_TACTL (v : Z) (s : machine) : machine :=
  Machine (TAR s) v (TACCR0 s) (TACCTL0 s) (TACCR1 s) (TACCTL1 s) (SR s)
          (TXD s) (txData s) (rxBuffer s) (txBitCnt s) (rxBitCnt s) (rxData s).
Definition set_TACCR0 (v : Z) (s : machine) : machine :=
  Machine (TAR s) (TACTL s) v (TACCTL0 s) (TACCR1 s) (TACCTL1 s) (SR s)
          (TXD s) (txData s) (rxBuffer s) (txBitCnt s) (rxBitCnt s) (rxData s).
Definition set_TACCTL0 (v : Z) (s : machine) : machine :=
  Machine (TAR s) (TACTL s) (TACCR0 s) v (TACCR1 s) (TACCTL1 s) (SR s)
          (TXD s) (txData s) (rxBuffer s) (txBitCnt s) (rxBitCnt s) (rxData s).
Definition set_TACCR1 (v : Z) (s : machine) : machine :=
  Machine (TAR s) (TACTL s) (TACCR0 s) (TACCTL0 s) v (TACCTL1 s) (SR s)
          (TXD s) (txData s) (rxBuffer s) (txBitCnt s) (rxBitCnt s) (rxData s).
Definition set_TACCTL1 (v : Z) (s : machine) : machine :=
  Machine (TAR s) (TACTL s) (TACCR0 s) (TACCTL0 s) (TACCR1 s) v (SR s)
          (TXD s) (txData s) (rxBuffer s) (txBitCnt s) (rxBitCnt s) (rxData s).
Definition set_SR (v : Z) (s : machine) : machine :=
  Machine (TAR s) (TACTL s) (TACCR0 s) (TACCTL0 s) (TACCR1 s) (TACCTL1 s) v
          (TXD s) (txData s) (rxBuffer s) (txBitCnt s) (rxBitCnt s) (rxData s).
Definition set_TXD (v : bool) (s : machine) : machine :=
  Machine (TAR s) (TACTL s) (TACCR0 s) (TACCTL0 s) (TACCR1 s) (TACCTL1 s) (SR s)
          v (txData s) (rxBuffer s) (txBitCnt s) (rxBitCnt s) (rxData s).
Definition set_txData (v : Z) (s : machine) : machine :=
  Machine (TAR s) (TACTL s) (TACCR0 s) (TACCTL0 s) (TACCR1 s) (TACCTL1 s) (SR s)
          (TXD s) v (rxBuffer s) (txBitCnt s) (rxBitCnt s) (rxData s).
Definition set_rxBuffer (v : Z) (s : machine) : machine :=
  Machine (TAR s) (TACTL s) (TACCR0 s) (TACCTL0 s) (TACCR1 s) (TACCTL1 s) (SR s)
          (TXD s) (txData s) v (txBitCnt s) (rxBitCnt s) (rxData s).
Definition set_txBitCnt (v : Z) (s : machine) : machine :=
  Machine (TAR s) (TACTL s) (TACCR0 s) (TACCTL0 s) (TACCR1 s) (TACCTL1 s) (SR s)
          (TXD s) (txData s) (rxBuffer s) v (rxBitCnt s) (rxData s).
Definition set_rxBitCnt (v : Z) (s : machine) : machine :=
  Machine (TAR s) (TACTL s) (TACCR0 s) (TACCTL0 s) (TACCR1 s) (TACCTL1 s) (SR s)
          (TXD s) (txData s) (rxBuffer s) (txBitCnt s) v (rxData s).
Definition set_rxData (v : Z) (s : machine) : machine :=
  Machine (TAR s) (TACTL s) (TACCR0 s) (TACCTL0 s) (TACCR1 s) (TACCTL1 s) (SR s)
          (TXD s) (txData s) (rxBuffer s) (txBitCnt s) (rxBitCnt s) v.

(** ** Output unit 0

    The output mode is held in OUTMOD2..OUTMOD0.  Mode 0 drives the pin
    from the OUT bit as soon as the register is written; mode 1 sets the
    pin and mode 5 resets it when the counter reaches TACCR0 (the source's
    comments: "Set TXD Idle as Mark", "Set TXD on EQU0", "TX Mark",
    "TX Space"); mode 4 toggles.  Modes 2, 3, 6 and 7 combine the
    channel's own match with that of channel 0 and have no defined use on
    channel 0 itself: they leave the pin as it is. *)

Definition outmod (ctl : Z) : Z :=
  Z.shiftr (Z.land ctl (OUTMOD2 + OUTMOD1 + OUTMOD0)) 5.

Definition out_unit0 (ctl : Z) (pin : bool) : bool :=
  match outmod ctl with
  | 0 => nonzero (Z.land ctl OUT)
  | 1 => true
  | 4 => negb pin
  | 5 => false
  | _ => pin
  end.

(** A store to TACCTL0 by software. *)
Definition write_TACCTL0 (v : Z) (s : machine) : machine :=
  set_TXD (if outmod v =? 0 then nonzero (Z.land v OUT) else TXD s)
          (set_TACCTL0 v s).

(** ** The C functions *)

(** [TimerA_UART_init] (lines 129-134). *)
Definition TimerA_UART_init (s : machine) : machine :=
  let s := write_TACCTL0 OUT s in
  let s := set_TACCTL1 (SCS + CM1 + CAP + CCIE) s in
  set_TACTL (TASSEL_2 + MC_2) s.

(** The body of [TimerA_UART_tx] after the wait loop (lines 141-146). *)
Definition TimerA_UART_tx_load (byte : Z) (s : machine) : machine :=
  let s := set_TACCR0 (TAR s) s in
  let s := set_TACCR0 (u16 (TACCR0 s + UART_TBIT)) s in
  let s := write_TACCTL0 (OUTMOD0 + CCIE) s in
  let s := set_txData byte s in
  let s := set_txData (Z.lor (txData s) 0x100) s in
  set_txData (u16 (Z.shiftl (txData s) 1)) s.

(** [Timer_A0_ISR] (lines 161-181). *)
Definition Timer_A0_ISR (s : machine) : machine :=
  let s := set_TACCR0 (u16 (TACCR0 s + UART_TBIT)) s in
  if txBitCnt s =? 0 then
    let s := write_TACCTL0 (Z.land (TACCTL0 s) (inv16 CCIE)) s in
    set_txBitCnt 10 s
  else
    let s :=
      if nonzero (Z.land (txData s) 0x01)
      then write_TACCTL0 (Z.land (TACCTL0 s) (inv16 OUTMOD2)) s
      else write_TACCTL0 (Z.lor (TACCTL0 s) OUTMOD2) s in
    let s := set_txData (Z.shiftr (txData s) 1) s in
    set_txBitCnt (u8 (txBitCnt s - 1)) s.

(** [Timer_A1_ISR] (lines 185-213); [taiv] is the value read from TAIV. *)
Definition Timer_A1_ISR (taiv : Z) (s : machine) : machine :=
  if taiv =? TAIV_TACCR1 then
    let s := set_TACCR1 (u16 (TACCR1 s + UART_TBIT)) s in
    if nonzero (Z.land (TACCTL1 s) CAP) then
      let s := set_TACCTL1 (Z.land (TACCTL1 s) (inv16 CAP)) s in
      set_TACCR1 (u16 (TACCR1 s + UART_TBIT_DIV_2)) s
    else
      let s := set_rxData (Z.shiftr (rxData s) 1) s in
      let s :=
        if nonzero (Z.land (TACCTL1 s) SCCI)
        then set_rxData (Z.lor (rxData s) 0x80) s
        else s in
      let s := set_rxBitCnt (u8 (rxBitCnt s - 1)) s in
      if rxBitCnt s =? 0 then
        let s := set_rxBuffer (rxData s) s in
        let s := set_rxBitCnt 8 s in
        let s := set_TACCTL1 (Z.lor (TACCTL1 s) CAP) s in
        set_SR (Z.land (SR s) (inv16 LPM0_bits)) s
      else s
  else s.

(** The foreground loop (lines 103-124): [__bis_SR_register(LPM0_bits)]
    puts it to sleep, and once awake it reads [rxBuffer], for the display
    and for the echo. *)
Definition main_sleep (s : machine) : machine :=
  set_SR (Z.lor (SR s) LPM0_bits) s.
Definition main_awake (s : machine) : bool :=
  negb (nonzero (Z.land (SR s) LPM0_bits)).
Definition main_read (s : machine) : Z := rxBuffer s.

(** ** Timer hardware

    The timer is not code of the repository; it is modelled as far as the
    program relies on it, after the program's header ("hardware insures
    that output and input bit latching and timing are perfectly
    synchronised with Timer_A") and line comments.

    One [tick] is one period of the timer clock.  The counter advances (in
    continuous mode it wraps from 0xFFFF to 0); a channel whose event falls
    on the new counter value acts, and its handler, when the channel's
    interrupt is enabled, runs to completion within the tick (interrupts
    are enabled globally by [main], handlers do not nest, and the flag of
    a disabled interrupt is discarded by the next whole-register store of
    [TimerA_UART_tx]).  Channel 0 has the higher priority.  An edge on RXD
    is captured in the tick in which it shows. *)

Definition setbit (r m : Z) (v : bool) : Z :=
  if v then Z.lor r m else Z.land r (inv16 m).

Definition count (s : machine) : machine :=
  if Z.land (TACTL s) MC_3 =? MC_2 then set_TAR (u16 (TAR s + 1)) s else s.

(** Channel 0 in compare mode: EQU0 drives the output unit and requests
    the TIMERA0 interrupt. *)
Definition tx_unit (s : machine) : machine :=
  if TAR s =? TACCR0 s then
    let s := set_TXD (out_unit0 (TACCTL0 s) (TXD s)) s in
    if nonzero (Z.land (TACCTL0 s) CCIE) then Timer_A0_ISR s else s
  else s.

(** The TIMERA1 interrupt as raised by channel 1. *)
Definition irq1 (s : machine) : machine :=
  if nonzero (Z.land (TACCTL1 s) CCIE) then Timer_A1_ISR TAIV_TACCR1 s else s.

(** Capture: the counter is copied to TACCR1. *)
Definition capture1 (s : machine) : machine :=
  irq1 (set_TACCR1 (TAR s) s).

(** Compare match: the input level is latched into SCCI. *)
Definition compare_match1 (level : bool) (s : machine) : machine :=
  irq1 (set_TACCTL1 (setbit (TACCTL1 s) SCCI level) s).

(** The edge selected by CM1 (falling) and CM0 (rising). *)
Definition capture_edge (ctl : Z) (was now : bool) : bool :=
  (nonzero (Z.land ctl CM1) && was && negb now)
  || (nonzero (Z.land ctl CM0) && negb was && now).

(** Channel 1 with [rxd] the level on P1.2 during this tick; the CCI bit
    holds the level seen at the previous tick. *)
Definition rx_unit (rxd : bool) (s : machine) : machine :=
  let was := nonzero (Z.land (TACCTL1 s) CCI) in
  let s := set_TACCTL1 (setbit (TACCTL1 s) CCI rxd) s in
  if nonzero (Z.land (TACCTL1 s) CAP) then
    if capture_edge (TACCTL1 s) was rxd then capture1 s else s
  else
    if TAR s =? TACCR1 s then compare_match1 rxd s else s.

(** What drives RXD: the board's own TXD (loopback) or an outside level. *)
Inductive rx_source : Type :=
| Loopback
| Level (l : bool).

Definition rxd_level (src : rx_source) (s : machine) : bool :=
  match src with
  | Loopback => TXD s
  | Level l => l
  end.

Definition tick (src : rx_source) (s : machine) : machine :=
  let s := tx_unit (count s) in
  rx_unit (rxd_level src s) s.

Fixpoint run (env : list rx_source) (s : machine) : machine :=
  match env with
  | [] => s
  | src :: env' => run env' (tick src s)
  end.

(** [TimerA_UART_tx] (lines 138-147).  The wait loop of line 140 spins
    while ticks of [env] go by; [None] when [env] ends before the channel
    is free. *)
Fixpoint TimerA_UART_tx (byte : Z) (env : list rx_source) (s : machine)
  {struct env} : option (machine * list rx_source) :=
  if nonzero (Z.land (TACCTL0 s) CCIE) then
    match env with
    | [] => None
    | src :: env' => TimerA_UART_tx byte env' (tick src s)
    end
  else Some (TimerA_UART_tx_load byte s, env).

(** A whole receive frame as channel 1 sees it: the start edge, then one
    compare match per latched level. *)
Definition rx_frame (bits : list bool) (s : machine) : machine :=
  fold_left (fun s l => compare_match1 l s) bits (capture1 s).

(** ** Views and reference values *)

(** State owned by the transmitter and by the receiver. *)
Definition tx_view (s : machine) : Z * Z * bool * Z * Z :=
  (TACCR0 s, TACCTL0 s, TXD s, txData s, txBitCnt s).
Definition rx_view (s : machine) : Z * Z * Z * Z * Z * Z :=
  (TACCR1 s, TACCTL1 s, rxData s, rxBitCnt s, rxBuffer s, SR s).

(** The byte whose bit [k] is the [k]-th element of [bits]. *)
Fixpoint byte_of_bits (bits : list bool) : Z :=
  match bits with
  | [] => 0
  | b :: r => Z.b2z b + 2 * byte_of_bits r
  end.

(** Level of an 8N1 frame of [b] during bit period [i], counted from the
    start bit; mark before and after. *)
Definition uart_level (b i : Z) : bool :=
  if i <? 0 then true
  else if i =? 0 then false
  else if i <=? 8 then Z.testbit b (i - 1)
  else true.

(** Level of TXD [n] ticks after [TimerA_UART_tx_load]: the start bit
    begins two bit periods after the load. *)
Definition wave (b n : Z) : bool := uart_level b (n / UART_TBIT - 2).

(** The 10-bit frame as loaded into [txData]. *)
Definition frame (b : Z) : Z := Z.shiftl (Z.lor b 0x100) 1.

(** The counter runs in continuous mode. *)
Definition timer_running (s : machine) : Prop :=
  Z.land (TACTL s) MC_3 = MC_2 /\ 0 <= TAR s < 2 ^ 16.

(** The transmitter at rest: nothing in flight, line at mark. *)
Definition tx_idle (s : machine) : Prop :=
  timer_running s /\ nonzero (Z.land (TACCTL0 s) CCIE) = false /\
  txBitCnt s = 10 /\ TXD s = true.

(** The machine at reset with the counter at [t] (registers cleared, the
    statics at their initial values), and after [TimerA_UART_init] with
    RXD seen at mark. *)
Definition reset_state (t : Z) : machine :=
  Machine t 0 0 0 0 0 0 false 0 0 10 8 0.
Definition init_state (t : Z) : machine :=
  rx_unit true (TimerA_UART_init (reset_state t)).


(** The receiver's two states, held in the channel's mode bit. *)
Definition capturing (s : machine) : Prop :=
  nonzero (Z.land (TACCTL1 s) CAP) = true.
Definition sampling (s : machine) : Prop :=
  nonzero (Z.land (TACCTL1 s) CAP) = false.
Definition rx_irq_enabled (s : machine) : Prop :=
  nonzero (Z.land (TACCTL1 s) CCIE) = true.

(** The receiver ready for a frame. *)
Definition rx_ready (s : machine) : Prop :=
  capturing s /\ rx_irq_enabled s /\ rxBitCnt s = 8 /\ 0 <= rxData s < 2 ^ 8.

(** The receiver waiting for a start edge as [TimerA_UART_init] arms it
    (falling edge only), the line last seen at mark. *)
Definition rx_idle (s : machine) : Prop :=
  rx_ready s /\
  nonzero (Z.land (TACCTL1 s) CM1) = true /\
  nonzero (Z.land (TACCTL1 s) CM0) = false /\
  nonzero (Z.land (TACCTL1 s) CCI) = true.

(** One bit entering an 8-bit accumulator at the top. *)
Definition shift_in (a : Z) (l : bool) : Z :=
  Z.lor (Z.shiftr a 1) (if l then 0x80 else 0).

(** A compare match served late: [latched] is the level the hardware
    latched at the match, [live] the level on the pin by the time the
    handler runs. *)
Definition compare_match1_late (lv : bool * bool) (s : machine) : machine :=
  irq1 (set_TACCTL1 (setbit (setbit (TACCTL1 s) SCCI (fst lv)) CCI (snd lv)) s).

(** What the hardware does to TACCTL1 at a compare match before the
    handler runs: [hw_match] as in [compare_match1], [hw_match_late] as in
    [compare_match1_late]. *)
Definition hw_match (l : bool) (r : Z) : Z := setbit r SCCI l.
Definition hw_match_late (lv : bool * bool) (r : Z) : Z :=
  setbit (setbit r SCCI (fst lv)) CCI (snd lv).
Definition match_step {A : Type} (hw : A -> Z -> Z) (a : A) (s : machine)
  : machine :=
  irq1 (set_TACCTL1 (hw a (TACCTL1 s)) s).

(** Channel 0 control as programmed after [j] compare matches of a frame:
    the output mode holds the level of the next bit period. *)
Definition tx_ctl (b j : Z) : Z :=
  if uart_level b (j - 1) then OUTMOD0 + CCIE else OUTMOD2 + OUTMOD0 + CCIE.

(** The transmitter's state after [j] compare matches since the load at
    counter value [t]. *)
Definition tx_expected (b t j : Z) : Z * Z * bool * Z * Z :=
  (u16 (t + UART_TBIT * (Z.min j 11 + 1)),
   if j <? 11 then tx_ctl b j else OUTMOD0,
   uart_level b (j - 2),
   Z.shiftr (frame b) (Z.min j 10),
   if j <? 11 then 10 - j else 10).

(** The transmitter [n] ticks after the load. *)
Definition tx_inv (b t n : Z) (s : machine) : Prop :=
  Z.land (TACTL s) MC_3 = MC_2 /\ TAR s = u16 (t + n) /\
  tx_view s = tx_expected b t (n / UART_TBIT).

(** Samples taken [n] ticks after the load, in loopback: the first one
    falls three and a half bit periods after it. *)
Definition rx_samples (n : Z) : Z :=
  Z.max 0 ((n - (2 * UART_TBIT + UART_TBIT_DIV_2)) / UART_TBIT).

(** The receiver [n] ticks after the load of [b] at counter value [t], its
    input tied to TXD; [x0] and [sr0] are the mailbox byte and the status
    register at the load. *)
Definition rx_inv (b t x0 sr0 n : Z) (s : machine) : Prop :=
  Z.testbit (TACCTL1 s) 4 = true /\ Z.testbit (TACCTL1 s) 15 = true /\
  Z.testbit (TACCTL1 s) 14 = false /\ Z.testbit (TACCTL1 s) 3 = wave b n /\
  if n <? 2 * UART_TBIT then
    Z.testbit (TACCTL1 s) 8 = true /\ rxBitCnt s = 8 /\
    0 <= rxData s < 2 ^ 8 /\ rxBuffer s = x0 /\ SR s = sr0
  else if n <? 10 * UART_TBIT + UART_TBIT_DIV_2 then
    Z.testbit (TACCTL1 s) 8 = false /\
    TACCR1 s = u16 (t + (3 * UART_TBIT + UART_TBIT_DIV_2
                         + UART_TBIT * rx_samples n)) /\
    rxBitCnt s = 8 - rx_samples n /\ 0 <= rxData s < 2 ^ 8 /\
    (forall i, 0 <= i < rx_samples n ->
       Z.testbit (rxData s) (8 - rx_samples n + i) = Z.testbit b i) /\
    rxBuffer s = x0 /\ SR s = sr0
  else
    Z.testbit (TACCTL1 s) 8 = true /\ rxBitCnt s = 8 /\
    rxData s = b /\ rxBuffer s = b /\ main_awake s = true.

(** The whole machine in loopback, [n] ticks after the load. *)
Definition loop_inv (b t x0 sr0 n : Z) (s : machine) : Prop :=
  tx_inv b t n s /\ rx_inv b t x0 sr0 n s.

(** ** Port 1 and the display driver (lines 43-49, 227-324)

    [P1OUT] is an 8-bit output register; [P1log] keeps the values stored
    to it, newest first, since the register is volatile and the order of
    the stores is what the shift register on the port sees.  Which pins
    follow the register is decided by P1SEL and P1DIR, set once in [main]
    and not modelled. *)

Definition BIT0 : Z := 0x0001.
Definition BIT1 : Z := 0x0002.
Definition BIT2 : Z := 0x0004.
Definition BIT3 : Z := 0x0008.
Definition BIT4 : Z := 0x0010.
Definition BIT5 : Z := 0x0020.
Definition BIT6 : Z := 0x0040.

Definition DATA   : Z := BIT0.
Definition CLOCK  : Z := BIT1.
Definition LATCH  : Z := BIT2.
Definition ENABLE : Z := BIT3.
Definition ROW0   : Z := BIT4.
Definition ROW1   : Z := BIT5.
Definition ROW2   : Z := BIT6.

Record port : Type := Port {
  P1OUT : Z;           (* the register *)
  P1log : list Z       (* the values stored so far, newest first *)
}.

(** A store to P1OUT: the value is cut to 8 bits. *)
Definition store_P1OUT (v : Z) (p : port) : port :=
  Port (u8 v) (u8 v :: P1log p).

(** [pinWrite] (lines 230-237). *)
Definition pinWrite (bit val : Z) (p : port) : port :=
  if nonzero val
  then store_P1OUT (Z.lor (P1OUT p) bit) p
  else store_P1OUT (Z.land (P1OUT p) (inv16 bit)) p.

(** [pulseClock] (lines 241-246). *)
Definition pulseClock (p : port) : port :=
  let p := store_P1OUT (Z.lor (P1OUT p) CLOCK) p in
  store_P1OUT (Z.lxor (P1OUT p) CLOCK) p.

(** [shiftOut] (lines 249-266): [i] runs from 0 to 15. *)
Definition shiftOut (val : Z) (p : port) : port :=
  let p :=
    fold_left
      (fun p i => pulseClock (pinWrite DATA (Z.land val (u16 (Z.shiftl 1 i))) p))
      (map Z.of_nat (seq 0 16)) p in
  let p := store_P1OUT (Z.lor (P1OUT p) LATCH) p in
  store_P1OUT (Z.land (P1OUT p) (inv16 LATCH)) p.

(** [enable] and [disable] (lines 270-278). *)
Definition enable (p : port) : port :=
  store_P1OUT (Z.land (P1OUT p) (inv16 ENABLE)) p.
Definition disable (p : port) : port :=
  store_P1OUT (Z.lor (P1OUT p) ENABLE) p.

(** [setRows] (lines 280-324). *)
Definition setRows (row value : Z) (p : port) : port :=
  let p := shiftOut 0x0000 p in
  let p :=
    if row =? 0 then
      store_P1OUT (Z.land (P1OUT p) (inv16 (ROW0 + ROW1 + ROW2))) p
    else if row =? 1 then
      let p := store_P1OUT (Z.land (P1OUT p) (inv16 (ROW1 + ROW2))) p in
      store_P1OUT (Z.lor (P1OUT p) ROW0) p
    else if row =? 2 then
      let p := store_P1OUT (Z.land (P1OUT p) (inv16 (ROW0 + ROW2))) p in
      store_P1OUT (Z.lor (P1OUT p) ROW1) p
    else if row =? 3 then
      let p := store_P1OUT (Z.land (P1OUT p) (inv16 ROW2)) p in
      store_P1OUT (Z.lor (P1OUT p) (ROW0 + ROW1)) p
    else if row =? 4 then
      let p := store_P1OUT (Z.land (P1OUT p) (inv16 (ROW0 + ROW1))) p in
      store_P1OUT (Z.lor (P1OUT p) ROW2) p
    else if row =? 5 then
      let p := store_P1OUT (Z.land (P1OUT p) (inv16 ROW1)) p in
      store_P1OUT (Z.lor (P1OUT p) (ROW2 + ROW0)) p
    else if row =? 6 then
      let p := store_P1OUT (Z.land (P1OUT p) (inv16 ROW0)) p in
      store_P1OUT (Z.lor (P1OUT p) (ROW2 + ROW1)) p
    else if row =? 7 then
      store_P1OUT (Z.lor (P1OUT p) (ROW2 + ROW1 + ROW0)) p
    else p in
  shiftOut value p.

(** The values an operation stores, oldest first, when the register holds
    [v] before it. *)
Definition writes (op : port -> port) (v : Z) : list Z :=
  rev (P1log (op (Port v []))).

(** What a shift register with its serial input, shift clock and storage
    clock on the DATA, CLOCK and LATCH bits takes from a sequence of
    register values (the source: "set data pin, and pulse the clock to
    send it to the shift register", "pulse the latch pin to write the
    values into the storage register"): a bit on every rise of CLOCK, a
    transfer to the storage register on every rise of LATCH. *)
Inductive sr_event : Type :=
| Shift (d : bool)
| Store.

Definition rising (m prev cur : Z) : bool :=
  negb (nonzero (Z.land prev m)) && nonzero (Z.land cur m).

Fixpoint pin_events (prev : Z) (vals : list Z) : list sr_event :=
  match vals with
  | [] => []
  | v :: rest =>
      (if rising CLOCK prev v then [Shift (nonzero (Z.land v DATA))] else [])
      ++ (if rising LATCH prev v then [Store] else [])
      ++ pin_events v rest
  end.

(** The 16-bit words stored, the bit shifted first counted as bit 0;
    [acc] holds the bits shifted so far, newest first. *)
Fixpoint stored (acc : list bool) (evs : list sr_event) : list Z :=
  match evs with
  | [] => []
  | Shift d :: rest => stored (d :: acc) rest
  | Store :: rest => byte_of_bits (rev (firstn 16 acc)) :: stored acc rest
  end.

(** The row selected by the ROW2..ROW0 bits. *)
Definition row_of (v : Z) : Z := Z.shiftr (Z.land v (ROW2 + ROW1 + ROW0)) 4.

(** Shift clock and storage clock low, as every driver function expects
    and leaves them. *)
Definition clocks_low (v : Z) : Prop :=
  0 <= v < 2 ^ 8 /\ nonzero (Z.land v CLOCK) = false /\
  nonzero (Z.land v LATCH) = false.

(** An operation that neither reads nor drops the log, and whose last
    store is what the register holds. *)
Definition tracks (op : port -> port) : Prop :=
  forall v l,
    op (Port v l) =
    Port (P1OUT (op (Port v []))) (P1log (op (Port v [])) ++ l) /\
    hd v (P1log (op (Port v []))) = P1OUT (op (Port v [])).

(** One pass of the loop of [shiftOut]. *)
Definition shift_bit (x : Z) (p : port) : port :=
  pulseClock (pinWrite DATA x p).

(** The pulse on LATCH that ends [shiftOut]. *)
Definition latch_pulse (p : port) : port :=
  let p := store_P1OUT (Z.lor (P1OUT p) LATCH) p in
  store_P1OUT (Z.land (P1OUT p) (inv16 LATCH)) p.

(** The loop of [shiftOut] over the bit indices [idxs]. *)
Definition shift_loop (val : Z) (idxs : list Z) (p : port) : port :=
  fold_left (fun p i => shift_bit (Z.land val (u16 (Z.shiftl 1 i))) p) idxs p.

(** The values [i] takes in the loop. *)
Definition idx16 : list Z := map Z.of_nat (seq 0 16).

(** The rows selected at the rises of LATCH. *)
Fixpoint rows_at_store (prev : Z) (vals : list Z) : list Z :=
  match vals with
  | [] => []
  | v :: rest =>
      (if rising LATCH prev v then [row_of v] else []) ++ rows_at_store v rest
  end.

(** The row selection of [setRows] (lines 283-322). *)
Definition select_row (row : Z) (p : port) : port :=
  if row =? 0 then
    store_P1OUT (Z.land (P1OUT p) (inv16 (ROW0 + ROW1 + ROW2))) p
  else if row =? 1 then
    let p := store_P1OUT (Z.land (P1OUT p) (inv16 (ROW1 + ROW2))) p in
    store_P1OUT (Z.lor (P1OUT p) ROW0) p
  else if row =? 2 then
    let p := store_P1OUT (Z.land (P1OUT p) (inv16 (ROW0 + ROW2))) p in
    store_P1OUT (Z.lor (P1OUT p) ROW1) p
  else if row =? 3 then
    let p := store_P1OUT (Z.land (P1OUT p) (inv16 ROW2)) p in
    store_P1OUT (Z.lor (P1OUT p) (ROW0 + ROW1)) p
  else if row =? 4 then
    let p := store_P1OUT (Z.land (P1OUT p) (inv16 (ROW0 + ROW1))) p in
    store_P1OUT (Z.lor (P1OUT p) ROW2) p
  else if row =? 5 then
    let p := store_P1OUT (Z.land (P1OUT p) (inv16 ROW1)) p in
    store_P1OUT (Z.lor (P1OUT p) (ROW2 + ROW0)) p
  else if row =? 6 then
    let p := store_P1OUT (Z.land (P1OUT p) (inv16 ROW0)) p in
    store_P1OUT (Z.lor (P1OUT p) (ROW2 + ROW1)) p
  else if row =? 7 then
    store_P1OUT (Z.lor (P1OUT p) (ROW2 + ROW1 + ROW0)) p
  else p.

(** The row after [select_row]: [row] when it is one of 0..7, else the
    row selected before. *)
Definition new_row (row v : Z) : Z :=
  if (0 <=? row) && (row <=? 7) then row else row_of v.

(** [select_row] on the register value [v], for [row] one of 0..7: no
    rise of CLOCK nor of LATCH, the bits outside ROW2..ROW0 kept, the row
    selected. *)
Definition select_row_ok (row v : Z) : bool :=
  let p := select_row row (Port v []) in
  match pin_events v (writes (select_row row) v) with [] => true | _ => false end
  && match rows_at_store v (writes (select_row row) v) with
     | [] => true | _ => false end
  && (0 <=? P1OUT p) && (P1OUT p <? 2 ^ 8)
  && (Z.land (P1OUT p) 0x8F =? Z.land v 0x8F)
  && (row_of (P1OUT p) =? row).

(** ** Reception from an outside line *)

(** The receiver armed as [TimerA_UART_init] leaves it: capture mode on
    the falling edge, interrupt enabled, bit counter reloaded. *)
Definition rx_armed (s : machine) : Prop :=
  rx_ready s /\
  nonzero (Z.land (TACCTL1 s) CM1) = true /\
  nonzero (Z.land (TACCTL1 s) CM0) = false.

(** [n] ticks of an outside signal on RXD: [line i] is the level during
    tick [i], counted from 1. *)
Definition rxd_ticks (line : Z -> bool) (n : nat) : list rx_source :=
  map (fun i => Level (line (Z.of_nat i))) (seq 1 n).

(** Samples taken [n] ticks after a start edge: the first one falls one
    and a half bit periods after it. *)
Definition samples_since (n : Z) : Z := rx_samples (n + 2 * UART_TBIT).

(** The tick of the [k]-th sample of a frame whose start edge shows in
    tick [e], and the byte made of the levels at the eight samples. *)
Definition sample_tick (e k : Z) : Z :=
  e + UART_TBIT + UART_TBIT_DIV_2 + UART_TBIT * k.
Definition rx_byte (line : Z -> bool) (e : Z) : Z :=
  byte_of_bits (map (fun k => line (sample_tick e (Z.of_nat k))) (seq 0 8)).

(** The receiver [n] ticks into a run on an outside line, started with
    the counter at [t]; the first falling edge shows in tick [e]; [x0]
    and [sr0] are the mailbox byte and the status register at the
    start. *)
Definition ext_inv (line : Z -> bool) (t e x0 sr0 n : Z) (s : machine) : Prop :=
  Z.land (TACTL s) MC_3 = MC_2 /\ TAR s = u16 (t + n) /\
  Z.testbit (TACCTL1 s) 4 = true /\ Z.testbit (TACCTL1 s) 15 = true /\
  Z.testbit (TACCTL1 s) 14 = false /\ Z.testbit (TACCTL1 s) 3 = line n /\
  if n <? e then
    Z.testbit (TACCTL1 s) 8 = true /\ rxBitCnt s = 8 /\
    0 <= rxData s < 2 ^ 8 /\ rxBuffer s = x0 /\ SR s = sr0
  else if n <? sample_tick e 7 then
    Z.testbit (TACCTL1 s) 8 = false /\
    TACCR1 s = u16 (t + sample_tick e (samples_since (n - e))) /\
    rxBitCnt s = 8 - samples_since (n - e) /\ 0 <= rxData s < 2 ^ 8 /\
    (forall i, 0 <= i < samples_since (n - e) ->
       Z.testbit (rxData s) (8 - samples_since (n - e) + i) =
       line (sample_tick e i)) /\
    rxBuffer s = x0 /\ SR s = sr0
  else
    Z.testbit (TACCTL1 s) 8 = true /\ rxBitCnt s = 8 /\
    rxData s = rx_byte line e /\ rxBuffer s = rx_byte line e /\
    main_awake s = true.

(** An outside sender: mark until tick [e], then an 8N1 frame of [b] with
    a bit period of [P] ticks. *)
Definition sender_line (b P e : Z) (i : Z) : bool := uart_level b ((i - e) / P).

(** A line at mark but for a low pulse of [w] ticks from tick [e] on. *)
Definition pulse_line (e w : Z) (i : Z) : bool :=
  negb ((e <=? i) && (i <? e + w)).

(** The transmitter at rest as the code leaves it: channel 0 programmed
    by [TimerA_UART_init] (OUT) or left by the last handler call of a
    frame (OUTMOD0), either of which holds the line at mark. *)
Definition tx_rest (s : machine) : Prop :=
  timer_running s /\ (TACCTL0 s = OUT \/ TACCTL0 s = OUTMOD0) /\
  txBitCnt s = 10 /\ TXD s = true.

(** ** Printing a string *)

(** A [char] passed as [unsigned char]. *)
Definition char_code (c : Ascii.ascii) : Z := Z.of_N (Ascii.N_of_ascii c).

(** [TimerA_UART_print] (lines 152-157).  [string] is the text at the
    pointer; the end of the text stands for the terminating NUL. *)
Fixpoint TimerA_UART_print (string : String.string) (env : list rx_source)
  (s : machine) : option (machine * list rx_source) :=
  match string with
  | String.EmptyString => Some (s, env)
  | String.String c rest =>
      if nonzero (char_code c) then
        match TimerA_UART_tx (char_code c) env s with
        | None => None
        | Some (s', env') => TimerA_UART_print rest env' s'
        end
      else Some (s, env)
  end.

(** No NUL inside the text. *)
Fixpoint no_nul (string : String.string) : bool :=
  match string with
  | String.EmptyString => true
  | String.String c rest => nonzero (char_code c) && no_nul rest
  end.

(** ** The program (lines 82-125)

    [main] as far as it concerns Port 1's output register and the timer:
    the watchdog, the clock calibration, the pin functions and Port 2 are
    not modelled.  Lines 91-92 give P1.1 and P1.2 to the timer as TXD and
    RXD, so in [main] bits 1 and 2 of the register, CLOCK and LATCH to the
    display driver, are not the levels of those pins: what is proved of
    [main] about Port 1 is about the register. *)

(** The texts printed at start. *)
Definition CRLF : String.string :=
  String.String "013"%char (String.String "010"%char String.EmptyString).
Definition banner_name : String.string :=
  String.append "G2xx1 TimerA UART"%string CRLF.
Definition banner_ready : String.string :=
  String.append "READY."%string CRLF.

(** [main] up to its loop (lines 90-101). *)
Definition main_start (env : list rx_source) (s : machine) (p : port)
  : option (machine * port * list rx_source) :=
  let p := store_P1OUT 0x00 p in
  let s := TimerA_UART_init s in
  match TimerA_UART_print banner_name env s with
  | None => None
  | Some (s, env) =>
      match TimerA_UART_print banner_ready env s with
      | None => None
      | Some (s, env) => Some (s, p, env)
      end
  end.

(** The foreground stopped by [__bis_SR_register(LPM0_bits)] (line 106)
    until a handler clears the bits on its exit; [None] when [env] ends
    first. *)
Fixpoint main_wait (env : list rx_source) (s : machine) {struct env}
  : option (machine * list rx_source) :=
  if main_awake s then Some (s, env)
  else match env with
       | [] => None
       | src :: env' => main_wait env' (tick src s)
       end.

(** One pass of the loop of [main] (lines 106-123).  The timer runs on
    while [setRows] executes; [busy] is the number of ticks it takes, which
    the source does not fix.  The handlers that run meanwhile do not touch
    Port 1. *)
Definition main_loop (busy : nat) (env : list rx_source) (s : machine)
  (p : port) : option (machine * port * list rx_source) :=
  match main_wait env (main_sleep s) with
  | None => None
  | Some (s, env) =>
      let p := setRows 0 (main_read s) p in
      if (length env <? busy)%nat then None
      else
        let s := run (firstn busy env) s in
        let env := skipn busy env in
        match TimerA_UART_tx (main_read s) env s with
        | None => None
        | Some (s, env) => Some (s, p, env)
        end
  end.

(** * Properties *)

(** ** Bits and wrap-around *)

Lemma nonzero_land_bit (r m k : Z) :
  0 <= k -> m = 2 ^ k -> nonzero (Z.land r m) = Z.testbit r k.
Proof.
  intros Hk ->. unfold nonzero.
  destruct (Z.testbit r k) eqn:E.
  - destruct (Z.eqb_spec (Z.land r (2 ^ k)) 0) as [H|H]; [|reflexivity].
    assert (Hb : Z.testbit (Z.land r (2 ^ k)) k = true).
    { rewrite Z.land_spec, E, Z.pow2_bits_true by lia. reflexivity. }
    rewrite H, Z.bits_0 in Hb. discriminate.
  - assert (H : Z.land r (2 ^ k) = 0).
    { apply Z.bits_inj'. intros i Hi. rewrite Z.land_spec, Z.bits_0.
      destruct (Z.eq_dec i k) as [->|Hne].
      - rewrite E. reflexivity.
      - rewrite Z.pow2_bits_false by lia. apply andb_false_r. }
    rewrite H. reflexivity.
Qed.

Lemma tst_CCI r : nonzero (Z.land r CCI) = Z.testbit r 3.
Proof. apply nonzero_land_bit; [lia | reflexivity]. Qed.
Lemma tst_CCIE r : nonzero (Z.land r CCIE) = Z.testbit r 4.
Proof. apply nonzero_land_bit; [lia | reflexivity]. Qed.
Lemma tst_CAP r : nonzero (Z.land r CAP) = Z.testbit r 8.
Proof. apply nonzero_land_bit; [lia | reflexivity]. Qed.
Lemma tst_SCCI r : nonzero (Z.land r SCCI) = Z.testbit r 10.
Proof. apply nonzero_land_bit; [lia | reflexivity]. Qed.
Lemma tst_CM0 r : nonzero (Z.land r CM0) = Z.testbit r 14.
Proof. apply nonzero_land_bit; [lia | reflexivity]. Qed.
Lemma tst_CM1 r : nonzero (Z.land r CM1) = Z.testbit r 15.
Proof. apply nonzero_land_bit; [lia | reflexivity]. Qed.
Lemma tst_LPM0 r : nonzero (Z.land r LPM0_bits) = Z.testbit r 4.
Proof. apply nonzero_land_bit; [lia | reflexivity]. Qed.
Lemma tst_bit0 r : nonzero (Z.land r 0x01) = Z.testbit r 0.
Proof. apply nonzero_land_bit; [lia | reflexivity]. Qed.

Lemma testbit_inv16 (j k : Z) :
  0 <= j -> 0 <= k ->
  Z.testbit (inv16 (2 ^ j)) k = (k <? 16) && negb (k =? j).
Proof.
  intros Hj Hk. unfold inv16, u16.
  destruct (Z.ltb_spec k 16) as [Hlt|Hge].
  - rewrite Z.mod_pow2_bits_low, Z.lnot_spec by lia.
    destruct (Z.eqb_spec k j) as [->|Hne].
    + rewrite Z.pow2_bits_true by lia. reflexivity.
    + rewrite Z.pow2_bits_false by lia. reflexivity.
  - rewrite Z.mod_pow2_bits_high by lia. reflexivity.
Qed.

Lemma testbit_setbit (r m j k : Z) (v : bool) :
  m = 2 ^ j -> 0 <= j -> 0 <= k < 16 ->
  Z.testbit (setbit r m v) k = if k =? j then v else Z.testbit r k.
Proof.
  intros -> Hj Hk. unfold setbit. destruct v.
  - rewrite Z.lor_spec. destruct (Z.eqb_spec k j) as [->|Hne].
    + rewrite Z.pow2_bits_true by lia. apply orb_true_r.
    + rewrite Z.pow2_bits_false by lia. apply orb_false_r.
  - rewrite Z.land_spec, testbit_inv16 by lia.
    destruct (Z.eqb_spec k j), (Z.ltb_spec k 16); try lia;
      cbn; rewrite ?andb_false_r, ?andb_true_r; reflexivity.
Qed.

Lemma testbit_clear (r m j k : Z) :
  m = 2 ^ j -> 0 <= j -> 0 <= k < 16 ->
  Z.testbit (Z.land r (inv16 m)) k = if k =? j then false else Z.testbit r k.
Proof. intros. apply (testbit_setbit r m j k false); assumption. Qed.

Lemma testbit_set (r m j k : Z) :
  m = 2 ^ j -> 0 <= j -> 0 <= k < 16 ->
  Z.testbit (Z.lor r m) k = if k =? j then true else Z.testbit r k.
Proof. intros. apply (testbit_setbit r m j k true); assumption. Qed.

Lemma setbit_same (r m j : Z) :
  m = 2 ^ j -> 0 <= j < 16 -> 0 <= r < 2 ^ 16 ->
  setbit r m (Z.testbit r j) = r.
Proof.
  intros Hm Hj Hr. apply Z.bits_inj'. intros k Hk.
  destruct (Z.ltb_spec k 16) as [Hlt|Hge].
  - rewrite (testbit_setbit r m j k) by (auto; lia).
    destruct (Z.eqb_spec k j) as [->|]; reflexivity.
  - assert (Hhi : Z.testbit r k = false).
    { destruct (Z.eq_dec r 0) as [->|Hnz]; [apply Z.bits_0|].
      apply Z.bits_above_log2; [lia|].
      assert (Z.log2 r < 16) by (apply Z.log2_lt_pow2; lia). lia. }
    rewrite Hhi. unfold setbit. destruct (Z.testbit r j).
    + rewrite Z.lor_spec, Hhi. subst m. rewrite Z.pow2_bits_false by lia.
      reflexivity.
    + rewrite Z.land_spec, Hhi. reflexivity.
Qed.

Lemma u16_range z : 0 <= u16 z < 2 ^ 16.
Proof. unfold u16. apply Z.mod_pos_bound. lia. Qed.

Lemma u8_range z : 0 <= u8 z < 2 ^ 8.
Proof. unfold u8. apply Z.mod_pos_bound. lia. Qed.

Lemma u16_add_l a b : u16 (u16 a + b) = u16 (a + b).
Proof. unfold u16. apply Zplus_mod_idemp_l. Qed.

Lemma u16_small z : 0 <= z < 2 ^ 16 -> u16 z = z.
Proof. intros. apply Z.mod_small. assumption. Qed.

Lemma u8_small z : 0 <= z < 2 ^ 8 -> u8 z = z.
Proof. intros. apply Z.mod_small. assumption. Qed.

(** Two counter values less than a wrap apart are equal only at the same
    offset. *)
Lemma u16_eqb_offset t a c :
  - 2 ^ 16 < a - c < 2 ^ 16 ->
  (u16 (t + a) =? u16 (t + c)) = (a =? c).
Proof.
  intros H. unfold u16.
  destruct (Z.eqb_spec a c) as [->|Hne]; [apply Z.eqb_refl|].
  apply Z.eqb_neq. intros E.
  assert (Hd : (a - c) mod 2 ^ 16 = 0).
  { replace (a - c) with ((t + a) - (t + c)) by lia.
    rewrite Zminus_mod, E, Z.sub_diag. reflexivity. }
  apply Z.mod_divide in Hd; [|lia]. destruct Hd as [q Hq].
  change (2 ^ 16) with 65536 in *. lia.
Qed.

Lemma bits_range (z n : Z) : 0 <= n -> 0 <= z < 2 ^ n ->
  forall k, n <= k -> Z.testbit z k = false.
Proof.
  intros Hn Hz k Hk.
  destruct (Z.eq_dec z 0) as [->|Hnz]; [apply Z.bits_0|].
  apply Z.bits_above_log2; [lia|].
  assert (Z.log2 z < n) by (apply Z.log2_lt_pow2; lia). lia.
Qed.

Lemma bits_eq_range (x y n : Z) :
  0 <= n -> 0 <= x < 2 ^ n -> 0 <= y < 2 ^ n ->
  (forall k, 0 <= k < n -> Z.testbit x k = Z.testbit y k) -> x = y.
Proof.
  intros Hn Hx Hy H. apply Z.bits_inj'. intros k Hk.
  destruct (Z.ltb_spec k n).
  - apply H. lia.
  - rewrite (bits_range x n), (bits_range y n) by lia. reflexivity.
Qed.

(** ** Bit timing *)

Lemma TBIT_halved clock baud :
  0 <= clock -> 0 < baud -> TBIT_DIV_2 clock baud = TBIT clock baud / 2.
Proof.
  intros Hc Hb. unfold TBIT_DIV_2, TBIT.
  rewrite Z.div_div by lia. reflexivity.
Qed.

(** C5: the two bit-period constants are truncating quotients,
    full = clock / baud and half = clock / (2 * baud) = full / 2; at
    1 MHz and 9600 baud they are 104 and 52 ticks, both positive, and the
    half period is within one tick of half the full period, taken either
    on the truncated or on the exact full period. *)
Theorem bit_period_constants :
  UART_TBIT = TBIT 1000000 9600 /\
  UART_TBIT_DIV_2 = TBIT_DIV_2 1000000 9600 /\
  UART_TBIT = 104 /\ UART_TBIT_DIV_2 = 52 /\
  UART_TBIT_DIV_2 = UART_TBIT / 2 /\
  0 < UART_TBIT /\ 0 < UART_TBIT_DIV_2 /\
  Z.abs (2 * UART_TBIT_DIV_2 - UART_TBIT) <= 2 /\
  Z.abs (2 * 9600 * UART_TBIT_DIV_2 - 1000000) <= 2 * 9600 /\
  (forall clock baud, 0 <= clock -> 0 < baud ->
     TBIT_DIV_2 clock baud = TBIT clock baud / 2).
Proof.
  repeat split; try reflexivity; try (vm_compute; discriminate).
  apply TBIT_halved.
Qed.

(** ** Ownership of state *)

(** Unfolds the handlers and the channels down to the record fields,
    leaving the arithmetic as it stands. *)
Ltac munfold :=
  cbv beta iota zeta delta
    [TAR TACTL TACCR0 TACCTL0 TACCR1 TACCTL1 SR TXD txData rxBuffer
     txBitCnt rxBitCnt rxData
     set_TAR set_TACTL set_TACCR0 set_TACCTL0 set_TACCR1 set_TACCTL1 set_SR
     set_TXD set_txData set_rxBuffer set_txBitCnt set_rxBitCnt set_rxData
     tx_view rx_view write_TACCTL0 Timer_A0_ISR Timer_A1_ISR
     count tx_unit irq1 capture1 compare_match1 rx_unit].

Ltac munfold_in H :=
  cbv beta iota zeta delta
    [TAR TACTL TACCR0 TACCTL0 TACCR1 TACCTL1 SR TXD txData rxBuffer
     txBitCnt rxBitCnt rxData
     set_TAR set_TACTL set_TACCR0 set_TACCTL0 set_TACCR1 set_TACCTL1 set_SR
     set_TXD set_txData set_rxBuffer set_txBitCnt set_rxBitCnt set_rxData
     tx_view rx_view write_TACCTL0 Timer_A0_ISR Timer_A1_ISR
     count tx_unit irq1 capture1 compare_match1 rx_unit] in H.

(** Reads a field of a state built by the setters. *)
Ltac mproj :=
  cbn [TAR TACTL TACCR0 TACCTL0 TACCR1 TACCTL1 SR TXD txData rxBuffer
       txBitCnt rxBitCnt rxData
       set_TAR set_TACTL set_TACCR0 set_TACCTL0 set_TACCR1 set_TACCTL1 set_SR
       set_TXD set_txData set_rxBuffer set_txBitCnt set_rxBitCnt set_rxData].

(** Case analysis on the conditions of the code, innermost first; a
    condition met again is rewritten with the case already chosen. *)
Ltac split_if :=
  match goal with
  | H : ?c = _ |- context [if ?c then _ else _] => rewrite H
  | |- context [if ?c then _ else _] =>
      lazymatch c with
      | context [if _ then _ else _] => fail
      | _ => destruct c eqn:?
      end
  end.
Ltac split_ifs := munfold; repeat (split_if; munfold).

Lemma Timer_A0_ISR_frame s :
  TAR (Timer_A0_ISR s) = TAR s /\ TACTL (Timer_A0_ISR s) = TACTL s /\
  rx_view (Timer_A0_ISR s) = rx_view s.
Proof. destruct s. munfold. split_ifs; repeat split. Qed.

Lemma Timer_A1_ISR_frame taiv s :
  TAR (Timer_A1_ISR taiv s) = TAR s /\ TACTL (Timer_A1_ISR taiv s) = TACTL s /\
  tx_view (Timer_A1_ISR taiv s) = tx_view s.
Proof. destruct s. munfold. split_ifs; repeat split. Qed.

Lemma tx_unit_frame s :
  TAR (tx_unit s) = TAR s /\ TACTL (tx_unit s) = TACTL s /\
  rx_view (tx_unit s) = rx_view s.
Proof. destruct s. munfold. split_ifs; repeat split. Qed.

Lemma rx_unit_frame l s :
  TAR (rx_unit l s) = TAR s /\ TACTL (rx_unit l s) = TACTL s /\
  tx_view (rx_unit l s) = tx_view s.
Proof. destruct s. munfold. split_ifs; repeat split. Qed.

Lemma count_frame s :
  TACTL (count s) = TACTL s /\ tx_view (count s) = tx_view s /\
  rx_view (count s) = rx_view s.
Proof. destruct s. munfold. split_ifs; repeat split. Qed.

Lemma Timer_A0_ISR_local s s' :
  tx_view s = tx_view s' -> tx_view (Timer_A0_ISR s) = tx_view (Timer_A0_ISR s').
Proof.
  destruct s, s'. munfold. intros H. injection H as -> -> -> -> ->.
  split_ifs; reflexivity.
Qed.

Lemma Timer_A1_ISR_local taiv s s' :
  rx_view s = rx_view s' ->
  rx_view (Timer_A1_ISR taiv s) = rx_view (Timer_A1_ISR taiv s').
Proof.
  destruct s, s'. munfold. intros H. injection H as -> -> -> -> -> ->.
  split_ifs; reflexivity.
Qed.

Lemma tx_unit_local s s' :
  TAR s = TAR s' -> tx_view s = tx_view s' ->
  tx_view (tx_unit s) = tx_view (tx_unit s').
Proof.
  destruct s, s'. munfold. intros -> H. injection H as -> -> -> -> ->.
  split_ifs; reflexivity.
Qed.

Lemma rx_unit_local l s s' :
  TAR s = TAR s' -> rx_view s = rx_view s' ->
  rx_view (rx_unit l s) = rx_view (rx_unit l s').
Proof.
  destruct s, s'. munfold. intros -> H. injection H as -> -> -> -> -> ->.
  split_ifs; reflexivity.
Qed.

Lemma machine_ext s s' :
  TAR s = TAR s' -> TACTL s = TACTL s' ->
  tx_view s = tx_view s' -> rx_view s = rx_view s' -> s = s'.
Proof.
  destruct s, s'. munfold. intros -> -> Ht Hr.
  injection Ht as -> -> -> -> ->. injection Hr as -> -> -> -> -> ->.
  reflexivity.
Qed.

Lemma ISRs_commute taiv s :
  Timer_A0_ISR (Timer_A1_ISR taiv s) = Timer_A1_ISR taiv (Timer_A0_ISR s).
Proof.
  destruct (Timer_A1_ISR_frame taiv s) as (T1 & C1 & V1).
  destruct (Timer_A0_ISR_frame s) as (T0 & C0 & V0).
  destruct (Timer_A0_ISR_frame (Timer_A1_ISR taiv s)) as (Ta & Ca & Va).
  destruct (Timer_A1_ISR_frame taiv (Timer_A0_ISR s)) as (Tb & Cb & Vb).
  apply machine_ext.
  - congruence.
  - congruence.
  - rewrite Vb. apply Timer_A0_ISR_local. exact V1.
  - rewrite Va. apply Timer_A1_ISR_local. symmetry. exact V0.
Qed.

(** C9: the state is the counter, its control register, the
    transmitter's part and the receiver's part with the mailbox, and
    nothing else.  The transmit handler (and channel 0 around it) leaves
    the receiver's part, the counter and its control register as they
    are, the receive handler (and channel 1) leaves the transmitter's
    part, the counter and its control register as they are; what each
    writes to its own part depends on its own part and, for the channels,
    on the counter only; the two handlers commute. *)
Theorem tx_rx_disjoint (s : machine) (taiv : Z) (rxd : bool) :
  (forall s1 s2, TAR s1 = TAR s2 -> TACTL s1 = TACTL s2 ->
     tx_view s1 = tx_view s2 -> rx_view s1 = rx_view s2 -> s1 = s2) /\
  (rx_view (Timer_A0_ISR s) = rx_view s /\ TAR (Timer_A0_ISR s) = TAR s /\
   TACTL (Timer_A0_ISR s) = TACTL s) /\
  (tx_view (Timer_A1_ISR taiv s) = tx_view s /\
   TAR (Timer_A1_ISR taiv s) = TAR s /\
   TACTL (Timer_A1_ISR taiv s) = TACTL s) /\
  (rx_view (tx_unit s) = rx_view s /\ TAR (tx_unit s) = TAR s /\
   TACTL (tx_unit s) = TACTL s) /\
  (tx_view (rx_unit rxd s) = tx_view s /\ TAR (rx_unit rxd s) = TAR s /\
   TACTL (rx_unit rxd s) = TACTL s) /\
  (forall s', tx_view s = tx_view s' ->
     tx_view (Timer_A0_ISR s) = tx_view (Timer_A0_ISR s')) /\
  (forall s', rx_view s = rx_view s' ->
     rx_view (Timer_A1_ISR taiv s) = rx_view (Timer_A1_ISR taiv s')) /\
  (forall s', TAR s = TAR s' -> tx_view s = tx_view s' ->
     tx_view (tx_unit s) = tx_view (tx_unit s')) /\
  (forall s', TAR s = TAR s' -> rx_view s = rx_view s' ->
     rx_view (rx_unit rxd s) = rx_view (rx_unit rxd s')) /\
  Timer_A0_ISR (Timer_A1_ISR taiv s) = Timer_A1_ISR taiv (Timer_A0_ISR s).
Proof.
  destruct (Timer_A0_ISR_frame s) as (H1 & C1 & H2).
  destruct (Timer_A1_ISR_frame taiv s) as (H3 & C2 & H4).
  destruct (tx_unit_frame s) as (H5 & C3 & H6).
  destruct (rx_unit_frame rxd s) as (H7 & C4 & H8).
  split; [exact machine_ext|].
  repeat split; auto.
  - apply Timer_A0_ISR_local.
  - apply Timer_A1_ISR_local.
  - apply tx_unit_local.
  - apply rx_unit_local.
  - apply ISRs_commute.
Qed.

(** ** The receive handler *)

Lemma testbit_shift_in a l j :
  0 <= a < 2 ^ 8 -> 0 <= j ->
  Z.testbit (shift_in a l) j = if j =? 7 then l else (j <? 7) && Z.testbit a (j + 1).
Proof.
  intros Ha Hj. unfold shift_in.
  rewrite Z.lor_spec, Z.shiftr_spec by lia.
  destruct (Z.eqb_spec j 7) as [->|Hne].
  - rewrite (bits_range a 8) by lia. destruct l; reflexivity.
  - assert (Hm : Z.testbit (if l then 128 else 0) j = false).
    { destruct l; [|apply Z.bits_0].
      change 128 with (2 ^ 7). apply Z.pow2_bits_false. lia. }
    rewrite Hm, orb_false_r.
    destruct (Z.ltb_spec j 7); [reflexivity|].
    apply (bits_range a 8); lia.
Qed.

Lemma range_of_bits z n :
  0 <= n -> 0 <= z -> (forall k, n <= k -> Z.testbit z k = false) ->
  0 <= z < 2 ^ n.
Proof.
  intros Hn Hz H.
  assert (E : z = z mod 2 ^ n).
  { apply Z.bits_inj'. intros k Hk. destruct (Z.ltb_spec k n).
    - rewrite Z.mod_pow2_bits_low by lia. reflexivity.
    - rewrite Z.mod_pow2_bits_high by lia. apply H. lia. }
  rewrite E. apply Z.mod_pos_bound. lia.
Qed.

Lemma shift_in_range a l : 0 <= a < 2 ^ 8 -> 0 <= shift_in a l < 2 ^ 8.
Proof.
  intros Ha. apply range_of_bits; [lia| |].
  - unfold shift_in. apply Z.lor_nonneg. split.
    + apply Z.shiftr_nonneg. lia.
    + destruct l; lia.
  - intros k Hk. rewrite testbit_shift_in by lia.
    destruct (Z.eqb_spec k 7); [lia|]. destruct (Z.ltb_spec k 7); [lia|].
    reflexivity.
Qed.

Lemma ISR1_capture s :
  capturing s ->
  Timer_A1_ISR TAIV_TACCR1 s =
  set_TACCR1 (u16 (u16 (TACCR1 s + UART_TBIT) + UART_TBIT_DIV_2))
    (set_TACCTL1 (Z.land (TACCTL1 s) (inv16 CAP)) s).
Proof.
  unfold capturing. destruct s. munfold. intros H.
  rewrite Z.eqb_refl, H. reflexivity.
Qed.

Lemma ISR1_sample s :
  sampling s -> u8 (rxBitCnt s - 1) <> 0 ->
  Timer_A1_ISR TAIV_TACCR1 s =
  set_rxBitCnt (u8 (rxBitCnt s - 1))
    (set_rxData (shift_in (rxData s) (nonzero (Z.land (TACCTL1 s) SCCI)))
       (set_TACCR1 (u16 (TACCR1 s + UART_TBIT)) s)).
Proof.
  unfold sampling, shift_in.
  destruct s as [tar tactl ccr0 ctl0 ccr1 ctl1 sr txd txdata rxbuf txcnt rxcnt rxdata].
  munfold. intros H Hc.
  apply Z.eqb_neq in Hc. rewrite Z.eqb_refl, H.
  destruct (nonzero (Z.land ctl1 SCCI)); munfold; rewrite Hc;
    rewrite ?Z.lor_0_r; reflexivity.
Qed.

Lemma ISR1_complete s :
  sampling s -> u8 (rxBitCnt s - 1) = 0 ->
  Timer_A1_ISR TAIV_TACCR1 s =
  let d := shift_in (rxData s) (nonzero (Z.land (TACCTL1 s) SCCI)) in
  set_SR (Z.land (SR s) (inv16 LPM0_bits))
    (set_TACCTL1 (Z.lor (TACCTL1 s) CAP)
       (set_rxBitCnt 8
          (set_rxBuffer d
             (set_rxData d
                (set_TACCR1 (u16 (TACCR1 s + UART_TBIT)) s))))).
Proof.
  unfold sampling, shift_in.
  destruct s as [tar tactl ccr0 ctl0 ccr1 ctl1 sr txd txdata rxbuf txcnt rxcnt rxdata].
  munfold. intros H Hc.
  apply Z.eqb_eq in Hc. rewrite Z.eqb_refl, H.
  destruct (nonzero (Z.land ctl1 SCCI)); munfold; rewrite Hc;
    rewrite ?Z.lor_0_r; reflexivity.
Qed.

Lemma testbit_byte_of_bits bits (i : nat) :
  Z.testbit (byte_of_bits bits) (Z.of_nat i) = nth i bits false.
Proof.
  revert i. induction bits as [|b r IH]; intros i.
  - cbn. rewrite Z.bits_0. destruct i; reflexivity.
  - cbn [byte_of_bits]. rewrite Z.add_comm. destruct i as [|i].
    + cbn [nth Z.of_nat]. apply Z.testbit_0_r.
    + rewrite Nat2Z.inj_succ, Z.testbit_succ_r by lia. apply IH.
Qed.

Lemma byte_of_bits_range bits :
  0 <= byte_of_bits bits < 2 ^ Z.of_nat (length bits).
Proof.
  induction bits as [|b r IH].
  - cbn. lia.
  - cbn [byte_of_bits length]. rewrite Nat2Z.inj_succ, Z.pow_succ_r by lia.
    destruct b; cbn [Z.b2z]; lia.
Qed.

Lemma shift_in_all_bits bits r :
  0 <= r < 2 ^ 8 -> (length bits <= 8)%nat ->
  0 <= fold_left shift_in bits r < 2 ^ 8 /\
  forall i, (i < length bits)%nat ->
    Z.testbit (fold_left shift_in bits r)
              (8 - Z.of_nat (length bits) + Z.of_nat i) = nth i bits false.
Proof.
  intros Hr. induction bits as [|l bits IH] using rev_ind; intros Hn.
  - cbn. split; [exact Hr | intros i Hi; lia].
  - rewrite length_app in *. cbn [length] in *.
    destruct IH as [Ha Hb]; [lia|].
    rewrite fold_left_app. cbn [fold_left]. split.
    + apply shift_in_range. exact Ha.
    + intros i Hi. rewrite testbit_shift_in by (auto; lia).
      destruct (Nat.eq_dec i (length bits)) as [->|Hne].
      * rewrite nth_middle.
        replace (8 - Z.of_nat (length bits + 1) + Z.of_nat (length bits))
          with 7 by lia.
        reflexivity.
      * rewrite app_nth1 by lia. rewrite <- Hb by lia.
        destruct (Z.eqb_spec (8 - Z.of_nat (length bits + 1) + Z.of_nat i) 7);
          [lia|].
        destruct (Z.ltb_spec (8 - Z.of_nat (length bits + 1) + Z.of_nat i) 7);
          [|lia].
        cbn [andb]. f_equal. lia.
Qed.

Lemma shift_in_all_byte bits r :
  0 <= r < 2 ^ 8 -> length bits = 8%nat ->
  fold_left shift_in bits r = byte_of_bits bits.
Proof.
  intros Hr Hn. destruct (shift_in_all_bits bits r Hr) as [Ha Hb]; [lia|].
  apply (bits_eq_range _ _ 8); [lia | exact Ha | |].
  - pose proof (byte_of_bits_range bits) as H. rewrite Hn in H. exact H.
  - intros k Hk. rewrite <- (Z2Nat.id k) by lia.
    rewrite testbit_byte_of_bits. rewrite <- Hb by lia.
    f_equal. rewrite Hn. lia.
Qed.

Section Sampling.

(** A compare match of channel 1 as the handler meets it: the hardware has
    rewritten the control register by [hw], keeping the mode and the
    interrupt enable and latching [latched] into SCCI. *)
Variable A : Type.
Variable hw : A -> Z -> Z.
Variable latched : A -> bool.
Hypothesis hw_CAP : forall a r, Z.testbit (hw a r) 8 = Z.testbit r 8.
Hypothesis hw_CCIE : forall a r, Z.testbit (hw a r) 4 = Z.testbit r 4.
Hypothesis hw_SCCI : forall a r, Z.testbit (hw a r) 10 = latched a.

Lemma match_step_sample a s :
  sampling s -> rx_irq_enabled s -> u8 (rxBitCnt s - 1) <> 0 ->
  match_step hw a s =
  set_rxBitCnt (u8 (rxBitCnt s - 1))
    (set_rxData (shift_in (rxData s) (latched a))
       (set_TACCR1 (u16 (TACCR1 s + UART_TBIT))
          (set_TACCTL1 (hw a (TACCTL1 s)) s))).
Proof.
  unfold sampling, rx_irq_enabled, match_step, irq1.
  rewrite tst_CAP, tst_CCIE. intros Hc He Hn.
  cbn [TACCTL1 set_TACCTL1]. rewrite tst_CCIE, hw_CCIE, He.
  rewrite ISR1_sample.
  - cbn [TACCTL1 set_TACCTL1 rxData rxBitCnt TACCR1].
    rewrite tst_SCCI, hw_SCCI. reflexivity.
  - unfold sampling. cbn [TACCTL1 set_TACCTL1]. rewrite tst_CAP, hw_CAP. exact Hc.
  - exact Hn.
Qed.

Lemma match_step_complete a s :
  sampling s -> rx_irq_enabled s -> u8 (rxBitCnt s - 1) = 0 ->
  match_step hw a s =
  let d := shift_in (rxData s) (latched a) in
  set_SR (Z.land (SR s) (inv16 LPM0_bits))
    (set_TACCTL1 (Z.lor (hw a (TACCTL1 s)) CAP)
       (set_rxBitCnt 8
          (set_rxBuffer d
             (set_rxData d
                (set_TACCR1 (u16 (TACCR1 s + UART_TBIT))
                   (set_TACCTL1 (hw a (TACCTL1 s)) s)))))).
Proof.
  unfold sampling, rx_irq_enabled, match_step, irq1.
  rewrite tst_CAP, tst_CCIE. intros Hc He Hn.
  cbn [TACCTL1 set_TACCTL1]. rewrite tst_CCIE, hw_CCIE, He.
  rewrite ISR1_complete.
  - cbn [TACCTL1 set_TACCTL1 rxData rxBitCnt TACCR1 SR].
    rewrite tst_SCCI, hw_SCCI. reflexivity.
  - unfold sampling. cbn [TACCTL1 set_TACCTL1]. rewrite tst_CAP, hw_CAP. exact Hc.
  - exact Hn.
Qed.

(** Fewer matches than bits outstanding: the receiver keeps sampling. *)
Lemma match_steps_partial (items : list A) : forall s,
  sampling s -> rx_irq_enabled s ->
  Z.of_nat (length items) < rxBitCnt s <= 8 ->
  let s' := fold_left (fun s a => match_step hw a s) items s in
  sampling s' /\ rx_irq_enabled s' /\
  rxBitCnt s' = rxBitCnt s - Z.of_nat (length items) /\
  rxData s' = fold_left shift_in (map latched items) (rxData s) /\
  u16 (TACCR1 s') = u16 (TACCR1 s + UART_TBIT * Z.of_nat (length items)) /\
  rxBuffer s' = rxBuffer s /\ SR s' = SR s /\
  TAR s' = TAR s /\ TACTL s' = TACTL s /\ tx_view s' = tx_view s.
Proof.
  induction items as [|a items IH]; intros s Hs He Hn.
  - cbn [fold_left length map Z.of_nat]. rewrite Z.mul_0_r, Z.add_0_r.
    repeat split; auto; lia.
  - cbn [fold_left length map] in *.
    assert (Hc : u8 (rxBitCnt s - 1) = rxBitCnt s - 1) by (apply u8_small; lia).
    rewrite match_step_sample by (auto; lia).
    rewrite Hc.
    match goal with |- context [fold_left _ items ?x] => specialize (IH x) end.
    destruct IH as (I1 & I2 & I3 & I4 & I5 & I6 & I7 & I8 & I9 & I10).
    + unfold sampling in *. unfold tx_view; mproj. rewrite tst_CAP in *.
      rewrite hw_CAP. exact Hs.
    + unfold rx_irq_enabled in *. unfold tx_view; mproj. rewrite tst_CCIE in *.
      rewrite hw_CCIE. exact He.
    + unfold tx_view; mproj. lia.
    + rewrite I3, I4, I5, I6, I7, I8, I9, I10. unfold tx_view; mproj.
      repeat split; try assumption.
      * lia.
      * rewrite u16_add_l. f_equal. lia.
Qed.

(** As many matches as bits outstanding: the last one delivers. *)
Lemma match_steps_complete (items : list A) s :
  sampling s -> rx_irq_enabled s ->
  Z.of_nat (length items) = rxBitCnt s -> 0 < rxBitCnt s <= 8 ->
  let s' := fold_left (fun s a => match_step hw a s) items s in
  let d := fold_left shift_in (map latched items) (rxData s) in
  capturing s' /\ rx_irq_enabled s' /\ rxBitCnt s' = 8 /\
  rxData s' = d /\ rxBuffer s' = d /\ main_awake s' = true /\
  TACCR1 s' = u16 (TACCR1 s + UART_TBIT * Z.of_nat (length items)) /\
  TAR s' = TAR s /\ TACTL s' = TACTL s /\ tx_view s' = tx_view s.
Proof.
  intros Hs He Hlen Hn.
  destruct (exists_last (l := items)) as (front & a & ->).
  { intros ->. cbn in Hlen. lia. }
  rewrite length_app in *. cbn [length] in *.
  rewrite map_app, !fold_left_app. cbn [map fold_left].
  destruct (match_steps_partial front s) as
    (I1 & I2 & I3 & I4 & I5 & I6 & I7 & I8 & I9 & I10); auto; [lia|].
  set (s1 := fold_left (fun s a => match_step hw a s) front s) in *.
  rewrite match_step_complete; auto.
  2:{ rewrite I3. replace (rxBitCnt s - Z.of_nat (length front) - 1) with 0 by lia.
      reflexivity. }
  cbv zeta. rewrite <- I4, <- I8, <- I9, <- I10.
  unfold capturing, rx_irq_enabled, main_awake in *. unfold tx_view; mproj.
  rewrite tst_CAP, tst_CCIE, tst_LPM0 in *.
  rewrite (testbit_set _ CAP 8) by (try reflexivity; lia).
  rewrite (testbit_set _ CAP 8) by (try reflexivity; lia).
  rewrite (testbit_clear _ LPM0_bits 4) by (try reflexivity; lia).
  rewrite hw_CCIE, <- (u16_add_l (TACCR1 s1)), I5, u16_add_l.
  repeat split; auto. f_equal. lia.
Qed.

End Sampling.

Lemma hw_match_bits l r :
  Z.testbit (hw_match l r) 8 = Z.testbit r 8 /\
  Z.testbit (hw_match l r) 4 = Z.testbit r 4 /\
  Z.testbit (hw_match l r) 10 = l.
Proof.
  unfold hw_match.
  rewrite !(testbit_setbit r SCCI 10) by (try reflexivity; lia).
  repeat split.
Qed.

Lemma hw_match_late_bits lv r :
  Z.testbit (hw_match_late lv r) 8 = Z.testbit r 8 /\
  Z.testbit (hw_match_late lv r) 4 = Z.testbit r 4 /\
  Z.testbit (hw_match_late lv r) 10 = fst lv.
Proof.
  unfold hw_match_late.
  rewrite !(testbit_setbit _ CCI 3) by (try reflexivity; lia).
  rewrite !(testbit_setbit r SCCI 10) by (try reflexivity; lia).
  repeat split.
Qed.

Lemma capture1_spec s :
  capturing s -> rx_irq_enabled s ->
  capture1 s =
  set_TACCR1 (u16 (TAR s + UART_TBIT + UART_TBIT_DIV_2))
    (set_TACCTL1 (Z.land (TACCTL1 s) (inv16 CAP)) s).
Proof.
  unfold capturing, rx_irq_enabled, capture1, irq1. intros Hc He.
  mproj. rewrite He, ISR1_capture by exact Hc.
  mproj. rewrite u16_add_l. destruct s. reflexivity.
Qed.

Lemma rx_frame_spec bits s :
  rx_ready s -> length bits = 8%nat ->
  let s' := rx_frame bits s in
  rx_ready s' /\ rxBuffer s' = byte_of_bits bits /\ main_awake s' = true /\
  TAR s' = TAR s /\ TACTL s' = TACTL s /\ tx_view s' = tx_view s.
Proof.
  intros (Hc & He & Hn & Hr) Hlen. unfold rx_frame.
  rewrite capture1_spec by assumption.
  match goal with |- context [fold_left _ bits ?x] => set (s1 := x) end.
  assert (Hs1 : sampling s1).
  { unfold sampling, capturing, s1 in *. mproj. rewrite tst_CAP in *.
    rewrite (testbit_clear _ CAP 8) by (try reflexivity; lia). reflexivity. }
  assert (He1 : rx_irq_enabled s1).
  { unfold rx_irq_enabled, s1 in *. mproj. rewrite tst_CCIE in *.
    rewrite (testbit_clear _ CAP 8) by (try reflexivity; lia). exact He. }
  destruct (match_steps_complete bool hw_match (fun l => l)
              (fun a r => proj1 (hw_match_bits a r))
              (fun a r => proj1 (proj2 (hw_match_bits a r)))
              (fun a r => proj2 (proj2 (hw_match_bits a r)))
              bits s1 Hs1 He1)
    as (I1 & I2 & I3 & I4 & I5 & I6 & I7 & I8 & I9 & I10).
  { unfold s1. mproj. lia. }
  { unfold s1. mproj. lia. }
  change (fun s0 a => match_step hw_match a s0)
    with (fun s0 l => compare_match1 l s0) in *.
  rewrite map_id in *.
  rewrite shift_in_all_byte in * by (auto; unfold s1; mproj; lia).
  unfold rx_ready. rewrite I3, I4, I5, I8, I9, I10.
  pose proof (byte_of_bits_range bits) as Hb. rewrite Hlen in Hb.
  unfold s1, tx_view. mproj. repeat split; auto; lia.
Qed.

Lemma match_late_step lv s :
  sampling s -> rx_irq_enabled s ->
  TACCR1 (compare_match1_late lv s) = u16 (TACCR1 s + UART_TBIT) /\
  rxData (compare_match1_late lv s) = shift_in (rxData s) (fst lv).
Proof.
  intros Hs He.
  change (compare_match1_late lv s) with (match_step hw_match_late lv s).
  destruct (Z.eq_dec (u8 (rxBitCnt s - 1)) 0) as [Hz|Hz].
  - rewrite (match_step_complete _ hw_match_late fst) by
      (auto; intros; apply hw_match_late_bits).
    cbv zeta. mproj. split; reflexivity.
  - rewrite (match_step_sample _ hw_match_late fst) by
      (auto; intros; apply hw_match_late_bits).
    mproj. split; reflexivity.
Qed.

(** C3: in the Sampling state every compare match of channel 1 moves the
    compare target on by one full bit period (modulo [2^16]) and shifts
    the accumulator right by one with the level held in the SCCI latch
    entering at bit 7, whatever the level on the pin (the CCI bit) by the
    time the handler runs; after the 8 matches of a frame the accumulator
    is the byte of the 8 latched levels, the k-th one at bit k. *)
Theorem rx_sampling_accumulates (s : machine) (items : list (bool * bool)) :
  sampling s -> rx_irq_enabled s -> rxBitCnt s = 8 ->
  0 <= rxData s < 2 ^ 8 -> length items = 8%nat ->
  (forall s1 lv, sampling s1 -> rx_irq_enabled s1 ->
     TACCR1 (compare_match1_late lv s1) = u16 (TACCR1 s1 + UART_TBIT) /\
     rxData (compare_match1_late lv s1) = shift_in (rxData s1) (fst lv)) /\
  let s' := fold_left (fun s lv => compare_match1_late lv s) items s in
  rxData s' = byte_of_bits (map fst items) /\
  forall k, (k < 8)%nat ->
    Z.testbit (rxData s') (Z.of_nat k) = fst (nth k items (false, false)).
Proof.
  intros Hs He Hn Hr Hlen. split; [intros; apply match_late_step; assumption|].
  destruct (match_steps_complete _ hw_match_late fst
              (fun a r => proj1 (hw_match_late_bits a r))
              (fun a r => proj1 (proj2 (hw_match_late_bits a r)))
              (fun a r => proj2 (proj2 (hw_match_late_bits a r)))
              items s Hs He)
    as (_ & _ & _ & I4 & _); [lia | lia |].
  change (fun s0 a => match_step hw_match_late a s0)
    with (fun s0 lv => compare_match1_late lv s0) in *.
  cbv zeta. rewrite I4, shift_in_all_byte by (auto; rewrite length_map; auto).
  split; [reflexivity|].
  intros k Hk. rewrite testbit_byte_of_bits.
  change false with (fst (false, false)). apply map_nth.
Qed.

Lemma rx_sampling_accumulates_witness :
  let s := capture1 (init_state 0) in
  let items := [(true, false); (false, true); (false, true); (false, true);
                (false, true); (false, true); (true, false); (false, true)] in
  (sampling s /\ rx_irq_enabled s /\ rxBitCnt s = 8 /\ 0 <= rxData s < 2 ^ 8 /\
   length items = 8%nat) /\
  rxData (fold_left (fun s lv => compare_match1_late lv s) items s) = 0x41.
Proof.
  cbv zeta.
  assert (H : 0 <= rxData (capture1 (init_state 0)) < 2 ^ 8)
    by (vm_compute; split; [discriminate | reflexivity]).
  split.
  - repeat split; try reflexivity; apply H.
  - match goal with |- rxData (fold_left _ ?items ?s) = _ =>
      destruct (rx_sampling_accumulates s items) as [_ [Hb _]];
        [reflexivity | reflexivity | reflexivity | exact H | reflexivity
        | exact Hb]
    end.
Defined.

(** C4 (as amended): on a captured edge in the AwaitingEdge state the
    handler switches channel 1 to compare mode, which is the Sampling
    state, and sets the compare target to the captured time plus one and a
    half bit periods (modulo [2^16]); the accumulator, the bit counter and
    the mailbox are left as they are. *)
Theorem rx_start_edge (s : machine) :
  capturing s -> rx_irq_enabled s ->
  let s' := capture1 s in
  sampling s' /\ rx_irq_enabled s' /\
  TACCR1 s' = u16 (TAR s + UART_TBIT + UART_TBIT_DIV_2) /\
  rxData s' = rxData s /\ rxBitCnt s' = rxBitCnt s /\
  rxBuffer s' = rxBuffer s /\ SR s' = SR s.
Proof.
  intros Hc He. cbv zeta. rewrite capture1_spec by assumption.
  unfold sampling, rx_irq_enabled, capturing in *. mproj.
  rewrite tst_CAP, tst_CCIE in *.
  rewrite !(testbit_clear _ CAP 8) by (try reflexivity; lia).
  repeat split; auto.
Qed.

Lemma rx_start_edge_witness :
  let s := init_state 1000 in
  (capturing s /\ rx_irq_enabled s) /\
  sampling (capture1 s) /\ TACCR1 (capture1 s) = 1156.
Proof.
  cbv zeta. split; [split; vm_compute; reflexivity|].
  pose proof (rx_start_edge (init_state 1000) eq_refl eq_refl) as H.
  cbv zeta in H. destruct H as (H1 & _ & H3 & _).
  split; [exact H1 | exact H3].
Defined.

(** C4, as stated, fails: after a frame of 0xFF the next start edge finds
    the receiver waiting with the accumulator at 0xFF and the bit counter
    at 8, and the handler leaves both as they are, not at 0. *)
Lemma rx_start_edge_keeps_accumulator :
  let s := rx_frame (repeat true 8) (init_state 0) in
  (capturing s /\ rx_irq_enabled s /\ rxData s = 255 /\ rxBitCnt s = 8) /\
  (sampling (capture1 s) /\
   rxData (capture1 s) = 255 /\ rxBitCnt (capture1 s) = 8) /\
  (rxData (capture1 s) <> 0 /\ rxBitCnt (capture1 s) <> 0).
Proof. vm_compute. repeat split; (reflexivity || discriminate). Qed.

Lemma awake_after_clear sr :
  negb (nonzero (Z.land (Z.land sr (inv16 LPM0_bits)) LPM0_bits)) = true.
Proof.
  rewrite tst_LPM0, (testbit_clear _ LPM0_bits 4) by (try reflexivity; lia).
  reflexivity.
Qed.

(** The mailbox across one step of channel 1: untouched, or written and
    signalled together. *)
Lemma rx_unit_mailbox l s :
  (rxBuffer (rx_unit l s) = rxBuffer s /\ SR (rx_unit l s) = SR s) \/
  (rxBuffer (rx_unit l s) = rxData (rx_unit l s) /\
   main_awake (rx_unit l s) = true).
Proof.
  destruct s as [tar tactl ccr0 ctl0 ccr1 ctl1 sr txd txdata rxbuf txcnt rxcnt rxdata].
  unfold main_awake. split_ifs; auto; right; split; auto using awake_after_clear.
Qed.

Lemma tick_mailbox src s :
  (rxBuffer (tick src s) = rxBuffer s /\ SR (tick src s) = SR s) \/
  (rxBuffer (tick src s) = rxData (tick src s) /\
   main_awake (tick src s) = true).
Proof.
  unfold tick.
  set (s1 := tx_unit (count s)).
  assert (Hv : rx_view s1 = rx_view s).
  { unfold s1. destruct (tx_unit_frame (count s)) as (_ & _ & ->).
    apply count_frame. }
  unfold rx_view in Hv. injection Hv as _ _ _ _ Hb Hsr.
  rewrite <- Hb, <- Hsr. apply rx_unit_mailbox.
Qed.

(** C7: the compare match that takes the bit counter to zero stores the
    accumulator, with the eighth bit in it, to [rxBuffer], clears the
    low-power bits of the foreground status register, reloads the bit
    counter and puts channel 1 back in capture mode by setting CAP and
    nothing else in TACCTL1: the interrupt enable and the edge selection
    are kept, so a receiver that was armed before the frame is armed for
    the next one; and over any tick of the machine the mailbox is either
    untouched or holds the accumulator with the foreground awake: byte
    and wake-up come in one step. *)
Theorem rx_complete_delivers (s : machine) :
  sampling s -> rxBitCnt s = 1 ->
  let s' := Timer_A1_ISR TAIV_TACCR1 s in
  let d := shift_in (rxData s) (nonzero (Z.land (TACCTL1 s) SCCI)) in
  (rxData s' = d /\ rxBuffer s' = d /\ main_awake s' = true /\
   capturing s' /\ rxBitCnt s' = 8 /\
   TACCTL1 s' = Z.lor (TACCTL1 s) CAP /\
   SR s' = Z.land (SR s) (inv16 LPM0_bits) /\
   TACCR1 s' = u16 (TACCR1 s + UART_TBIT) /\
   (forall k, 0 <= k < 16 -> k <> 8 ->
      Z.testbit (TACCTL1 s') k = Z.testbit (TACCTL1 s) k) /\
   (rx_irq_enabled s -> nonzero (Z.land (TACCTL1 s) CM1) = true ->
    nonzero (Z.land (TACCTL1 s) CM0) = false -> 0 <= rxData s < 2 ^ 8 ->
    rx_armed s')) /\
  (forall src s0,
     (rxBuffer (tick src s0) = rxBuffer s0 /\ SR (tick src s0) = SR s0) \/
     (rxBuffer (tick src s0) = rxData (tick src s0) /\
      main_awake (tick src s0) = true)).
Proof.
  intros Hs Hn. cbv zeta. split; [|apply tick_mailbox].
  rewrite ISR1_complete by (auto; rewrite Hn; reflexivity).
  cbv zeta. unfold main_awake, capturing. mproj.
  rewrite awake_after_clear, tst_CAP.
  rewrite (testbit_set _ CAP 8) by (try reflexivity; lia).
  assert (Hbits : forall k, 0 <= k < 16 -> k <> 8 ->
            Z.testbit (Z.lor (TACCTL1 s) CAP) k = Z.testbit (TACCTL1 s) k).
  { intros k Hk Hne. rewrite (testbit_set _ CAP 8) by (try reflexivity; lia).
    destruct (Z.eqb_spec k 8); [lia | reflexivity]. }
  split; [reflexivity|]. split; [reflexivity|]. split; [reflexivity|].
  split; [reflexivity|]. split; [reflexivity|]. split; [reflexivity|].
  split; [reflexivity|]. split; [reflexivity|]. split; [exact Hbits|].
  intros Hie Hm1 Hm0 Hd.
  unfold rx_armed, rx_ready, capturing, rx_irq_enabled in *. mproj.
  rewrite tst_CAP, tst_CCIE, tst_CM1, tst_CM0 in *.
  rewrite (testbit_set _ CAP 8) by (try reflexivity; lia).
  rewrite !Hbits by lia.
  repeat split; auto; apply shift_in_range; exact Hd.
Qed.

Lemma rx_complete_delivers_witness :
  let s7 := fold_left (fun s l => compare_match1 l s)
              [true; false; false; false; false; false; true]
              (capture1 (init_state 0)) in
  let s := main_sleep (set_TACCTL1 (setbit (TACCTL1 s7) SCCI false) s7) in
  (sampling s /\ rxBitCnt s = 1) /\
  main_awake s = false /\
  rxBuffer (Timer_A1_ISR TAIV_TACCR1 s) = 0x41 /\
  main_awake (Timer_A1_ISR TAIV_TACCR1 s) = true.
Proof.
  cbv zeta. split; [split; reflexivity|]. split; [reflexivity|].
  match goal with |- rxBuffer (Timer_A1_ISR _ ?s) = _ /\ _ =>
    destruct (rx_complete_delivers s eq_refl eq_refl) as [(_ & Hb & Hw & _) _]
  end.
  split; [exact Hb | exact Hw].
Defined.

(** C10: two receivers ready for a frame, whatever their accumulators
    (and the rest of their state) hold, deliver the same byte for the same
    8 latched levels: the byte of those levels. *)
Theorem rx_frame_ignores_stale (s s' : machine) (bits : list bool) :
  rx_ready s -> rx_ready s' -> length bits = 8%nat ->
  rxBuffer (rx_frame bits s) = rxBuffer (rx_frame bits s') /\
  rxBuffer (rx_frame bits s) = byte_of_bits bits.
Proof.
  intros H H' Hlen.
  destruct (rx_frame_spec bits s H Hlen) as (_ & E & _).
  destruct (rx_frame_spec bits s' H' Hlen) as (_ & E' & _).
  split; congruence.
Qed.

Lemma rx_ready_init t : rx_ready (init_state t).
Proof. repeat split; try reflexivity; discriminate. Defined.

Lemma rx_frame_ignores_stale_witness :
  let bits := [true; false; false; false; false; false; true; false] in
  let s := init_state 0 in
  let s' := set_rxData 0xAA (init_state 7) in
  (rx_ready s /\ rx_ready s' /\ length bits = 8%nat) /\
  rxBuffer (rx_frame bits s) = rxBuffer (rx_frame bits s') /\
  rxBuffer (rx_frame bits s) = 0x41.
Proof.
  cbv zeta.
  assert (H : rx_ready (init_state 0)) by apply rx_ready_init.
  assert (H' : rx_ready (set_rxData 0xAA (init_state 7))).
  { repeat split; try reflexivity; discriminate. }
  split; [repeat split; try reflexivity; discriminate|].
  exact (rx_frame_ignores_stale (init_state 0) (set_rxData 0xAA (init_state 7))
           [true; false; false; false; false; false; true; false]
           H H' eq_refl).
Defined.

(** C8: two frames completed with no read in between leave the second
    byte in [rxBuffer] for the foreground to read, the foreground awake;
    the mailbox is then as after the second frame alone, so nothing keeps
    the first byte or tells of its loss. *)
Theorem mailbox_last_write_wins (s : machine) (bits1 bits2 : list bool) :
  rx_ready s -> length bits1 = 8%nat -> length bits2 = 8%nat ->
  let s1 := rx_frame bits1 s in
  let s2 := rx_frame bits2 s1 in
  main_read s1 = byte_of_bits bits1 /\
  main_read s2 = byte_of_bits bits2 /\ main_awake s2 = true /\
  rxBuffer s2 = rxBuffer (rx_frame bits2 s) /\
  main_awake s2 = main_awake (rx_frame bits2 s).
Proof.
  intros H L1 L2. cbv zeta.
  destruct (rx_frame_spec bits1 s H L1) as (R1 & E1 & _).
  destruct (rx_frame_spec bits2 _ R1 L2) as (_ & E2 & W2 & _).
  destruct (rx_frame_spec bits2 s H L2) as (_ & E & W & _).
  unfold main_read. repeat split; congruence.
Qed.

Lemma mailbox_last_write_wins_witness :
  let bits1 := [true; false; false; false; false; false; true; false] in
  let bits2 := [false; true; false; false; false; false; true; false] in
  let s := init_state 0 in
  (rx_ready s /\ length bits1 = 8%nat /\ length bits2 = 8%nat) /\
  main_read (rx_frame bits1 s) = 0x41 /\
  main_read (rx_frame bits2 (rx_frame bits1 s)) = 0x42.
Proof.
  cbv zeta.
  split; [repeat split; try reflexivity; discriminate|].
  destruct (mailbox_last_write_wins (init_state 0)
              [true; false; false; false; false; false; true; false]
              [false; true; false; false; false; false; true; false]
              (rx_ready_init 0) eq_refl eq_refl) as (H1 & H2 & _).
  split; [exact H1 | exact H2].
Defined.

(** ** The transmitter, tick by tick *)

Lemma frame_bit b j :
  0 <= j <= 9 -> Z.testbit (frame b) j = uart_level b j.
Proof.
  intros Hj. unfold frame, uart_level.
  rewrite Z.shiftl_spec, Z.lor_spec by lia.
  destruct (Z.ltb_spec j 0); [lia|].
  destruct (Z.eqb_spec j 0) as [->|Hnz].
  - reflexivity.
  - destruct (Z.leb_spec j 8).
    + change 256 with (2 ^ 8). rewrite Z.pow2_bits_false by lia.
      apply orb_false_r.
    + replace (j - 1) with 8 by lia. apply orb_true_r.
Qed.

Lemma frame_range b : 0 <= b < 2 ^ 8 -> 0 <= frame b < 2 ^ 10.
Proof.
  intros Hb. unfold frame. rewrite Z.shiftl_mul_pow2 by lia.
  assert (0 <= Z.lor b 256 < 2 ^ 9).
  { apply range_of_bits; [lia | apply Z.lor_nonneg; lia |].
    intros k Hk. rewrite Z.lor_spec, (bits_range b 8) by lia.
    change 256 with (2 ^ 8). rewrite Z.pow2_bits_false by lia. reflexivity. }
  change (2 ^ 10) with (2 ^ 9 * 2 ^ 1). change (2 ^ 1) with 2. lia.
Qed.

Lemma out_unit0_tx_ctl b j pin : out_unit0 (tx_ctl b j) pin = uart_level b (j - 1).
Proof. unfold tx_ctl. destruct (uart_level b (j - 1)); reflexivity. Qed.

Lemma tx_ctl_CCIE b j : nonzero (Z.land (tx_ctl b j) CCIE) = true.
Proof. unfold tx_ctl. destruct (uart_level b (j - 1)); reflexivity. Qed.

Lemma tx_ctl_next b j c s :
  c = tx_ctl b j ->
  (if uart_level b j
   then write_TACCTL0 (Z.land c (inv16 OUTMOD2)) s
   else write_TACCTL0 (Z.lor c OUTMOD2) s) =
  set_TACCTL0 (tx_ctl b (j + 1)) s.
Proof.
  intros ->. unfold tx_ctl. replace (j + 1 - 1) with j by lia.
  destruct s as [tar tactl ccr0 ctl0 ccr1 ctl1 sr txd txdata rxbuf txcnt rxcnt rxdata].
  destruct (uart_level b j), (uart_level b (j - 1)); reflexivity.
Qed.

Lemma tx_view_fields s a b c d e :
  tx_view s = (a, b, c, d, e) ->
  TACCR0 s = a /\ TACCTL0 s = b /\ TXD s = c /\ txData s = d /\ txBitCnt s = e.
Proof.
  unfold tx_view. intros H.
  repeat (apply pair_equal_spec in H; destruct H as [H ?]). auto.
Qed.

Lemma tuple5_eq {A B C D E : Type} (a a' : A) (b b' : B) (c c' : C)
  (d d' : D) (e e' : E) :
  a = a' -> b = b' -> c = c' -> d = d' -> e = e' ->
  (a, b, c, d, e) = (a', b', c', d', e').
Proof. intros -> -> -> -> ->. reflexivity. Qed.

Lemma tx_event b t j s :
  0 <= j <= 10 -> 0 <= b < 2 ^ 8 ->
  tx_view s = tx_expected b t j -> TAR s = TACCR0 s ->
  tx_view (tx_unit s) = tx_expected b t (j + 1).
Proof.
  intros Hj Hb Hv HT. unfold tx_unit. rewrite HT, Z.eqb_refl.
  unfold tx_expected in Hv. apply tx_view_fields in Hv.
  destruct Hv as (H0 & H1 & H2 & H3 & H4).
  destruct (Z.ltb_spec j 11); [|lia].
  rewrite Z.min_l in H0 by lia. rewrite Z.min_l in H3 by lia.
  mproj. rewrite H1, tx_ctl_CCIE, out_unit0_tx_ctl.
  unfold Timer_A0_ISR. mproj. rewrite H4, H0, u16_add_l.
  destruct (Z.eqb_spec (10 - j) 0) as [E|E].
  - assert (j = 10) by lia. subst j.
    unfold write_TACCTL0, tx_view, tx_expected. mproj. rewrite H1, H3.
    change (tx_ctl b 10) with (OUTMOD0 + CCIE).
    change (uart_level b (10 - 1)) with true.
    change (uart_level b (10 + 1 - 2)) with true.
    apply tuple5_eq; try reflexivity. apply (f_equal u16). lia.
  - rewrite H3, tst_bit0, Z.shiftr_spec, Z.add_0_l, frame_bit by lia.
    rewrite (tx_ctl_next b j (TACCTL0 s)) by exact H1.
    unfold tx_view, tx_expected. mproj.
    destruct (Z.ltb_spec (j + 1) 11); [|lia].
    rewrite !Z.min_l by lia. rewrite H3, H4, Z.shiftr_shiftr by lia.
    rewrite u8_small by lia.
    apply tuple5_eq;
      [ apply (f_equal u16); lia | reflexivity
      | apply (f_equal (uart_level b)); lia | reflexivity | lia ].
Qed.

(** After the frame the channel keeps its state, match or no match. *)
Lemma tx_done_stable b t j s :
  11 <= j -> tx_view s = tx_expected b t j -> tx_view (tx_unit s) = tx_view s.
Proof.
  intros Hj Hv. unfold tx_expected in Hv.
  destruct (Z.ltb_spec j 11); [lia|].
  assert (Hl : uart_level b (j - 2) = true).
  { unfold uart_level. destruct (Z.ltb_spec (j - 2) 0); [lia|].
    destruct (Z.eqb_spec (j - 2) 0); [lia|].
    destruct (Z.leb_spec (j - 2) 8); [lia|]. reflexivity. }
  rewrite Hl in Hv.
  apply tx_view_fields in Hv. destruct Hv as (H0 & H1 & H2 & H3 & H4).
  unfold tx_unit. destruct (TAR s =? TACCR0 s); [|reflexivity].
  mproj. rewrite H1, H2. change (nonzero (Z.land OUTMOD0 CCIE)) with false.
  change (out_unit0 OUTMOD0 true) with true. cbv iota.
  unfold tx_view. mproj. rewrite H2. reflexivity.
Qed.

Lemma tx_expected_done b t j j' :
  11 <= j -> 11 <= j' -> tx_expected b t j = tx_expected b t j'.
Proof.
  intros Hj Hj'. unfold tx_expected.
  destruct (Z.ltb_spec j 11); [lia|]. destruct (Z.ltb_spec j' 11); [lia|].
  rewrite !Z.min_r by lia.
  assert (Hl : forall i, 11 <= i -> uart_level b (i - 2) = true).
  { intros i Hi. unfold uart_level. destruct (Z.ltb_spec (i - 2) 0); [lia|].
    destruct (Z.eqb_spec (i - 2) 0); [lia|].
    destruct (Z.leb_spec (i - 2) 8); [lia|]. reflexivity. }
  rewrite !Hl by lia. reflexivity.
Qed.

Lemma count_running s :
  Z.land (TACTL s) MC_3 = MC_2 -> count s = set_TAR (u16 (TAR s + 1)) s.
Proof. intros H. unfold count. rewrite H. reflexivity. Qed.

(** One tick of the counter and of channel 0. *)
Lemma tx_inv_step b t n s :
  0 <= n -> 0 <= b < 2 ^ 8 ->
  tx_inv b t n s -> tx_inv b t (n + 1) (tx_unit (count s)).
Proof.
  intros Hn Hb (Hrun & HT & Hv).
  rewrite count_running by exact Hrun.
  set (s1 := set_TAR (u16 (TAR s + 1)) s).
  assert (Hrun1 : Z.land (TACTL s1) MC_3 = MC_2) by exact Hrun.
  assert (HT1 : TAR s1 = u16 (t + (n + 1))).
  { unfold s1. mproj. rewrite HT, u16_add_l. apply (f_equal u16). lia. }
  assert (Hv1 : tx_view s1 = tx_expected b t (n / UART_TBIT)) by exact Hv.
  clearbody s1. clear s Hrun HT Hv.
  destruct (tx_unit_frame s1) as (FT & FC & _).
  unfold tx_inv. rewrite FT, FC. split; [exact Hrun1|]. split; [exact HT1|].
  assert (Hdiv : 0 <= n / UART_TBIT) by (apply Z.div_pos; [lia | reflexivity]).
  change UART_TBIT with 104 in *.
  destruct (Z_lt_le_dec (n / 104) 11) as [Hlt|Hge].
  - (* frame in flight *)
    pose proof Hv1 as Hf. unfold tx_expected in Hf.
    apply tx_view_fields in Hf. destruct Hf as (H0 & _).
    rewrite Z.min_l in H0 by lia. change UART_TBIT with 104 in H0.
    destruct (Z.eq_dec (n + 1) (104 * (n / 104 + 1))) as [E|E].
    + replace ((n + 1) / 104) with (n / 104 + 1)
        by (apply Z.div_unique with 0; lia).
      apply tx_event; auto; [lia|]. rewrite HT1, H0. apply (f_equal u16). lia.
    + assert (Hq : (n + 1) / 104 = n / 104).
      { pose proof (Z.div_mod n 104). pose proof (Z.mod_pos_bound n 104).
        symmetry. apply Z.div_unique with (n mod 104 + 1); lia. }
      rewrite Hq, <- Hv1. unfold tx_unit.
      rewrite HT1, H0, u16_eqb_offset.
      * destruct (Z.eqb_spec (n + 1) (104 * (n / 104 + 1))); [lia|reflexivity].
      * pose proof (Z.div_mod n 104). pose proof (Z.mod_pos_bound n 104).
        change (2 ^ 16) with 65536. lia.
  - (* frame done *)
    assert (Hq : 11 <= (n + 1) / 104).
    { apply Z.div_le_lower_bound; [lia|].
      pose proof (Z.div_mod n 104). pose proof (Z.mod_pos_bound n 104). lia. }
    rewrite (tx_done_stable b t (n / 104)) by (auto; lia).
    rewrite Hv1. apply tx_expected_done; lia.
Qed.

Lemma tx_inv_rx_unit b t n l s : tx_inv b t n s -> tx_inv b t n (rx_unit l s).
Proof.
  unfold tx_inv. destruct (rx_unit_frame l s) as (-> & -> & ->). auto.
Qed.

Lemma tx_inv_tick b t n src s :
  0 <= n -> 0 <= b < 2 ^ 8 ->
  tx_inv b t n s -> tx_inv b t (n + 1) (tick src s).
Proof.
  intros Hn Hb H. unfold tick. apply tx_inv_rx_unit, tx_inv_step; assumption.
Qed.

Lemma tx_inv_run b t env : forall n s,
  0 <= n -> 0 <= b < 2 ^ 8 ->
  tx_inv b t n s -> tx_inv b t (n + Z.of_nat (length env)) (run env s).
Proof.
  induction env as [|src env IH]; intros n s Hn Hb H.
  - cbn [run length Z.of_nat]. rewrite Z.add_0_r. exact H.
  - cbn [run length]. rewrite Nat2Z.inj_succ.
    replace (n + Z.succ (Z.of_nat (length env)))
      with (n + 1 + Z.of_nat (length env)) by lia.
    apply IH; [lia | exact Hb |]. apply tx_inv_tick; assumption.
Qed.

Lemma tx_inv_load b s :
  0 <= b < 2 ^ 8 -> tx_idle s -> tx_inv b (TAR s) 0 (TimerA_UART_tx_load b s).
Proof.
  intros Hb ((Hrun & Hr) & _ & Hc & Hl).
  unfold tx_inv, TimerA_UART_tx_load, write_TACCTL0, tx_view, tx_expected.
  mproj. rewrite Z.add_0_r, u16_small by exact Hr.
  split; [exact Hrun|]. split; [reflexivity|].
  change (outmod (OUTMOD0 + CCIE) =? 0) with false. cbv iota.
  apply tuple5_eq.
  - reflexivity.
  - reflexivity.
  - rewrite Hl. reflexivity.
  - change (Z.min (0 / UART_TBIT) 10) with 0. rewrite Z.shiftr_0_r.
    apply u16_small. pose proof (frame_range b Hb).
    unfold frame in *. change (2 ^ 10) with 1024 in *.
    change (2 ^ 16) with 65536. lia.
  - exact Hc.
Qed.

Lemma tx_inv_TXD b t n s : tx_inv b t n s -> TXD s = wave b n.
Proof.
  intros (_ & _ & Hv). unfold tx_expected in Hv.
  apply tx_view_fields in Hv. destruct Hv as (_ & _ & H & _). exact H.
Qed.

Lemma tx_inv_busy b t n s :
  0 <= n < 11 * UART_TBIT -> tx_inv b t n s ->
  nonzero (Z.land (TACCTL0 s) CCIE) = true.
Proof.
  intros Hn (_ & _ & Hv). unfold tx_expected in Hv.
  apply tx_view_fields in Hv. destruct Hv as (_ & H & _).
  change UART_TBIT with 104 in *.
  assert (n / 104 < 11) by (apply Z.div_lt_upper_bound; lia).
  destruct (Z.ltb_spec (n / 104) 11); [|lia].
  rewrite H. apply tx_ctl_CCIE.
Qed.

Lemma tx_inv_idle b t n s :
  11 * UART_TBIT <= n -> tx_inv b t n s -> tx_idle s.
Proof.
  intros Hn (Hrun & HT & Hv). unfold tx_expected in Hv.
  apply tx_view_fields in Hv. destruct Hv as (_ & H1 & H2 & _ & H4).
  change UART_TBIT with 104 in *.
  assert (11 <= n / 104) by (apply Z.div_le_lower_bound; lia).
  destruct (Z.ltb_spec (n / 104) 11); [lia|].
  unfold tx_idle, timer_running. rewrite H1, H2, H4, HT.
  repeat split; auto; try apply u16_range.
  unfold uart_level. destruct (Z.ltb_spec (n / 104 - 2) 0); [lia|].
  destruct (Z.eqb_spec (n / 104 - 2) 0); [lia|].
  destruct (Z.leb_spec (n / 104 - 2) 8); [lia|]. reflexivity.
Qed.

Lemma TimerA_UART_tx_idle byte env s :
  nonzero (Z.land (TACCTL0 s) CCIE) = false ->
  TimerA_UART_tx byte env s = Some (TimerA_UART_tx_load byte s, env).
Proof. intros H. destruct env; cbn [TimerA_UART_tx]; rewrite H; reflexivity. Qed.

Lemma wave_level b n : wave b n = uart_level b (n / 104 - 2).
Proof. reflexivity. Qed.

Lemma wave_mark_before b n : n < 2 * UART_TBIT -> wave b n = true.
Proof.
  intros H. rewrite wave_level. unfold uart_level. change UART_TBIT with 104 in H.
  destruct (Z.ltb_spec (n / 104 - 2) 0) as [_|Hge]; [reflexivity|].
  Z.div_mod_to_equations. lia.
Qed.

Lemma wave_start b n :
  2 * UART_TBIT <= n < 3 * UART_TBIT -> wave b n = false.
Proof.
  intros H. rewrite wave_level. change UART_TBIT with 104 in H.
  replace (n / 104 - 2) with 0 by (Z.div_mod_to_equations; lia). reflexivity.
Qed.

Lemma wave_data b n k :
  0 <= k <= 7 -> 3 * UART_TBIT + UART_TBIT * k <= n < 4 * UART_TBIT + UART_TBIT * k ->
  wave b n = Z.testbit b k.
Proof.
  intros Hk H. rewrite wave_level. change UART_TBIT with 104 in H.
  replace (n / 104 - 2) with (k + 1) by (Z.div_mod_to_equations; lia).
  unfold uart_level.
  destruct (Z.ltb_spec (k + 1) 0); [lia|].
  destruct (Z.eqb_spec (k + 1) 0); [lia|].
  destruct (Z.leb_spec (k + 1) 8); [|lia].
  f_equal. lia.
Qed.

Lemma wave_mark_after b n : 11 * UART_TBIT <= n -> wave b n = true.
Proof.
  intros H. rewrite wave_level. unfold uart_level. change UART_TBIT with 104 in H.
  destruct (Z.ltb_spec (n / 104 - 2) 0); [reflexivity|].
  destruct (Z.eqb_spec (n / 104 - 2) 0); [Z.div_mod_to_equations; lia|].
  destruct (Z.leb_spec (n / 104 - 2) 8); [Z.div_mod_to_equations; lia|].
  reflexivity.
Qed.

(** Once the last data bit is on the line it cannot fall again. *)
Lemma wave_no_fall_late b n :
  10 * UART_TBIT <= n -> wave b n && negb (wave b (n + 1)) = false.
Proof.
  intros H. change UART_TBIT with 104 in H.
  destruct (Z_lt_le_dec (n + 1) (11 * 104)) as [Hlt|Hge].
  - rewrite !wave_level.
    replace ((n + 1) / 104) with (n / 104) by (Z.div_mod_to_equations; lia).
    apply andb_negb_r.
  - rewrite (wave_mark_after b (n + 1)) by exact Hge. apply andb_false_r.
Qed.

Lemma tx_load_wave b s ticks :
  0 <= b < 2 ^ 8 -> tx_idle s ->
  TXD (run ticks (TimerA_UART_tx_load b s)) = wave b (Z.of_nat (length ticks)).
Proof.
  intros Hb Hidle.
  apply (tx_inv_TXD b (TAR s)).
  apply (tx_inv_run b (TAR s) ticks 0); [lia | exact Hb |].
  apply tx_inv_load; assumption.
Qed.

(** C2: from the transmitter at rest [TimerA_UART_tx] returns at once,
    and from then on TXD follows [wave], whatever drives RXD: mark for two
    bit periods, space for the start bit, bits 0 to 7 of the byte one bit
    period each, then mark for the stop bit and after it; the levels at
    the first eleven compare matches are mark, space, the data bits in
    increasing order and mark. *)
Theorem tx_waveform (b : Z) (s : machine) (env : list rx_source) :
  0 <= b < 2 ^ 8 -> tx_idle s ->
  TimerA_UART_tx b env s = Some (TimerA_UART_tx_load b s, env) /\
  (forall ticks,
     TXD (run ticks (TimerA_UART_tx_load b s)) =
     wave b (Z.of_nat (length ticks))) /\
  map (fun i => wave b (UART_TBIT * i)) [1; 2; 3; 4; 5; 6; 7; 8; 9; 10; 11] =
  [true; false] ++ map (Z.testbit b) [0; 1; 2; 3; 4; 5; 6; 7] ++ [true].
Proof.
  intros Hb Hidle. split; [|split].
  - apply TimerA_UART_tx_idle. apply Hidle.
  - intros ticks. apply tx_load_wave; assumption.
  - reflexivity.
Qed.

Lemma tx_waveform_witness :
  (0 <= 0x41 < 2 ^ 8 /\ tx_idle (init_state 0)) /\
  map (fun i => TXD (run (repeat Loopback (104 * i))
                       (TimerA_UART_tx_load 0x41 (init_state 0))))
      [1; 2; 3; 4; 5; 6; 7; 8; 9; 10; 11; 12]%nat =
  [true; false; true; false; false; false; false; false; true; false; true;
   true].
Proof.
  assert (Hb : 0 <= 0x41 < 2 ^ 8) by (split; [discriminate | reflexivity]).
  assert (Hi : tx_idle (init_state 0)).
  { repeat split; try reflexivity; discriminate. }
  split; [split; assumption|].
  destruct (tx_waveform 0x41 (init_state 0) [] Hb Hi) as (_ & H & _).
  cbn [map]. rewrite !H. reflexivity.
Defined.

(** The wait loop of [TimerA_UART_tx] during a frame in flight: it lets
    the ticks go by that the frame still needs, and nothing else. *)
Lemma TimerA_UART_tx_wait b1 b2 t env : forall n s,
  0 <= b1 < 2 ^ 8 -> 0 <= n <= 11 * UART_TBIT -> tx_inv b1 t n s ->
  TimerA_UART_tx b2 env s =
  let k := Z.to_nat (11 * UART_TBIT - n) in
  if (length env <? k)%nat then None
  else Some (TimerA_UART_tx_load b2 (run (firstn k env) s), skipn k env).
Proof.
  induction env as [|src env IH]; intros n s Hb Hn H; cbv zeta.
  - destruct (Z.eq_dec n (11 * UART_TBIT)) as [->|Hne].
    + rewrite Z.sub_diag. cbn [Z.to_nat length Nat.ltb Nat.leb firstn skipn run].
      apply TimerA_UART_tx_idle.
      apply tx_inv_idle in H; [apply H | lia].
    + cbn [TimerA_UART_tx]. rewrite (tx_inv_busy b1 t n) by (auto; lia).
      destruct (Nat.ltb_spec (length (@nil rx_source))
                  (Z.to_nat (11 * UART_TBIT - n))) as [_|Hge]; [reflexivity|].
      cbn [length] in Hge. lia.
  - destruct (Z.eq_dec n (11 * UART_TBIT)) as [->|Hne].
    + rewrite Z.sub_diag. cbn [Z.to_nat Nat.ltb Nat.leb firstn skipn run].
      apply TimerA_UART_tx_idle.
      apply tx_inv_idle in H; [apply H | lia].
    + cbn [TimerA_UART_tx]. rewrite (tx_inv_busy b1 t n) by (auto; lia).
      rewrite (IH (n + 1) (tick src s)); [| exact Hb | lia |
        apply tx_inv_tick; [lia | exact Hb | exact H]].
      cbv zeta.
      replace (Z.to_nat (11 * UART_TBIT - n))
        with (S (Z.to_nat (11 * UART_TBIT - (n + 1)))) by lia.
      cbn [length firstn skipn run].
      reflexivity.
Qed.

Lemma run_app env1 : forall env2 s, run (env1 ++ env2) s = run env2 (run env1 s).
Proof.
  induction env1 as [|x env1 IH]; intros env2 s; cbn [run app];
    [reflexivity | apply IH].
Qed.

(** C6: called [n < 11] bit periods' worth of ticks into a frame,
    [TimerA_UART_tx] finds the channel busy; it does not return while
    fewer ticks go by than the frame still needs, and when they have gone
    by it returns having loaded the new frame into the very state the
    machine reaches on its own after those ticks: the channel at rest, TXD
    having followed the first frame's waveform tick for tick.  The line
    then stays at mark for two more bit periods and carries the second
    frame. *)
Theorem tx_blocks_until_idle (b1 b2 : Z) (s : machine)
  (env1 env2 : list rx_source) :
  0 <= b1 < 2 ^ 8 -> 0 <= b2 < 2 ^ 8 -> tx_idle s ->
  Z.of_nat (length env1) < 11 * UART_TBIT ->
  let s1 := run env1 (TimerA_UART_tx_load b1 s) in
  let k := Z.to_nat (11 * UART_TBIT - Z.of_nat (length env1)) in
  nonzero (Z.land (TACCTL0 s1) CCIE) = true /\
  ((length env2 < k)%nat -> TimerA_UART_tx b2 env2 s1 = None) /\
  ((k <= length env2)%nat ->
   TimerA_UART_tx b2 env2 s1 =
   Some (TimerA_UART_tx_load b2 (run (firstn k env2) s1), skipn k env2) /\
   tx_idle (run (firstn k env2) s1) /\
   (forall m, (m < k)%nat ->
      nonzero (Z.land (TACCTL0 (run (firstn m env2) s1)) CCIE) = true) /\
   (forall m, (m <= k)%nat ->
      TXD (run (firstn m env2) s1) = wave b1 (Z.of_nat (length env1 + m))) /\
   (forall ticks,
      TXD (run ticks (TimerA_UART_tx_load b2 (run (firstn k env2) s1))) =
      wave b2 (Z.of_nat (length ticks)) /\
      (Z.of_nat (length ticks) < 2 * UART_TBIT ->
       TXD (run ticks (TimerA_UART_tx_load b2 (run (firstn k env2) s1))) =
       true))).
Proof.
  intros Hb1 Hb2 Hidle Hlen. cbv zeta.
  set (n := Z.of_nat (length env1)) in *.
  assert (H1 : tx_inv b1 (TAR s) n (run env1 (TimerA_UART_tx_load b1 s))).
  { apply (tx_inv_run b1 (TAR s) env1 0); [lia | exact Hb1 |].
    apply tx_inv_load; assumption. }
  set (s1 := run env1 (TimerA_UART_tx_load b1 s)) in *.
  assert (Hm : forall m, (m <= length env2)%nat ->
                 tx_inv b1 (TAR s) (n + Z.of_nat m) (run (firstn m env2) s1)).
  { intros m Hle.
    pose proof (tx_inv_run b1 (TAR s) (firstn m env2) n s1) as H.
    rewrite length_firstn, Nat.min_l in H by exact Hle.
    apply H; [lia | exact Hb1 | exact H1]. }
  pose proof (TimerA_UART_tx_wait b1 b2 (TAR s) env2 n s1 Hb1) as Hw.
  cbv zeta in Hw.
  split; [apply (tx_inv_busy b1 (TAR s) n); [lia | exact H1]|].
  split.
  - intros Hshort. rewrite Hw by (auto; lia).
    apply Nat.ltb_lt in Hshort. rewrite Hshort. reflexivity.
  - intros Hlong.
    assert (Hk : tx_inv b1 (TAR s) (11 * UART_TBIT)
                   (run (firstn (Z.to_nat (11 * UART_TBIT - n)) env2) s1)).
    { replace (11 * UART_TBIT)
        with (n + Z.of_nat (Z.to_nat (11 * UART_TBIT - n))) at 1 by lia.
      apply Hm. exact Hlong. }
    assert (Hidle' : tx_idle (run (firstn (Z.to_nat (11 * UART_TBIT - n)) env2) s1)).
    { apply (tx_inv_idle b1 (TAR s) (11 * UART_TBIT)); [lia | exact Hk]. }
    split; [|split; [exact Hidle'|split; [|split]]].
    + rewrite Hw by (auto; lia).
      apply Nat.ltb_ge in Hlong. rewrite Hlong. reflexivity.
    + intros m Hlt.
      apply (tx_inv_busy b1 (TAR s) (n + Z.of_nat m)); [lia|].
      apply Hm. lia.
    + intros m Hle. rewrite Nat2Z.inj_add.
      apply (tx_inv_TXD b1 (TAR s)). apply Hm. lia.
    + intros ticks. rewrite tx_load_wave by assumption.
      split; [reflexivity | apply wave_mark_before].
Qed.

Lemma tx_blocks_until_idle_witness :
  let s1 := run (repeat Loopback 300) (TimerA_UART_tx_load 0x41 (init_state 0)) in
  (0 <= 0x41 < 2 ^ 8 /\ 0 <= 0x42 < 2 ^ 8 /\ tx_idle (init_state 0) /\
   Z.of_nat (length (repeat Loopback 300)) < 11 * UART_TBIT) /\
  TimerA_UART_tx 0x42 (repeat Loopback 100) s1 = None /\
  TimerA_UART_tx 0x42 (repeat Loopback 2000) s1 =
  Some (TimerA_UART_tx_load 0x42 (run (repeat Loopback 844) s1),
        repeat Loopback 1156).
Proof.
  cbv zeta.
  assert (Hb1 : 0 <= 0x41 < 2 ^ 8) by (split; [discriminate | reflexivity]).
  assert (Hb2 : 0 <= 0x42 < 2 ^ 8) by (split; [discriminate | reflexivity]).
  assert (Hi : tx_idle (init_state 0)).
  { repeat split; try reflexivity; discriminate. }
  assert (Hl : Z.of_nat (length (repeat Loopback 300)) < 11 * UART_TBIT)
    by reflexivity.
  split; [repeat split; try reflexivity; discriminate|].
  split.
  - destruct (tx_blocks_until_idle 0x41 0x42 (init_state 0)
                (repeat Loopback 300) (repeat Loopback 100) Hb1 Hb2 Hi Hl)
      as (_ & Hn & _).
    apply Hn. vm_compute. repeat constructor.
  - destruct (tx_blocks_until_idle 0x41 0x42 (init_state 0)
                (repeat Loopback 300) (repeat Loopback 2000) Hb1 Hb2 Hi Hl)
      as (_ & _ & Hs).
    destruct Hs as (Hs & _); [|exact Hs].
    apply Nat.leb_le. vm_compute. reflexivity.
Defined.

(** ** The receiver in loopback, tick by tick *)

Lemma rx_unit_waiting l s :
  Z.testbit (TACCTL1 s) 8 = true ->
  (Z.testbit (TACCTL1 s) 15 && Z.testbit (TACCTL1 s) 3 && negb l)
  || (Z.testbit (TACCTL1 s) 14 && negb (Z.testbit (TACCTL1 s) 3) && l) = false ->
  rx_unit l s = set_TACCTL1 (setbit (TACCTL1 s) CCI l) s.
Proof.
  intros Hc He. unfold rx_unit, capture_edge. mproj.
  rewrite tst_CAP, tst_CCI, tst_CM1, tst_CM0.
  rewrite !(testbit_setbit _ CCI 3) by (try reflexivity; lia).
  cbv iota beta. change (8 =? 3) with false. change (15 =? 3) with false.
  change (14 =? 3) with false. cbv iota. rewrite Hc, He. reflexivity.
Qed.

Lemma rx_unit_start s :
  Z.testbit (TACCTL1 s) 8 = true -> Z.testbit (TACCTL1 s) 4 = true ->
  Z.testbit (TACCTL1 s) 15 = true -> Z.testbit (TACCTL1 s) 3 = true ->
  rx_unit false s =
  set_TACCR1 (u16 (TAR s + UART_TBIT + UART_TBIT_DIV_2))
    (set_TACCTL1 (Z.land (setbit (TACCTL1 s) CCI false) (inv16 CAP)) s).
Proof.
  intros Hc He Hm Hi. unfold rx_unit, capture_edge. mproj.
  rewrite tst_CAP, tst_CCI, tst_CM1, tst_CM0.
  rewrite !(testbit_setbit _ CCI 3) by (try reflexivity; lia).
  change (8 =? 3) with false. change (15 =? 3) with false.
  change (14 =? 3) with false. cbv iota. rewrite Hc, Hm, Hi. cbn [andb negb orb].
  rewrite capture1_spec.
  - mproj. destruct s. reflexivity.
  - unfold capturing. mproj. rewrite tst_CAP.
    rewrite (testbit_setbit _ CCI 3) by (try reflexivity; lia). exact Hc.
  - unfold rx_irq_enabled. mproj. rewrite tst_CCIE.
    rewrite (testbit_setbit _ CCI 3) by (try reflexivity; lia). exact He.
Qed.

Lemma rx_unit_between l s :
  Z.testbit (TACCTL1 s) 8 = false -> (TAR s =? TACCR1 s) = false ->
  rx_unit l s = set_TACCTL1 (setbit (TACCTL1 s) CCI l) s.
Proof.
  intros Hc Hne. unfold rx_unit. mproj. rewrite tst_CAP.
  rewrite !(testbit_setbit _ CCI 3) by (try reflexivity; lia).
  change (8 =? 3) with false. cbv iota. rewrite Hc, Hne. reflexivity.
Qed.

Lemma rx_unit_match l s :
  Z.testbit (TACCTL1 s) 8 = false -> (TAR s =? TACCR1 s) = true ->
  rx_unit l s = compare_match1 l (set_TACCTL1 (setbit (TACCTL1 s) CCI l) s).
Proof.
  intros Hc Hne. unfold rx_unit. mproj. rewrite tst_CAP.
  rewrite !(testbit_setbit _ CCI 3) by (try reflexivity; lia).
  change (8 =? 3) with false. cbv iota. rewrite Hc, Hne. reflexivity.
Qed.

Lemma rx_inv_ext b t x0 sr0 n s s' :
  rx_view s' = rx_view s -> rx_inv b t x0 sr0 n s -> rx_inv b t x0 sr0 n s'.
Proof.
  destruct s, s'. unfold rx_view. mproj. intros H.
  repeat (apply pair_equal_spec in H; destruct H as [H ?]). subst.
  exact (fun H => H).
Qed.

Ltac setbit_bits :=
  repeat first
    [ rewrite (testbit_setbit _ CCI 3) by (try reflexivity; lia)
    | rewrite (testbit_setbit _ SCCI 10) by (try reflexivity; lia)
    | rewrite (testbit_clear _ CAP 8) by (try reflexivity; lia)
    | rewrite (testbit_set _ CAP 8) by (try reflexivity; lia) ];
  cbv iota beta;
  rewrite ?Z.eqb_refl;
  repeat match goal with
         | |- context [?a =? ?b] =>
             let v := eval vm_compute in (a =? b) in
             match v with
             | true => change (a =? b) with true
             | false => change (a =? b) with false
             end
         end;
  cbv iota.

Ltac tbit :=
  change UART_TBIT with 104 in *; change UART_TBIT_DIV_2 with 52 in *.

Lemma rx_samples_early n : n < 364 -> rx_samples n = 0.
Proof.
  intros H. unfold rx_samples. change UART_TBIT with 104.
  change UART_TBIT_DIV_2 with 52. Z.div_mod_to_equations. lia.
Qed.

Lemma rx_samples_spec n k :
  0 <= k -> 364 + 104 * k <= n + 104 < 364 + 104 * (k + 1) -> rx_samples n = k.
Proof.
  intros Hk H. unfold rx_samples. change UART_TBIT with 104.
  change UART_TBIT_DIV_2 with 52. Z.div_mod_to_equations. lia.
Qed.

Lemma rx_samples_bounds n :
  208 <= n ->
  0 <= rx_samples n /\ n < 364 + 104 * rx_samples n /\
  (364 <= n -> 364 + 104 * rx_samples n <= n + 104).
Proof.
  intros H. unfold rx_samples. change UART_TBIT with 104.
  change UART_TBIT_DIV_2 with 52. Z.div_mod_to_equations. lia.
Qed.

Lemma rx_inv_step b t x0 sr0 n s s1 :
  0 <= n -> 0 <= b < 2 ^ 8 ->
  rx_inv b t x0 sr0 n s -> rx_view s1 = rx_view s -> TAR s1 = u16 (t + (n + 1)) ->
  rx_inv b t x0 sr0 (n + 1) (rx_unit (wave b (n + 1)) s1).
Proof.
  intros Hn Hb Hinv Hv HT.
  apply (rx_inv_ext b t x0 sr0 n s s1 Hv) in Hinv. clear s Hv.
  destruct Hinv as (He & Hm1 & Hm0 & Hi & Hph).
  unfold rx_inv.
  change UART_TBIT with 104 in *. change UART_TBIT_DIV_2 with 52 in *.
  change (2 * 104) with 208 in *. change (10 * 104 + 52) with 1092 in *.
  change (3 * 104 + 52) with 364 in *.
  destruct (Z.ltb_spec n 208) as [Hn1|Hn1].
  - (* waiting for the start edge *)
    destruct Hph as (Hc & Hcnt & Hr & Hx & Hsr).
    destruct (Z.ltb_spec (n + 1) 208) as [Hn2|Hn2].
    + rewrite (wave_mark_before b (n + 1)) by exact Hn2.
      rewrite rx_unit_waiting
        by (auto; rewrite Hm0; cbn [negb andb orb]; rewrite !andb_false_r; reflexivity).
      mproj. setbit_bits. repeat split; auto; lia.
    + assert (n + 1 = 208) by lia.
      destruct (Z.ltb_spec (n + 1) 1092); [|lia].
      rewrite (wave_start b (n + 1)) by (change UART_TBIT with 104; lia).
      rewrite (wave_mark_before b n) in Hi by exact Hn1.
      rewrite rx_unit_start by assumption.
      mproj. setbit_bits. rewrite HT, <- Z.add_assoc, u16_add_l.
      rewrite rx_samples_early by lia.
      repeat split; auto; try lia.
      apply (f_equal u16). tbit. lia.
  - destruct (Z.ltb_spec n 1092) as [Hn3|Hn3].
    + (* sampling *)
      destruct Hph as (Hc & Hccr & Hcnt & Hr & Hbits & Hx & Hsr).
      destruct (rx_samples_bounds n Hn1) as (Hk0 & Hk1 & Hk2).
      set (k := rx_samples n) in *.
      assert (Hk3 : n < 364 -> k = 0) by (apply rx_samples_early).
      assert (Hk7 : k <= 7) by lia.
      destruct (Z.ltb_spec (n + 1) 208); [lia|].
      destruct (Z.eq_dec (n + 1) (364 + 104 * k)) as [E|E].
      * (* a compare match *)
        assert (Hl : wave b (n + 1) = Z.testbit b k).
        { apply wave_data; change UART_TBIT with 104; lia. }
        rewrite rx_unit_match
          by (auto; rewrite HT, Hccr; apply Z.eqb_eq, (f_equal u16); tbit; lia).
        rewrite Hl.
        change (compare_match1 ?l ?x) with (match_step hw_match l x).
        assert (Hbits' : forall i, 0 <= i < k + 1 ->
                  Z.testbit (shift_in (rxData s1) (Z.testbit b k))
                            (8 - (k + 1) + i) = Z.testbit b i).
        { intros i Hi'. rewrite testbit_shift_in by (auto; lia).
          destruct (Z.eqb_spec (8 - (k + 1) + i) 7) as [E7|E7].
          - f_equal. lia.
          - destruct (Z.ltb_spec (8 - (k + 1) + i) 7); [|lia].
            cbn [andb]. rewrite <- Hbits by lia. f_equal. lia. }
        destruct (Z.eq_dec k 7) as [Ek|Ek].
        -- (* the eighth sample *)
           destruct (Z.ltb_spec (n + 1) 1092); [lia|].
           rewrite (match_step_complete bool hw_match (fun l => l)).
           ++ cbv zeta. unfold main_awake. mproj.
              rewrite awake_after_clear.
              unfold hw_match. setbit_bits.
              assert (Hd : shift_in (rxData s1) (Z.testbit b k) = b).
              { apply (bits_eq_range _ _ 8); [lia | apply shift_in_range; exact Hr
                                              | exact Hb |].
                intros i Hi'. rewrite <- (Hbits' i) by lia. f_equal. lia. }
              rewrite Hd. repeat split; auto.
           ++ intros a r. apply hw_match_bits.
           ++ intros a r. apply hw_match_bits.
           ++ intros a r. apply hw_match_bits.
           ++ unfold sampling. mproj. rewrite tst_CAP. setbit_bits. exact Hc.
           ++ unfold rx_irq_enabled. mproj. rewrite tst_CCIE. setbit_bits. exact He.
           ++ mproj. rewrite Hcnt, Ek. reflexivity.
        -- destruct (Z.ltb_spec (n + 1) 1092); [|lia].
           rewrite (match_step_sample bool hw_match (fun l => l)).
           ++ mproj. unfold hw_match. setbit_bits.
              rewrite (rx_samples_spec (n + 1) (k + 1)) by lia.
              rewrite Hccr, u16_add_l, Hcnt, u8_small by lia.
              repeat split; auto; try lia.
              ** apply (f_equal u16). tbit. lia.
              ** apply shift_in_range; exact Hr.
              ** apply shift_in_range; exact Hr.
           ++ intros a r. apply hw_match_bits.
           ++ intros a r. apply hw_match_bits.
           ++ intros a r. apply hw_match_bits.
           ++ unfold sampling. mproj. rewrite tst_CAP. setbit_bits. exact Hc.
           ++ unfold rx_irq_enabled. mproj. rewrite tst_CCIE. setbit_bits. exact He.
           ++ mproj. rewrite Hcnt, u8_small by lia. lia.
      * (* between two samples *)
        assert (n + 1 < 364 + 104 * k) by lia.
        assert (Hk' : rx_samples (n + 1) = k).
        { destruct (Z_lt_le_dec (n + 1) 364).
          - rewrite rx_samples_early by lia. lia.
          - apply rx_samples_spec; lia. }
        destruct (Z.ltb_spec (n + 1) 1092); [|lia].
        rewrite rx_unit_between.
        -- mproj. setbit_bits. rewrite Hk'. repeat split; auto; lia.
        -- exact Hc.
        -- rewrite HT, Hccr, u16_eqb_offset by (change (2 ^ 16) with 65536; lia).
           apply Z.eqb_neq. lia.
    + (* delivered *)
      destruct Hph as (Hc & Hcnt & Hr & Hx & Hw).
      destruct (Z.ltb_spec (n + 1) 208); [lia|].
      destruct (Z.ltb_spec (n + 1) 1092); [lia|].
      rewrite rx_unit_waiting.
      * unfold main_awake in *. mproj. setbit_bits. repeat split; auto.
      * exact Hc.
      * rewrite Hm1, Hm0, Hi. cbn [andb orb].
        rewrite orb_false_r. apply wave_no_fall_late.
        change UART_TBIT with 104. lia.
Qed.

Lemma loop_inv_tick b t x0 sr0 n s :
  0 <= n -> 0 <= b < 2 ^ 8 ->
  loop_inv b t x0 sr0 n s -> loop_inv b t x0 sr0 (n + 1) (tick Loopback s).
Proof.
  intros Hn Hb (Htx & Hrx). unfold tick. cbn [rxd_level].
  pose proof (tx_inv_step b t n s Hn Hb Htx) as Htx1.
  set (s1 := tx_unit (count s)) in *.
  assert (Hv : rx_view s1 = rx_view s).
  { unfold s1. destruct (tx_unit_frame (count s)) as (_ & _ & ->).
    apply count_frame. }
  rewrite (tx_inv_TXD b t (n + 1) s1 Htx1).
  split.
  - apply tx_inv_rx_unit. exact Htx1.
  - apply (rx_inv_step b t x0 sr0 n s s1); auto. apply Htx1.
Qed.

Lemma loop_inv_run b t x0 sr0 (k : nat) : forall n s,
  0 <= n -> 0 <= b < 2 ^ 8 ->
  loop_inv b t x0 sr0 n s ->
  loop_inv b t x0 sr0 (n + Z.of_nat k) (run (repeat Loopback k) s).
Proof.
  induction k as [|k IH]; intros n s Hn Hb H.
  - cbn [repeat run Z.of_nat]. rewrite Z.add_0_r. exact H.
  - cbn [repeat run]. rewrite Nat2Z.inj_succ.
    replace (n + Z.succ (Z.of_nat k)) with (n + 1 + Z.of_nat k) by lia.
    apply IH; [lia | exact Hb |]. apply loop_inv_tick; assumption.
Qed.

Lemma loop_inv_load b s :
  0 <= b < 2 ^ 8 -> tx_idle s -> rx_idle s ->
  loop_inv b (TAR s) (rxBuffer s) (SR s) 0 (TimerA_UART_tx_load b s).
Proof.
  intros Hb Ht ((Hc & He & Hcnt & Hr) & Hm1 & Hm0 & Hi).
  unfold capturing, rx_irq_enabled in *.
  rewrite tst_CAP in Hc. rewrite tst_CCIE in He. rewrite tst_CM1 in Hm1.
  rewrite tst_CM0 in Hm0. rewrite tst_CCI in Hi.
  split; [apply tx_inv_load; assumption|].
  unfold rx_inv, TimerA_UART_tx_load, write_TACCTL0. mproj.
  change (0 <? 2 * UART_TBIT) with true. cbv iota.
  repeat split; auto; lia.
Qed.

(** C1 (as amended): with RXD tied to TXD and both engines at rest,
    [TimerA_UART_tx b] returns at once; the line stays at mark for two bit
    periods and falls for the start bit; the mailbox is untouched until
    ten and a half bit periods after the call, which is eight and a half
    after that edge, and from then on [rxBuffer] holds [b] with the
    foreground awake.  Ten bit periods after the call the mailbox still
    holds the byte it held before; ten bit periods after the start edge
    it holds [b]. *)
Theorem loopback_round_trip (b : Z) (s : machine) :
  0 <= b < 2 ^ 8 -> tx_idle s -> rx_idle s ->
  let s0 := TimerA_UART_tx_load b s in
  let after n := run (repeat Loopback n) s0 in
  (forall env, TimerA_UART_tx b env s = Some (s0, env)) /\
  (forall n, Z.of_nat n < 2 * UART_TBIT -> TXD (after n) = true) /\
  TXD (after (Z.to_nat (2 * UART_TBIT))) = false /\
  (forall n, Z.of_nat n < 2 * UART_TBIT + 8 * UART_TBIT + UART_TBIT_DIV_2 ->
     rxBuffer (after n) = rxBuffer s /\ SR (after n) = SR s) /\
  (forall n, 2 * UART_TBIT + 8 * UART_TBIT + UART_TBIT_DIV_2 <= Z.of_nat n ->
     rxBuffer (after n) = b /\ main_awake (after n) = true) /\
  rxBuffer (after (Z.to_nat (10 * UART_TBIT))) = rxBuffer s /\
  rxBuffer (after (Z.to_nat (10 * UART_TBIT + UART_TBIT_DIV_2))) = b /\
  rxBuffer (after (Z.to_nat (2 * UART_TBIT + 10 * UART_TBIT))) = b.
Proof.
  intros Hb Ht Hr. cbv zeta.
  assert (Hinv : forall n,
            loop_inv b (TAR s) (rxBuffer s) (SR s) (Z.of_nat n)
              (run (repeat Loopback n) (TimerA_UART_tx_load b s))).
  { intros n.
    apply (loop_inv_run b (TAR s) (rxBuffer s) (SR s) n 0); [lia | exact Hb |].
    apply loop_inv_load; assumption. }
  assert (Hlate : forall n,
            2 * UART_TBIT + 8 * UART_TBIT + UART_TBIT_DIV_2 <= Z.of_nat n ->
            rxBuffer (run (repeat Loopback n) (TimerA_UART_tx_load b s)) = b /\
            main_awake (run (repeat Loopback n) (TimerA_UART_tx_load b s)) = true).
  { intros n Hn. destruct (Hinv n) as (_ & _ & _ & _ & _ & Hph).
    tbit. destruct (Z.ltb_spec (Z.of_nat n) (2 * 104)); [lia|].
    destruct (Z.ltb_spec (Z.of_nat n) (10 * 104 + 52)); [lia|].
    destruct Hph as (_ & _ & _ & Hx & Hw). split; assumption. }
  assert (Hearly : forall n,
            Z.of_nat n < 2 * UART_TBIT + 8 * UART_TBIT + UART_TBIT_DIV_2 ->
            rxBuffer (run (repeat Loopback n) (TimerA_UART_tx_load b s)) =
            rxBuffer s /\
            SR (run (repeat Loopback n) (TimerA_UART_tx_load b s)) = SR s).
  { intros n Hn. destruct (Hinv n) as (_ & _ & _ & _ & _ & Hph).
    tbit. destruct (Z.ltb_spec (Z.of_nat n) (2 * 104)).
    + destruct Hph as (_ & _ & _ & Hx & Hsr). split; assumption.
    + destruct (Z.ltb_spec (Z.of_nat n) (10 * 104 + 52)); [|lia].
      destruct Hph as (_ & _ & _ & _ & _ & Hx & Hsr). split; assumption. }
  split; [|split; [|split; [|split; [|split; [|split; [|split]]]]]].
  - intros env. apply TimerA_UART_tx_idle. apply Ht.
  - intros n Hn. destruct (Hinv n) as (Htx & _).
    rewrite (tx_inv_TXD _ _ _ _ Htx). apply wave_mark_before. exact Hn.
  - destruct (Hinv (Z.to_nat (2 * UART_TBIT))) as (Htx & _).
    rewrite (tx_inv_TXD _ _ _ _ Htx). reflexivity.
  - exact Hearly.
  - exact Hlate.
  - apply Hearly. vm_compute. reflexivity.
  - apply Hlate. vm_compute. discriminate.
  - apply Hlate. vm_compute. discriminate.
Qed.

Lemma loopback_round_trip_witness :
  (0 <= 0x41 < 2 ^ 8 /\ tx_idle (init_state 65000) /\
   rx_idle (init_state 65000)) /\
  rxBuffer (run (repeat Loopback 1248)
              (TimerA_UART_tx_load 0x41 (init_state 65000))) = 0x41.
Proof.
  assert (Hb : 0 <= 0x41 < 2 ^ 8) by (split; [discriminate | reflexivity]).
  assert (Ht : tx_idle (init_state 65000)).
  { repeat split; try reflexivity; discriminate. }
  assert (Hr : rx_idle (init_state 65000)).
  { repeat split; try reflexivity; discriminate. }
  split; [repeat split; try reflexivity; discriminate|].
  exact (proj2 (proj2 (proj2 (proj2 (proj2 (proj2 (proj2
           (loopback_round_trip 0x41 (init_state 65000) Hb Ht Hr)))))))).
Defined.

(** C1, as stated, fails when the frame time is counted from the call:
    ten bit periods after [TimerA_UART_tx 0x41] in loopback the mailbox
    still holds the byte it held before, 0x55 here; 0x41 is there half a
    bit period later, in tick 1092 and not before. *)
Lemma loopback_not_after_ten_bits :
  let s := set_rxBuffer 0x55 (init_state 0) in
  let after n := run (repeat Loopback n) (TimerA_UART_tx_load 0x41 s) in
  TimerA_UART_tx 0x41 (repeat Loopback 1040) s =
    Some (TimerA_UART_tx_load 0x41 s, repeat Loopback 1040) /\
  Z.of_nat 1040 = 10 * UART_TBIT /\
  rxBuffer (after 1040%nat) = 0x55 /\ rxBuffer (after 1040%nat) <> 0x41 /\
  rxBuffer (after 1091%nat) = 0x55 /\ rxBuffer (after 1092%nat) = 0x41.
Proof. vm_compute. repeat split; (reflexivity || discriminate). Qed.

(** ** The display driver *)

(** A property checked on each of the 256 values of an 8-bit register. *)
Lemma forall_u8 (P : Z -> bool) :
  forallb P (map Z.of_nat (seq 0 256)) = true ->
  forall v, 0 <= v < 2 ^ 8 -> P v = true.
Proof.
  intros H v Hv. rewrite forallb_forall in H. apply H.
  apply in_map_iff. exists (Z.to_nat v). split; [lia|].
  apply in_seq. change (2 ^ 8) with 256 in Hv. lia.
Qed.

Lemma tracks_id : tracks (fun p => p).
Proof. intros v l. split; reflexivity. Qed.

Lemma tracks_store (f : Z -> Z) :
  tracks (fun p => store_P1OUT (f (P1OUT p)) p).
Proof. intros v l. split; reflexivity. Qed.

Lemma tracks_comp f g : tracks f -> tracks g -> tracks (fun p => g (f p)).
Proof.
  intros Hf Hg v l.
  destruct (Hf v l) as [Ef _]. destruct (Hf v []) as [_ Hh].
  rewrite Ef.
  set (v1 := P1OUT (f (Port v []))) in *.
  set (l1 := P1log (f (Port v []))) in *.
  assert (E0 : f (Port v []) = Port v1 l1) by (unfold v1, l1; destruct (f (Port v [])); reflexivity).
  rewrite E0.
  destruct (Hg v1 (l1 ++ l)) as [Eg _]. destruct (Hg v1 l1) as [Eg1 _].
  destruct (Hg v1 []) as [_ Hhg].
  rewrite Eg, Eg1. cbn [P1OUT P1log]. split.
  - rewrite app_assoc. reflexivity.
  - destruct (P1log (g (Port v1 []))) as [|x lg] eqn:El.
    + cbn [app]. cbn [hd] in Hhg. rewrite Hh. exact Hhg.
    + cbn [app hd] in *. exact Hhg.
Qed.

Lemma tracks_ext f g : (forall p, f p = g p) -> tracks f -> tracks g.
Proof. intros E H v l. rewrite <- !E. apply H. Qed.

Lemma tracks_fold {A : Type} (step : A -> port -> port) (xs : list A) :
  (forall x, tracks (step x)) ->
  tracks (fun p => fold_left (fun p x => step x p) xs p).
Proof.
  intros H. induction xs as [|x xs IH]; [apply tracks_id|].
  cbn [fold_left].
  apply (tracks_comp (step x) (fun p => fold_left (fun p x => step x p) xs p));
    [apply H | exact IH].
Qed.

Lemma writes_comp f g v :
  tracks f -> tracks g ->
  writes (fun p => g (f p)) v =
  writes f v ++ writes g (P1OUT (f (Port v []))) /\
  last (writes f v) v = P1OUT (f (Port v [])).
Proof.
  intros Hf Hg. unfold writes.
  destruct (Hf v []) as [_ Hh].
  set (v1 := P1OUT (f (Port v []))) in *.
  set (l1 := P1log (f (Port v []))) in *.
  assert (E0 : f (Port v []) = Port v1 l1) by (unfold v1, l1; destruct (f (Port v [])); reflexivity).
  rewrite E0. destruct (Hg v1 l1) as [Eg _]. rewrite Eg. cbn [P1log].
  rewrite rev_app_distr. split; [reflexivity|].
  destruct l1 as [|x l1]; cbn [rev hd] in *; [exact Hh|].
  rewrite last_last. exact Hh.
Qed.

Lemma tracks_pinWrite bit val : tracks (pinWrite bit val).
Proof.
  unfold pinWrite. destruct (nonzero val).
  - apply (tracks_store (fun v => Z.lor v bit)).
  - apply (tracks_store (fun v => Z.land v (inv16 bit))).
Qed.

Lemma tracks_pulseClock : tracks pulseClock.
Proof.
  apply (tracks_comp (fun p => store_P1OUT (Z.lor (P1OUT p) CLOCK) p)
                     (fun p => store_P1OUT (Z.lxor (P1OUT p) CLOCK) p)).
  - apply (tracks_store (fun v => Z.lor v CLOCK)).
  - apply (tracks_store (fun v => Z.lxor v CLOCK)).
Qed.

Lemma tracks_shift_bit x : tracks (shift_bit x).
Proof.
  apply (tracks_comp (pinWrite DATA x) pulseClock);
    [apply tracks_pinWrite | apply tracks_pulseClock].
Qed.

Lemma tracks_latch_pulse : tracks latch_pulse.
Proof.
  apply (tracks_comp (fun p => store_P1OUT (Z.lor (P1OUT p) LATCH) p)
                     (fun p => store_P1OUT (Z.land (P1OUT p) (inv16 LATCH)) p)).
  - apply (tracks_store (fun v => Z.lor v LATCH)).
  - apply (tracks_store (fun v => Z.land v (inv16 LATCH))).
Qed.

Lemma tracks_shiftOut val : tracks (shiftOut val).
Proof.
  apply (tracks_comp
           (fun p => fold_left
                       (fun p i => shift_bit (Z.land val (u16 (Z.shiftl 1 i))) p)
                       (map Z.of_nat (seq 0 16)) p)
           latch_pulse).
  - apply (tracks_fold (fun i => shift_bit (Z.land val (u16 (Z.shiftl 1 i))))).
    intros x. apply tracks_shift_bit.
  - apply tracks_latch_pulse.
Qed.

Lemma in_u8 v : 0 <= v < 2 ^ 8 -> In v (map Z.of_nat (seq 0 256)).
Proof.
  intros Hv. apply in_map_iff. exists (Z.to_nat v). split; [lia|].
  apply in_seq. change (2 ^ 8) with 256 in Hv. lia.
Qed.

(** Case analysis on the value of an 8-bit register. *)
Ltac u8_cases H :=
  apply in_u8 in H; vm_compute in H;
  repeat (destruct H as [<- | H]); [.. | contradiction].

Lemma last_cons {A : Type} (x : A) (l : list A) (d : A) :
  last (x :: l) d = last l x.
Proof.
  revert x d. induction l as [|y l IH]; intros x d; [reflexivity|].
  change (last (x :: y :: l) d) with (last (y :: l) d).
  rewrite (IH y d), (IH y x). reflexivity.
Qed.

Lemma pin_events_app a : forall prev b,
  pin_events prev (a ++ b) = pin_events prev a ++ pin_events (last a prev) b.
Proof.
  induction a as [|v a IH]; intros prev b; [reflexivity|].
  cbn [app pin_events]. rewrite IH, last_cons, !app_assoc. reflexivity.
Qed.

Lemma u8_idem z : u8 (u8 z) = u8 z.
Proof. unfold u8. apply Z.mod_mod. lia. Qed.

(** One pass of the loop of [shiftOut]. *)
Lemma shift_bit_spec x v :
  0 <= v < 2 ^ 8 ->
  let p := shift_bit x (Port v []) in
  pin_events v (writes (shift_bit x) v) =
  (if nonzero (Z.land v CLOCK) then [] else [Shift (nonzero x)]) /\
  0 <= P1OUT p < 2 ^ 8 /\
  nonzero (Z.land (P1OUT p) CLOCK) = false /\
  nonzero (Z.land (P1OUT p) DATA) = nonzero x /\
  Z.land (P1OUT p) 0xFC = Z.land v 0xFC.
Proof.
  intros Hv. unfold writes, shift_bit, pinWrite.
  destruct (nonzero x); u8_cases Hv; vm_compute;
    repeat split; (reflexivity || discriminate).
Qed.

Lemma latch_pulse_spec v :
  0 <= v < 2 ^ 8 ->
  let p := latch_pulse (Port v []) in
  pin_events v (writes latch_pulse v) =
  (if nonzero (Z.land v LATCH) then [] else [Store]) /\
  0 <= P1OUT p < 2 ^ 8 /\
  nonzero (Z.land (P1OUT p) LATCH) = false /\
  Z.land (P1OUT p) 0xFB = Z.land v 0xFB.
Proof.
  intros Hv. unfold writes.
  u8_cases Hv; vm_compute; repeat split; (reflexivity || discriminate).
Qed.

Lemma tracks_shift_loop val idxs : tracks (shift_loop val idxs).
Proof.
  apply (tracks_fold (fun i => shift_bit (Z.land val (u16 (Z.shiftl 1 i))))).
  intros x. apply tracks_shift_bit.
Qed.

Lemma shift_loop_spec val idxs : forall v,
  0 <= v < 2 ^ 8 -> nonzero (Z.land v CLOCK) = false ->
  let p := shift_loop val idxs (Port v []) in
  pin_events v (writes (shift_loop val idxs) v) =
  map (fun i => Shift (nonzero (Z.land val (u16 (Z.shiftl 1 i))))) idxs /\
  0 <= P1OUT p < 2 ^ 8 /\
  nonzero (Z.land (P1OUT p) CLOCK) = false /\
  nonzero (Z.land (P1OUT p) DATA) =
  last (map (fun i => nonzero (Z.land val (u16 (Z.shiftl 1 i)))) idxs)
       (nonzero (Z.land v DATA)) /\
  Z.land (P1OUT p) 0xFC = Z.land v 0xFC.
Proof.
  induction idxs as [|i idxs IH]; intros v Hv Hc.
  - cbn. repeat split; auto; lia.
  - set (x := Z.land val (u16 (Z.shiftl 1 i))).
    destruct (shift_bit_spec x v Hv) as (E1 & R1 & C1 & D1 & F1).
    rewrite Hc in E1.
    destruct (writes_comp (shift_bit x) (shift_loop val idxs) v
                (tracks_shift_bit x) (tracks_shift_loop val idxs)) as [Ew El].
    set (v1 := P1OUT (shift_bit x (Port v []))) in *.
    destruct (IH v1 R1 C1) as (E2 & R2 & C2 & D2 & F2).
    assert (Ep : shift_loop val (i :: idxs) (Port v []) =
                 Port (P1OUT (shift_loop val idxs (Port v1 [])))
                      (P1log (shift_loop val idxs (Port v1 []))
                         ++ P1log (shift_bit x (Port v []))) ).
    { change (shift_loop val (i :: idxs) (Port v []))
        with (shift_loop val idxs (shift_bit x (Port v []))).
      destruct (shift_bit x (Port v [])) as [v1' l1] eqn:E.
      apply (tracks_shift_loop val idxs v1' l1). }
    change (writes (shift_loop val (i :: idxs)) v)
      with (writes (fun p => shift_loop val idxs (shift_bit x p)) v).
    cbv zeta. rewrite Ep, Ew, pin_events_app, El, E1, E2. cbn [P1OUT map app].
    repeat split; auto; try lia.
    rewrite D2, last_cons, D1. reflexivity.
Qed.

Lemma tst_bit0m r : nonzero (Z.land r DATA) = Z.testbit r 0.
Proof. apply nonzero_land_bit; [lia | reflexivity]. Qed.
Lemma tst_bit1 r : nonzero (Z.land r CLOCK) = Z.testbit r 1.
Proof. apply nonzero_land_bit; [lia | reflexivity]. Qed.
Lemma tst_bit2 r : nonzero (Z.land r LATCH) = Z.testbit r 2.
Proof. apply nonzero_land_bit; [lia | reflexivity]. Qed.

Lemma bit_mask val i :
  0 <= i < 16 -> nonzero (Z.land val (u16 (Z.shiftl 1 i))) = Z.testbit val i.
Proof.
  intros Hi. apply nonzero_land_bit; [lia|].
  rewrite Z.shiftl_1_l. apply u16_small. split; [apply Z.pow_nonneg; lia|].
  apply Z.pow_lt_mono_r; lia.
Qed.

Lemma in_idx16 i : In i idx16 -> 0 <= i < 16.
Proof.
  unfold idx16. rewrite in_map_iff. intros (n & <- & Hn).
  apply in_seq in Hn. lia.
Qed.

Lemma bits16_value val :
  byte_of_bits (map (Z.testbit val) idx16) = u16 val.
Proof.
  pose proof (byte_of_bits_range (map (Z.testbit val) idx16)) as Hr.
  rewrite length_map in Hr. change (Z.of_nat (length idx16)) with 16 in Hr.
  apply (bits_eq_range _ _ 16); [lia | exact Hr | apply u16_range |].
  intros k Hk. rewrite <- (Z2Nat.id k) at 1 by lia.
  rewrite testbit_byte_of_bits.
  unfold u16. rewrite Z.mod_pow2_bits_low by lia.
  rewrite (nth_indep _ false (Z.testbit val 0))
    by (rewrite length_map; change (length idx16) with 16%nat; lia).
  rewrite (map_nth (Z.testbit val) idx16 0). f_equal.
  unfold idx16. rewrite (nth_indep _ 0 (Z.of_nat 0%nat))
    by (rewrite length_map, length_seq; lia).
  rewrite (map_nth Z.of_nat), seq_nth by lia. lia.
Qed.

Lemma stored_shifts bits : forall acc,
  stored acc (map Shift bits ++ [Store]) =
  [byte_of_bits (rev (firstn 16 (rev bits ++ acc)))].
Proof.
  induction bits as [|b bits IH]; intros acc; [reflexivity|].
  cbn [map app stored rev]. rewrite IH, <- app_assoc. reflexivity.
Qed.

Lemma stored_word val acc :
  stored acc (map (fun i => Shift (Z.testbit val i)) idx16 ++ [Store]) =
  [u16 val].
Proof.
  rewrite <- (map_map (Z.testbit val) Shift), stored_shifts.
  assert (E : firstn 16 (rev (map (Z.testbit val) idx16) ++ acc) =
              rev (map (Z.testbit val) idx16)).
  { assert (L : length (rev (map (Z.testbit val) idx16)) = 16%nat)
      by (rewrite length_rev, length_map; reflexivity).
    rewrite firstn_app, L, Nat.sub_diag, firstn_O, app_nil_r.
    apply firstn_all2. rewrite L. apply Nat.le_refl. }
  rewrite E, rev_involutive. f_equal. apply bits16_value.
Qed.

Lemma stored_app evs1 : forall acc evs2,
  exists acc', stored acc (evs1 ++ evs2) = stored acc evs1 ++ stored acc' evs2.
Proof.
  induction evs1 as [|e evs1 IH]; intros acc evs2.
  - exists acc. reflexivity.
  - destruct e as [d|]; cbn [app stored].
    + apply IH.
    + destruct (IH acc evs2) as [acc' E]. exists acc'. rewrite E. reflexivity.
Qed.

Lemma rows_at_store_app a : forall prev b,
  rows_at_store prev (a ++ b) =
  rows_at_store prev a ++ rows_at_store (last a prev) b.
Proof.
  induction a as [|v a IH]; intros prev b; [reflexivity|].
  cbn [app rows_at_store]. rewrite IH, last_cons, !app_assoc. reflexivity.
Qed.

Lemma shift_bit_rows x v :
  0 <= v < 2 ^ 8 -> rows_at_store v (writes (shift_bit x) v) = [].
Proof.
  intros Hv. unfold writes, shift_bit, pinWrite.
  destruct (nonzero x); u8_cases Hv; reflexivity.
Qed.

Lemma latch_pulse_rows v :
  0 <= v < 2 ^ 8 -> nonzero (Z.land v LATCH) = false ->
  rows_at_store v (writes latch_pulse v) = [row_of v].
Proof.
  intros Hv. unfold writes. u8_cases Hv; vm_compute;
    intros; (reflexivity || discriminate).
Qed.

Lemma shift_loop_rows val idxs : forall v,
  0 <= v < 2 ^ 8 -> nonzero (Z.land v CLOCK) = false ->
  rows_at_store v (writes (shift_loop val idxs) v) = [].
Proof.
  induction idxs as [|i idxs IH]; intros v Hv Hc; [reflexivity|].
  set (x := Z.land val (u16 (Z.shiftl 1 i))).
  destruct (shift_bit_spec x v Hv) as (_ & R1 & C1 & _).
  destruct (writes_comp (shift_bit x) (shift_loop val idxs) v
              (tracks_shift_bit x) (tracks_shift_loop val idxs)) as [Ew El].
  change (writes (shift_loop val (i :: idxs)) v)
    with (writes (fun p => shift_loop val idxs (shift_bit x p)) v).
  rewrite Ew, rows_at_store_app, El, shift_bit_rows, IH by assumption.
  reflexivity.
Qed.

Lemma land_bits_eq a b m k :
  Z.land a m = Z.land b m -> Z.testbit m k = true ->
  Z.testbit a k = Z.testbit b k.
Proof.
  intros E Hm.
  assert (H : Z.testbit (Z.land a m) k = Z.testbit (Z.land b m) k)
    by (rewrite E; reflexivity).
  rewrite !Z.land_spec, Hm, !andb_true_r in H. exact H.
Qed.

Lemma land_submask a m m' :
  Z.land m m' = m' -> Z.land a m' = Z.land (Z.land a m) m'.
Proof. intros E. rewrite <- Z.land_assoc, E. reflexivity. Qed.

Lemma last_idx16 {A : Type} (f : Z -> A) (d : A) : last (map f idx16) d = f 15.
Proof. reflexivity. Qed.

Lemma shiftOut_unfold val p :
  shiftOut val p = latch_pulse (shift_loop val idx16 p).
Proof. unfold shiftOut, latch_pulse, shift_loop, shift_bit, idx16. reflexivity. Qed.

Lemma writes_ext f g v : (forall p, f p = g p) -> writes f v = writes g v.
Proof. intros E. unfold writes. rewrite E. reflexivity. Qed.

Lemma shiftOut_spec val v :
  clocks_low v ->
  let p := shiftOut val (Port v []) in
  pin_events v (writes (shiftOut val) v) =
  map (fun i => Shift (Z.testbit val i)) idx16 ++ [Store] /\
  rows_at_store v (writes (shiftOut val) v) = [row_of v] /\
  clocks_low (P1OUT p) /\
  nonzero (Z.land (P1OUT p) DATA) = Z.testbit val 15 /\
  Z.land (P1OUT p) 0xF8 = Z.land v 0xF8.
Proof.
  intros (Hv & Hc & Hl).
  destruct (shift_loop_spec val idx16 v Hv Hc) as (E1 & R1 & C1 & D1 & F1).
  pose proof (shift_loop_rows val idx16 v Hv Hc) as W1.
  destruct (writes_comp (shift_loop val idx16) latch_pulse v
              (tracks_shift_loop val idx16) tracks_latch_pulse) as [Ew El].
  set (v1 := P1OUT (shift_loop val idx16 (Port v []))) in *.
  assert (Hl1 : nonzero (Z.land v1 LATCH) = false).
  { rewrite tst_bit2 in *.
    rewrite (land_bits_eq v1 v 252 2 F1) by reflexivity. exact Hl. }
  destruct (latch_pulse_spec v1 R1) as (E2 & R2 & C2 & F2).
  rewrite Hl1 in E2.
  pose proof (latch_pulse_rows v1 R1 Hl1) as W2.
  assert (Ep : shiftOut val (Port v []) =
               Port (P1OUT (latch_pulse (Port v1 [])))
                    (P1log (latch_pulse (Port v1 []))
                       ++ P1log (shift_loop val idx16 (Port v [])))).
  { rewrite shiftOut_unfold. unfold v1.
    destruct (shift_loop val idx16 (Port v [])) as [v1' l1] eqn:E.
    apply (tracks_latch_pulse v1' l1). }
  rewrite (writes_ext (shiftOut val)
             (fun p => latch_pulse (shift_loop val idx16 p)))
    by (apply shiftOut_unfold).
  cbv zeta. rewrite Ep, Ew, pin_events_app, rows_at_store_app, El, E1, E2, W1, W2.
  cbn [P1OUT app].
  assert (Em : map (fun i => Shift (nonzero (Z.land val (u16 (Z.shiftl 1 i))))) idx16
               = map (fun i => Shift (Z.testbit val i)) idx16).
  { apply map_ext_in. intros i Hi. rewrite bit_mask by (apply in_idx16; exact Hi).
    reflexivity. }
  rewrite Em.
  assert (Erow : row_of v1 = row_of v).
  { unfold row_of. f_equal.
    rewrite (land_submask v1 252), F1, <- (land_submask v 252) by reflexivity.
    reflexivity. }
  rewrite Erow.
  set (v2 := P1OUT (latch_pulse (Port v1 []))) in *.
  repeat split; auto; try lia.
  - rewrite tst_bit1 in *.
    rewrite (land_bits_eq v2 v1 251 1 F2) by reflexivity. exact C1.
  - rewrite tst_bit0m in *.
    rewrite (land_bits_eq v2 v1 251 0 F2), D1, last_idx16 by reflexivity.
    apply bit_mask. lia.
  - rewrite (land_submask v2 251 248), F2, <- (land_submask v1 251 248)
      by reflexivity.
    rewrite (land_submask v1 252 248), F1, <- (land_submask v 252 248)
      by reflexivity.
    reflexivity.
Qed.

Lemma setRows_unfold row value p :
  setRows row value p = shiftOut value (select_row row (shiftOut 0 p)).
Proof. unfold setRows, select_row. reflexivity. Qed.

Lemma tracks_store2 (f g : Z -> Z) :
  tracks (fun p => let p := store_P1OUT (f (P1OUT p)) p in
                   store_P1OUT (g (P1OUT p)) p).
Proof.
  apply (tracks_comp (fun p => store_P1OUT (f (P1OUT p)) p)
                     (fun p => store_P1OUT (g (P1OUT p)) p));
    apply tracks_store.
Qed.

Lemma tracks_select_row row : tracks (select_row row).
Proof.
  unfold select_row.
  destruct (row =? 0);
    [apply (tracks_store (fun v => Z.land v (inv16 (ROW0 + ROW1 + ROW2))))|].
  destruct (row =? 1);
    [apply (tracks_store2 (fun v => Z.land v (inv16 (ROW1 + ROW2)))
              (fun v => Z.lor v ROW0))|].
  destruct (row =? 2);
    [apply (tracks_store2 (fun v => Z.land v (inv16 (ROW0 + ROW2)))
              (fun v => Z.lor v ROW1))|].
  destruct (row =? 3);
    [apply (tracks_store2 (fun v => Z.land v (inv16 ROW2))
              (fun v => Z.lor v (ROW0 + ROW1)))|].
  destruct (row =? 4);
    [apply (tracks_store2 (fun v => Z.land v (inv16 (ROW0 + ROW1)))
              (fun v => Z.lor v ROW2))|].
  destruct (row =? 5);
    [apply (tracks_store2 (fun v => Z.land v (inv16 ROW1))
              (fun v => Z.lor v (ROW2 + ROW0)))|].
  destruct (row =? 6);
    [apply (tracks_store2 (fun v => Z.land v (inv16 ROW0))
              (fun v => Z.lor v (ROW2 + ROW1)))|].
  destruct (row =? 7);
    [apply (tracks_store (fun v => Z.lor v (ROW2 + ROW1 + ROW0)))|].
  apply tracks_id.
Qed.

Lemma select_row_spec row v :
  0 <= v < 2 ^ 8 ->
  let p := select_row row (Port v []) in
  pin_events v (writes (select_row row) v) = [] /\
  rows_at_store v (writes (select_row row) v) = [] /\
  0 <= P1OUT p < 2 ^ 8 /\
  Z.land (P1OUT p) 0x8F = Z.land v 0x8F /\
  row_of (P1OUT p) = new_row row v.
Proof.
  intros Hv. unfold new_row.
  destruct (Z.leb_spec 0 row) as [H0|H0];
    [destruct (Z.leb_spec row 7) as [H7|H7]|]; cbn [andb].
  - assert (Hok : select_row_ok row v = true).
    { assert (Hr : row = 0 \/ row = 1 \/ row = 2 \/ row = 3 \/ row = 4
                   \/ row = 5 \/ row = 6 \/ row = 7) by lia.
      revert v Hv.
      destruct Hr as [->|[->|[->|[->|[->|[->|[->| ->]]]]]]];
        apply forall_u8; vm_compute; reflexivity. }
    unfold select_row_ok in Hok. cbv zeta in Hok.
    repeat (apply andb_prop in Hok; destruct Hok as [Hok ?]).
    cbv zeta.
    destruct (pin_events v (writes (select_row row) v)); [|discriminate].
    destruct (rows_at_store v (writes (select_row row) v)); [|discriminate].
    repeat split; try reflexivity; lia.
  - assert (E : select_row row = fun p => p).
    { unfold select_row.
      repeat match goal with
             | |- context [row =? ?k] =>
                 destruct (Z.eqb_spec row k); [lia|]
             end. reflexivity. }
    rewrite E. cbn. repeat split; auto; lia.
  - assert (E : select_row row = fun p => p).
    { unfold select_row.
      repeat match goal with
             | |- context [row =? ?k] =>
                 destruct (Z.eqb_spec row k); [lia|]
             end. reflexivity. }
    rewrite E. cbn. repeat split; auto; lia.
Qed.

Lemma tracks_apply op v l :
  tracks op -> op (Port v l) = Port (last (writes op v) v) (rev (writes op v) ++ l).
Proof.
  intros H. destruct (H v l) as [E Hh]. rewrite E. unfold writes.
  rewrite rev_involutive. f_equal.
  destruct (P1log (op (Port v []))) as [|x lg]; cbn [rev hd] in *;
    [symmetry; exact Hh|].
  rewrite last_last. symmetry. exact Hh.
Qed.

Lemma tracks_P1OUT op p :
  tracks op -> P1OUT (op p) = P1OUT (op (Port (P1OUT p) [])).
Proof. intros H. destruct p as [a l]. destruct (H a l) as [E _]. rewrite E. reflexivity. Qed.

Lemma setRows_spec row value v :
  clocks_low v ->
  let p := setRows row value (Port v []) in
  pin_events v (writes (setRows row value) v) =
  (map (fun i => Shift (Z.testbit 0 i)) idx16 ++ [Store])
  ++ map (fun i => Shift (Z.testbit value i)) idx16 ++ [Store] /\
  rows_at_store v (writes (setRows row value) v) = [row_of v; new_row row v] /\
  clocks_low (P1OUT p) /\
  row_of (P1OUT p) = new_row row v /\
  nonzero (Z.land (P1OUT p) DATA) = Z.testbit value 15 /\
  Z.land (P1OUT p) 0x88 = Z.land v 0x88.
Proof.
  intros Hv.
  destruct (shiftOut_spec 0 v Hv) as (E1 & W1 & L1 & _ & F1). cbv zeta in *.
  remember (P1OUT (shiftOut 0 (Port v []))) as v1 eqn:Hv1.
  destruct (select_row_spec row v1 (proj1 L1)) as (E2 & W2 & R2 & F2 & N2).
  cbv zeta in *.
  remember (P1OUT (select_row row (Port v1 []))) as v2 eqn:Hv2.
  assert (L2 : clocks_low v2).
  { destruct L1 as (_ & C1 & K1). unfold clocks_low.
    rewrite tst_bit1, tst_bit2 in *.
    rewrite (land_bits_eq v2 v1 143 1 F2), (land_bits_eq v2 v1 143 2 F2)
      by reflexivity. auto. }
  destruct (shiftOut_spec value v2 L2) as (E3 & W3 & L3 & D3 & F3).
  cbv zeta in *.
  remember (P1OUT (shiftOut value (Port v2 []))) as v3 eqn:Hv3.
  destruct (writes_comp (shiftOut 0) (select_row row) v
              (tracks_shiftOut 0) (tracks_select_row row)) as [Ew1 El1].
  destruct (writes_comp (fun p => select_row row (shiftOut 0 p)) (shiftOut value) v
              (tracks_comp _ _ (tracks_shiftOut 0) (tracks_select_row row))
              (tracks_shiftOut value)) as [Ew2 El2].
  rewrite <- Hv1 in *.
  assert (Ev2 : P1OUT (select_row row (shiftOut 0 (Port v []))) = v2).
  { rewrite (tracks_P1OUT (select_row row)) by apply tracks_select_row.
    rewrite <- Hv1. symmetry. exact Hv2. }
  rewrite Ev2 in *.
  assert (Ev3 : P1OUT (setRows row value (Port v [])) = v3).
  { rewrite setRows_unfold.
    rewrite (tracks_P1OUT (shiftOut value)) by apply tracks_shiftOut.
    rewrite Ev2. symmetry. exact Hv3. }
  rewrite (writes_ext (setRows row value)
             (fun p => shiftOut value (select_row row (shiftOut 0 p))))
    by (intros; apply setRows_unfold).
  rewrite Ev3, Ew2, Ew1.
  rewrite Ew1 in El2.
  rewrite !pin_events_app, !rows_at_store_app, El1, El2.
  rewrite E1, E2, E3, W1, W2, W3, app_nil_r.
  assert (Erow : row_of v1 = row_of v).
  { unfold row_of. f_equal.
    rewrite (land_submask v1 248), F1, <- (land_submask v 248) by reflexivity.
    reflexivity. }
  assert (Erow3 : row_of v3 = row_of v2).
  { unfold row_of. f_equal.
    rewrite (land_submask v3 248), F3, <- (land_submask v2 248) by reflexivity.
    reflexivity. }
  assert (N2' : row_of v2 = new_row row v).
  { rewrite N2. unfold new_row. rewrite Erow. reflexivity. }
  split; [reflexivity|]. split; [cbn [app]; rewrite N2'; reflexivity|].
  split; [exact L3|]. split; [rewrite Erow3; exact N2'|].
  split; [exact D3|].
  rewrite (land_submask v3 248 136), F3, <- (land_submask v2 248 136)
    by reflexivity.
  rewrite (land_submask v2 143 136), F2, <- (land_submask v1 143 136)
    by reflexivity.
  rewrite (land_submask v1 248 136), F1, <- (land_submask v 248 136)
    by reflexivity.
  reflexivity.
Qed.

Lemma tracks_setRows row value : tracks (setRows row value).
Proof.
  apply (tracks_ext (fun p => shiftOut value (select_row row (shiftOut 0 p)))).
  - intros q. symmetry. apply setRows_unfold.
  - apply (tracks_comp (fun p => select_row row (shiftOut 0 p)) (shiftOut value)).
    + apply (tracks_comp (shiftOut 0) (select_row row));
        [apply tracks_shiftOut | apply tracks_select_row].
    + apply tracks_shiftOut.
Qed.

Lemma testbit_inv16_gen m k :
  0 <= k -> Z.testbit (inv16 m) k = (k <? 16) && negb (Z.testbit m k).
Proof.
  intros Hk. unfold inv16, u16. destruct (Z.ltb_spec k 16).
  - rewrite Z.mod_pow2_bits_low, Z.lnot_spec by lia. reflexivity.
  - rewrite Z.mod_pow2_bits_high by lia. reflexivity.
Qed.

Lemma testbit_u8 z k : Z.testbit (u8 z) k = (k <? 8) && Z.testbit z k.
Proof.
  unfold u8. destruct (Z_lt_le_dec k 0).
  - rewrite !Z.testbit_neg_r by lia. destruct (k <? 8); reflexivity.
  - destruct (Z.ltb_spec k 8).
    + rewrite Z.mod_pow2_bits_low by lia. reflexivity.
    + rewrite Z.mod_pow2_bits_high by lia. reflexivity.
Qed.

Lemma pinWrite_testbit bit val p k :
  Z.testbit (P1OUT (pinWrite bit val p)) k =
  (k <? 8) && (if Z.testbit bit k then nonzero val else Z.testbit (P1OUT p) k).
Proof.
  unfold pinWrite. destruct (nonzero val); cbn [store_P1OUT P1OUT];
    rewrite testbit_u8.
  - rewrite Z.lor_spec. destruct (Z.testbit bit k);
      rewrite ?orb_true_r, ?orb_false_r; reflexivity.
  - rewrite Z.land_spec. destruct (Z_lt_le_dec k 0).
    + rewrite !Z.testbit_neg_r by lia. reflexivity.
    + rewrite testbit_inv16_gen by lia.
      destruct (Z.ltb_spec k 8); [|reflexivity].
      destruct (Z.ltb_spec k 16); [|lia].
      destruct (Z.testbit bit k); cbn [negb andb];
        rewrite ?andb_true_r, ?andb_false_r; reflexivity.
Qed.

(** X1: [pinWrite] sets the bits of its mask to the truth value of [val]
    and keeps the other bits of the 8-bit register, in one store;
    [enable] and [disable] are [pinWrite] of ENABLE with 0 and 1. *)
Theorem pinWrite_bits (bit val : Z) (p : port) (k : Z) :
  Z.testbit (P1OUT (pinWrite bit val p)) k =
  (k <? 8) && (if Z.testbit bit k then nonzero val else Z.testbit (P1OUT p) k) /\
  P1log (pinWrite bit val p) = P1OUT (pinWrite bit val p) :: P1log p /\
  enable p = pinWrite ENABLE 0 p /\ disable p = pinWrite ENABLE 1 p.
Proof.
  split; [apply pinWrite_testbit|]. split; [|split; reflexivity].
  unfold pinWrite. destruct (nonzero val); reflexivity.
Qed.

Lemma clocks_low_lift op p :
  tracks op ->
  P1log (op p) = rev (writes op (P1OUT p)) ++ P1log p /\
  P1OUT (op p) = P1OUT (op (Port (P1OUT p) [])).
Proof.
  intros H. split; [|apply tracks_P1OUT; exact H].
  destruct p as [v l]. rewrite (tracks_apply op v l H). reflexivity.
Qed.

(** X2: with shift clock and storage clock low at entry, [shiftOut] makes
    the register show 16 rises of CLOCK with DATA at bits 0 to 15 of
    [val] in turn, then one rise of LATCH: a shift register on those bits
    stores [val], whatever it held.  It leaves both clocks low, DATA at
    bit 15 of [val] and the bits above LATCH as they were. *)
Theorem shiftOut_transfers_word (val : Z) (p : port) (acc : list bool) :
  clocks_low (P1OUT p) ->
  let ws := writes (shiftOut val) (P1OUT p) in
  let p' := shiftOut val p in
  P1log p' = rev ws ++ P1log p /\
  pin_events (P1OUT p) ws =
  map (fun i => Shift (Z.testbit val i)) idx16 ++ [Store] /\
  stored acc (pin_events (P1OUT p) ws) = [u16 val] /\
  clocks_low (P1OUT p') /\
  nonzero (Z.land (P1OUT p') DATA) = Z.testbit val 15 /\
  Z.land (P1OUT p') 0xF8 = Z.land (P1OUT p) 0xF8.
Proof.
  intros H. cbv zeta.
  destruct (shiftOut_spec val (P1OUT p) H) as (E & _ & L & D & F).
  destruct (clocks_low_lift (shiftOut val) p (tracks_shiftOut val)) as [El Ep].
  cbv zeta in *. rewrite Ep, E, stored_word. repeat split; auto; apply L.
Qed.

Lemma clocks_low_0x88 : clocks_low 0x88.
Proof. repeat split; (reflexivity || discriminate). Defined.

Lemma shiftOut_transfers_word_witness :
  clocks_low (P1OUT (Port 0x88 [])) /\
  stored [true; true; false]
    (pin_events 0x88 (writes (shiftOut 0xA5C3) 0x88)) = [0xA5C3] /\
  P1OUT (shiftOut 0xA5C3 (Port 0x88 [])) = 0x89.
Proof.
  split; [exact clocks_low_0x88|].
  destruct (shiftOut_transfers_word 0xA5C3 (Port 0x88 []) [true; true; false]
              clocks_low_0x88) as (_ & _ & H & _).
  split; [exact H | reflexivity].
Defined.

(** X3: [setRows] leaves ROW2..ROW0 at [row] when [row] is one of 0..7 and
    as they were for any other [row]; it leaves ENABLE and bit 7 as they
    were and both clocks low. *)
Theorem setRows_selects_row (row value : Z) (p : port) :
  clocks_low (P1OUT p) ->
  let p' := setRows row value p in
  (0 <= row <= 7 -> row_of (P1OUT p') = row) /\
  (row < 0 \/ 7 < row -> row_of (P1OUT p') = row_of (P1OUT p)) /\
  Z.land (P1OUT p') 0x88 = Z.land (P1OUT p) 0x88 /\
  clocks_low (P1OUT p').
Proof.
  intros H. cbv zeta.
  destruct (setRows_spec row value (P1OUT p) H) as (_ & _ & L & N & _ & F).
  cbv zeta in *.
  rewrite (tracks_P1OUT (setRows row value) p) by apply tracks_setRows.
  rewrite N. unfold new_row. repeat split; auto; try apply L.
  - intros Hr. destruct (Z.leb_spec 0 row); [|lia].
    destruct (Z.leb_spec row 7); [|lia]. reflexivity.
  - intros Hr. destruct (Z.leb_spec 0 row); [|reflexivity].
    destruct (Z.leb_spec row 7); [lia|]. reflexivity.
Qed.

Lemma setRows_selects_row_witness :
  clocks_low (P1OUT (Port 0x88 [])) /\
  row_of (P1OUT (setRows 5 0xA5C3 (Port 0x88 []))) = 5 /\
  row_of (P1OUT (setRows 9 0xA5C3 (setRows 5 0 (Port 0x88 [])))) = 5.
Proof.
  split; [exact clocks_low_0x88|].
  destruct (setRows_selects_row 5 0xA5C3 (Port 0x88 []) clocks_low_0x88)
    as (H5 & _).
  destruct (setRows_selects_row 5 0 (Port 0x88 []) clocks_low_0x88)
    as (H5' & _ & _ & L).
  destruct (setRows_selects_row 9 0xA5C3 (setRows 5 0 (Port 0x88 [])) L)
    as (_ & H9 & _).
  split.
  - apply H5. split; [discriminate | discriminate].
  - rewrite H9 by (right; reflexivity).
    apply H5'. split; [discriminate | discriminate].
Defined.

Lemma setRows_port row value p acc :
  clocks_low (P1OUT p) ->
  let ws := writes (setRows row value) (P1OUT p) in
  let p' := setRows row value p in
  P1log p' = rev ws ++ P1log p /\
  stored acc (pin_events (P1OUT p) ws) = [0; u16 value] /\
  rows_at_store (P1OUT p) ws = [row_of (P1OUT p); new_row row (P1OUT p)] /\
  row_of (P1OUT p') = new_row row (P1OUT p) /\
  clocks_low (P1OUT p').
Proof.
  intros H. cbv zeta.
  destruct (setRows_spec row value (P1OUT p) H) as (E & W & L & N & _).
  destruct (clocks_low_lift (setRows row value) p (tracks_setRows row value))
    as [El Ep].
  cbv zeta in *. rewrite Ep, E, W, N.
  split; [exact El|]. split; [|split; [reflexivity | split; [reflexivity | exact L]]].
  destruct (stored_app (map (fun i => Shift (Z.testbit 0 i)) idx16 ++ [Store]) acc
              (map (fun i => Shift (Z.testbit value i)) idx16 ++ [Store]))
    as [acc' Es].
  rewrite Es, !stored_word. reflexivity.
Qed.

(** X4: [setRows] first stores an all-zero word while the old row is still
    selected, then changes the row, then stores [value] with the new row
    selected: no word is ever stored under a row it was not meant for. *)
Theorem setRows_blanks_then_shows (row value : Z) (p : port) (acc : list bool) :
  clocks_low (P1OUT p) ->
  let ws := writes (setRows row value) (P1OUT p) in
  P1log (setRows row value p) = rev ws ++ P1log p /\
  stored acc (pin_events (P1OUT p) ws) = [0; u16 value] /\
  rows_at_store (P1OUT p) ws =
  [row_of (P1OUT p); row_of (P1OUT (setRows row value p))].
Proof.
  intros H. cbv zeta.
  destruct (setRows_port row value p acc H) as (El & Es & Er & En & _).
  cbv zeta in *. rewrite En. split; [exact El|]. split; [exact Es | exact Er].
Qed.

Lemma setRows_blanks_then_shows_witness :
  clocks_low (P1OUT (Port 0x88 [])) /\
  stored [] (pin_events 0x88 (writes (setRows 3 0x41) 0x88)) = [0; 0x41] /\
  rows_at_store 0x88 (writes (setRows 3 0x41) 0x88) = [0; 3].
Proof.
  split; [exact clocks_low_0x88|].
  destruct (setRows_blanks_then_shows 3 0x41 (Port 0x88 []) []
              clocks_low_0x88) as (_ & H & W).
  split; [exact H | exact W].
Defined.

(** X5: every function of the driver that finds CLOCK and LATCH low leaves
    them low, so the next call finds the register as it needs it;
    [pinWrite] does for any mask without those two bits.  [pulseClock]
    leaves CLOCK low and the other bits as they were from any register
    value. *)
Theorem driver_keeps_clocks_low (p : port) :
  clocks_low (P1OUT p) ->
  (forall bit val, Z.testbit bit 1 = false -> Z.testbit bit 2 = false ->
     clocks_low (P1OUT (pinWrite bit val p))) /\
  P1OUT (pulseClock p) = Z.land (P1OUT p) (0xFF - CLOCK) /\
  clocks_low (P1OUT (pulseClock p)) /\
  clocks_low (P1OUT (enable p)) /\
  clocks_low (P1OUT (disable p)) /\
  (forall val, clocks_low (P1OUT (shiftOut val p))) /\
  (forall row value, clocks_low (P1OUT (setRows row value p))).
Proof.
  intros H.
  assert (Hpw : forall bit val, Z.testbit bit 1 = false -> Z.testbit bit 2 = false ->
                  clocks_low (P1OUT (pinWrite bit val p))).
  { intros bit val H1 H2. destruct H as (Hr & Hc & Hl).
    unfold clocks_low. rewrite tst_bit1, tst_bit2 in *.
    rewrite !pinWrite_testbit, H1, H2, Hc, Hl.
    split; [|split; reflexivity].
    unfold pinWrite. destruct (nonzero val); apply u8_range. }
  split; [exact Hpw|].
  assert (Hpc : P1OUT (pulseClock p) = Z.land (P1OUT p) (0xFF - CLOCK)).
  { destruct H as (Hr & _). destruct p as [v l]. cbn [P1OUT] in *.
    u8_cases Hr; reflexivity. }
  split; [exact Hpc|]. split; [|split; [|split; [|split]]].
  - destruct H as (Hr & Hc & Hl). unfold clocks_low.
    split; [unfold pulseClock; cbn [store_P1OUT P1OUT]; apply u8_range|].
    rewrite Hpc. rewrite tst_bit1, tst_bit2 in *.
    rewrite !Z.land_spec, Hc, Hl. split; reflexivity.
  - apply (Hpw ENABLE 0); reflexivity.
  - apply (Hpw ENABLE 1); reflexivity.
  - intros val. rewrite (tracks_P1OUT (shiftOut val)) by apply tracks_shiftOut.
    apply (shiftOut_spec val (P1OUT p) H).
  - intros row value.
    rewrite (tracks_P1OUT (setRows row value)) by apply tracks_setRows.
    apply (setRows_spec row value (P1OUT p) H).
Qed.

Lemma driver_keeps_clocks_low_witness :
  clocks_low (P1OUT (Port 0 [])) /\
  clocks_low (P1OUT (setRows 2 0x1234 (disable (shiftOut 7 (Port 0 []))))).
Proof.
  assert (H0 : clocks_low (P1OUT (Port 0 [])))
    by (repeat split; (reflexivity || discriminate)).
  split; [exact H0|].
  destruct (driver_keeps_clocks_low _ H0) as (_ & _ & _ & _ & _ & Hs & _).
  destruct (driver_keeps_clocks_low _ (Hs 7)) as (_ & _ & _ & _ & Hd & _).
  destruct (driver_keeps_clocks_low _ Hd) as (_ & _ & _ & _ & _ & _ & Hr).
  apply Hr.
Defined.


(** ** The receiver on an outside line, printing *)

Lemma rx_byte_bit line e i :
  0 <= i < 8 -> Z.testbit (rx_byte line e) i = line (sample_tick e i).
Proof.
  intros H. unfold rx_byte.
  assert (E : exists k, i = Z.of_nat k /\ (k < 8)%nat)
    by (exists (Z.to_nat i); lia).
  destruct E as (k & -> & Hk). rewrite testbit_byte_of_bits.
  do 8 (destruct k as [|k]; [reflexivity|]). lia.
Qed.

Lemma rx_byte_range line e : 0 <= rx_byte line e < 2 ^ 8.
Proof. unfold rx_byte. apply (byte_of_bits_range (map _ (seq 0 8))). Qed.

Lemma samples_since_early n : n < 156 -> samples_since n = 0.
Proof. intros H. apply rx_samples_early. tbit. lia. Qed.

Lemma samples_since_spec n k :
  0 <= k -> 156 + 104 * k <= n + 104 < 156 + 104 * (k + 1) ->
  samples_since n = k.
Proof. intros Hk H. apply rx_samples_spec; [exact Hk|]. tbit. lia. Qed.

Lemma samples_since_bounds n :
  0 <= n ->
  0 <= samples_since n /\ n < 156 + 104 * samples_since n /\
  (156 <= n -> 156 + 104 * samples_since n <= n + 104).
Proof.
  intros H. unfold samples_since.
  destruct (rx_samples_bounds (n + 2 * UART_TBIT)) as (H1 & H2 & H3);
    [tbit; lia|].
  tbit. repeat split; try lia.
Qed.

Lemma rx_view_fields s a b c d e f :
  rx_view s = (a, b, c, d, e, f) ->
  TACCR1 s = a /\ TACCTL1 s = b /\ rxData s = c /\ rxBitCnt s = d /\
  rxBuffer s = e /\ SR s = f.
Proof.
  unfold rx_view. intros H.
  repeat (apply pair_equal_spec in H; destruct H as [H ?]).
  repeat split; assumption.
Qed.

Lemma ext_inv_ext line t e x0 sr0 n s s' :
  TACTL s' = TACTL s -> TAR s' = TAR s -> rx_view s' = rx_view s ->
  ext_inv line t e x0 sr0 n s -> ext_inv line t e x0 sr0 n s'.
Proof.
  intros H1 H2 H. apply rx_view_fields in H.
  destruct H as (E1 & E2 & E3 & E4 & E5 & E6).
  unfold ext_inv, main_awake. rewrite H1, H2, E1, E2, E3, E4, E5, E6.
  exact (fun H => H).
Qed.

Section ExternalLine.

Variable line : Z -> bool.
Variables t e x0 sr0 : Z.
Hypothesis line_quiet :
  forall i, 0 < i < e -> line (i - 1) && negb (line i) = false.
Hypothesis line_mark : line (e - 1) = true.
Hypothesis line_fall : line e = false.

Lemma ext_inv_rx_unit n s s1 :
  0 <= n < sample_tick e 7 ->
  ext_inv line t e x0 sr0 n s ->
  TACTL s1 = TACTL s -> rx_view s1 = rx_view s -> TAR s1 = u16 (t + (n + 1)) ->
  ext_inv line t e x0 sr0 (n + 1) (rx_unit (line (n + 1)) s1).
Proof.
  intros Hn Hinv Hc Hv HT.
  apply (rx_view_fields s1) in Hv.
  destruct Hv as (E1 & E2 & E3 & E4 & E5 & E6).
  unfold ext_inv, main_awake in Hinv.
  rewrite <- Hc, <- E1, <- E2, <- E3, <- E4, <- E5, <- E6 in Hinv.
  destruct Hinv as (Hrun & _ & He & Hm1 & Hm0 & Hi & Hph).
  clear s Hc E1 E2 E3 E4 E5 E6.
  unfold ext_inv. destruct (rx_unit_frame (line (n + 1)) s1) as (-> & -> & _).
  split; [exact Hrun|]. split; [exact HT|].
  unfold sample_tick in *. tbit.
  replace (e + 104 + 52 + 104 * 7) with (e + 884) in * by lia.
  destruct (Z.ltb_spec n e) as [Hn1|Hn1].
  - (* waiting for the start edge *)
    destruct Hph as (Hcap & Hcnt & Hr & Hx & Hsr).
    destruct (Z.ltb_spec (n + 1) e) as [Hn2|Hn2].
    + rewrite rx_unit_waiting.
      * mproj. setbit_bits. repeat split; auto; lia.
      * exact Hcap.
      * rewrite Hm1, Hm0, Hi. cbn [andb orb]. rewrite orb_false_r.
        replace n with (n + 1 - 1) at 1 by lia. apply line_quiet. lia.
    + assert (En : n + 1 = e) by lia.
      destruct (Z.ltb_spec (n + 1) (e + 884)); [|lia].
      assert (Hl : line (n + 1) = false) by (rewrite En; exact line_fall).
      assert (Hp : line n = true)
        by (replace n with (e - 1) by lia; exact line_mark).
      rewrite Hl. rewrite Hp in Hi.
      rewrite rx_unit_start by assumption.
      mproj. setbit_bits. rewrite HT, <- !Z.add_assoc, u16_add_l.
      replace (n + 1 - e) with 0 by lia.
      rewrite samples_since_early by lia.
      repeat split; auto; try lia.
      apply (f_equal u16). tbit. lia.
  - destruct (Z.ltb_spec n (e + 884)) as [Hn3|Hn3]; [|lia].
    (* sampling *)
    destruct Hph as (Hcap & Hccr & Hcnt & Hr & Hbits & Hx & Hsr).
    destruct (samples_since_bounds (n - e)) as (Hk0 & Hk1 & Hk2); [lia|].
    set (k := samples_since (n - e)) in *.
    assert (Hk3 : n - e < 156 -> k = 0) by (apply samples_since_early).
    assert (Hk7 : k <= 7) by lia.
    destruct (Z.ltb_spec (n + 1) e); [lia|].
    destruct (Z.eq_dec (n + 1) (e + 156 + 104 * k)) as [E|E].
    + (* a compare match *)
      rewrite rx_unit_match
        by (auto; rewrite HT, Hccr; apply Z.eqb_eq, (f_equal u16); lia).
      change (compare_match1 ?l ?x) with (match_step hw_match l x).
      assert (Hbits' : forall i, 0 <= i < k + 1 ->
                Z.testbit (shift_in (rxData s1) (line (n + 1)))
                          (8 - (k + 1) + i) = line (e + 104 + 52 + 104 * i)).
      { intros i Hi'. rewrite testbit_shift_in by (auto; lia).
        destruct (Z.eqb_spec (8 - (k + 1) + i) 7) as [E7|E7].
        - f_equal. lia.
        - destruct (Z.ltb_spec (8 - (k + 1) + i) 7); [|lia].
          cbn [andb]. rewrite <- Hbits by lia. f_equal. lia. }
      destruct (Z.eq_dec k 7) as [Ek|Ek].
      * (* the eighth sample *)
        destruct (Z.ltb_spec (n + 1) (e + 884)); [lia|].
        rewrite (match_step_complete bool hw_match (fun l => l)).
        -- cbv zeta. unfold main_awake. mproj.
           rewrite awake_after_clear.
           unfold hw_match. setbit_bits.
           assert (Hd : shift_in (rxData s1) (line (n + 1)) = rx_byte line e).
           { apply (bits_eq_range _ _ 8); [lia | apply shift_in_range; exact Hr
                                           | apply rx_byte_range |].
             intros i Hi'. rewrite rx_byte_bit by lia.
             unfold sample_tick. tbit.
             rewrite <- (Hbits' i) by lia. f_equal. lia. }
           rewrite Hd. repeat split; auto.
        -- intros a r. apply hw_match_bits.
        -- intros a r. apply hw_match_bits.
        -- intros a r. apply hw_match_bits.
        -- unfold sampling. mproj. rewrite tst_CAP. setbit_bits. exact Hcap.
        -- unfold rx_irq_enabled. mproj. rewrite tst_CCIE. setbit_bits. exact He.
        -- mproj. rewrite Hcnt, Ek. reflexivity.
      * destruct (Z.ltb_spec (n + 1) (e + 884)); [|lia].
        rewrite (match_step_sample bool hw_match (fun l => l)).
        -- mproj. unfold hw_match. setbit_bits.
           rewrite (samples_since_spec (n + 1 - e) (k + 1)) by lia.
           rewrite Hccr, u16_add_l, Hcnt, u8_small by lia.
           repeat split; auto; try lia.
           repeat split; auto; try lia.
           ++ apply (f_equal u16). tbit. lia.
           ++ apply shift_in_range; exact Hr.
           ++ apply shift_in_range; exact Hr.
        -- intros a r. apply hw_match_bits.
        -- intros a r. apply hw_match_bits.
        -- intros a r. apply hw_match_bits.
        -- unfold sampling. mproj. rewrite tst_CAP. setbit_bits. exact Hcap.
        -- unfold rx_irq_enabled. mproj. rewrite tst_CCIE. setbit_bits. exact He.
        -- mproj. rewrite Hcnt, u8_small by lia. lia.
    + (* between two samples *)
      assert (n + 1 < e + 156 + 104 * k) by lia.
      assert (Hk' : samples_since (n + 1 - e) = k).
      { destruct (Z_lt_le_dec (n + 1 - e) 156).
        - rewrite samples_since_early by lia. lia.
        - apply samples_since_spec; lia. }
      destruct (Z.ltb_spec (n + 1) (e + 884)); [|lia].
      rewrite rx_unit_between.
      * mproj. setbit_bits. rewrite Hk'. repeat split; auto; lia.
      * exact Hcap.
      * rewrite HT, Hccr, u16_eqb_offset by (change (2 ^ 16) with 65536; lia).
        apply Z.eqb_neq. lia.
Qed.

Lemma ext_inv_tick n s :
  0 <= n < sample_tick e 7 ->
  ext_inv line t e x0 sr0 n s ->
  ext_inv line t e x0 sr0 (n + 1) (tick (Level (line (n + 1))) s).
Proof.
  intros Hn Hinv. unfold tick. cbn [rxd_level].
  destruct (tx_unit_frame (count s)) as (T1 & T2 & T3).
  destruct (count_frame s) as (C1 & _ & C3).
  apply (ext_inv_rx_unit n s); auto.
  - rewrite T2. exact C1.
  - rewrite T3. exact C3.
  - rewrite T1. destruct Hinv as (Hrun & HT & _).
    rewrite count_running by exact Hrun. mproj.
    rewrite HT, u16_add_l. f_equal. lia.
Qed.

Lemma rxd_ticks_S n :
  rxd_ticks line (S n) = rxd_ticks line n ++ [Level (line (Z.of_nat (S n)))].
Proof. unfold rxd_ticks. rewrite seq_S, map_app. reflexivity. Qed.

Lemma ext_inv_run s (n : nat) :
  Z.of_nat n <= sample_tick e 7 ->
  ext_inv line t e x0 sr0 0 s ->
  ext_inv line t e x0 sr0 (Z.of_nat n) (run (rxd_ticks line n) s).
Proof.
  intros Hn H0. induction n as [|n IH].
  - exact H0.
  - rewrite rxd_ticks_S, run_app. cbn [run].
    replace (Z.of_nat (S n)) with (Z.of_nat n + 1) by lia.
    apply ext_inv_tick; [lia|]. apply IH. lia.
Qed.

End ExternalLine.

Lemma ext_inv_start line e s :
  1 <= e -> timer_running s -> rx_armed s ->
  nonzero (Z.land (TACCTL1 s) CCI) = line 0 ->
  ext_inv line (TAR s) e (rxBuffer s) (SR s) 0 s.
Proof.
  intros He (Hrun & Hr) ((Hcap & Hie & Hcnt & Hd) & Hm1 & Hm0) Hi.
  unfold capturing, rx_irq_enabled in *.
  rewrite tst_CAP in Hcap. rewrite tst_CCIE in Hie. rewrite tst_CM1 in Hm1.
  rewrite tst_CM0 in Hm0. rewrite tst_CCI in Hi.
  unfold ext_inv. rewrite Z.add_0_r, u16_small by exact Hr.
  destruct (Z.ltb_spec 0 e); [|lia].
  repeat split; auto; lia.
Qed.

(** A frame from an outside line, from the armed receiver to the
    delivery of the byte. *)
Lemma ext_frame line e s :
  timer_running s -> rx_armed s ->
  nonzero (Z.land (TACCTL1 s) CCI) = line 0 ->
  1 <= e ->
  (forall i, 0 < i < e -> line (i - 1) && negb (line i) = false) ->
  line (e - 1) = true -> line e = false ->
  (forall n, Z.of_nat n < sample_tick e 7 ->
     rxBuffer (run (rxd_ticks line n) s) = rxBuffer s /\
     SR (run (rxd_ticks line n) s) = SR s) /\
  let s' := run (rxd_ticks line (Z.to_nat (sample_tick e 7))) s in
  rxBuffer s' = rx_byte line e /\ main_awake s' = true /\
  timer_running s' /\ rx_armed s' /\
  nonzero (Z.land (TACCTL1 s') CCI) = line (sample_tick e 7).
Proof.
  intros Hrun Harm Hcci He Hq Hm Hf.
  pose proof (ext_inv_start line e s He Hrun Harm Hcci) as H0.
  assert (Hs7 : sample_tick e 7 = e + 884) by (unfold sample_tick; tbit; lia).
  split.
  - intros n Hn.
    pose proof (ext_inv_run line _ e _ _ Hq Hm Hf s n ltac:(lia) H0) as H.
    destruct H as (_ & _ & _ & _ & _ & _ & Hph).
    destruct (Z.ltb_spec (Z.of_nat n) e).
    + destruct Hph as (_ & _ & _ & Hx & Hsr). split; assumption.
    + destruct (Z.ltb_spec (Z.of_nat n) (sample_tick e 7)); [|lia].
      destruct Hph as (_ & _ & _ & _ & _ & Hx & Hsr). split; assumption.
  - cbv zeta.
    pose proof (ext_inv_run line _ e _ _ Hq Hm Hf s
                 (Z.to_nat (sample_tick e 7)) ltac:(lia) H0) as H.
    rewrite Z2Nat.id in H by lia.
    destruct H as (Hr' & HT & Hie & Hm1 & Hm0 & Hi & Hph).
    destruct (Z.ltb_spec (sample_tick e 7) e); [lia|].
    rewrite Z.ltb_irrefl in Hph.
    destruct Hph as (Hcap & Hcnt & Hd & Hx & Hw).
    split; [exact Hx|]. split; [exact Hw|].
    split; [split; [exact Hr' | rewrite HT; apply u16_range]|].
    split.
    + unfold rx_armed, rx_ready, capturing, rx_irq_enabled.
      rewrite tst_CAP, tst_CCIE, tst_CM1, tst_CM0, Hd.
      repeat split; auto; apply rx_byte_range.
    + rewrite tst_CCI. exact Hi.
Qed.

Lemma rx_idle_armed s :
  rx_idle s <-> rx_armed s /\ nonzero (Z.land (TACCTL1 s) CCI) = true.
Proof. unfold rx_idle, rx_armed. tauto. Qed.

Lemma rx_idle_init t : rx_idle (init_state t).
Proof.
  unfold rx_idle. split; [apply rx_ready_init|]. repeat split.
Defined.

Lemma timer_running_init t : 0 <= t < 2 ^ 16 -> timer_running (init_state t).
Proof. intros H. split; [reflexivity | exact H]. Defined.

(** X6: a frame from an outside line.  The receiver armed, the first
    falling edge on RXD showing in tick [e]: the mailbox and the status
    register are untouched for 8 bit periods and a half less one tick;
    in tick [e + 884] the byte made of the levels at the eight sample
    ticks [e + 156 + 104 k] is delivered and the foreground woken,
    whatever the line does at any other tick and whatever the
    transmitter is doing; the receiver is armed again. *)
Theorem rx_external_frame (line : Z -> bool) (e : Z) (s : machine) :
  timer_running s -> rx_armed s ->
  nonzero (Z.land (TACCTL1 s) CCI) = line 0 ->
  1 <= e ->
  (forall i, 0 < i < e -> line (i - 1) && negb (line i) = false) ->
  line (e - 1) = true -> line e = false ->
  let after n := run (rxd_ticks line n) s in
  let done := Z.to_nat (e + 8 * UART_TBIT + UART_TBIT_DIV_2) in
  (forall n, (n < done)%nat ->
     rxBuffer (after n) = rxBuffer s /\ SR (after n) = SR s) /\
  rxBuffer (after done) =
    byte_of_bits (map (fun k => line (e + UART_TBIT + UART_TBIT_DIV_2
                                      + UART_TBIT * Z.of_nat k)) (seq 0 8)) /\
  main_awake (after done) = true /\
  timer_running (after done) /\ rx_armed (after done) /\
  nonzero (Z.land (TACCTL1 (after done)) CCI) = line (Z.of_nat done).
Proof.
  intros Hrun Harm Hcci He Hq Hm Hf. cbv zeta.
  destruct (ext_frame line e s Hrun Harm Hcci He Hq Hm Hf) as (Hpre & Hpost).
  cbv zeta in Hpost.
  assert (Hs7 : sample_tick e 7 = e + 8 * UART_TBIT + UART_TBIT_DIV_2)
    by (unfold sample_tick; tbit; lia).
  rewrite <- Hs7. rewrite Z2Nat.id by (rewrite Hs7; tbit; lia).
  split; [|exact Hpost].
  intros n Hn. apply Hpre. rewrite Hs7 in *. tbit. lia.
Qed.

Lemma rx_external_frame_witness :
  let line := sender_line 0x41 104 10 in
  (timer_running (init_state 0) /\ rx_armed (init_state 0) /\
   nonzero (Z.land (TACCTL1 (init_state 0)) CCI) = line 0 /\ 1 <= 10 /\
   line (10 - 1) = true /\ line 10 = false) /\
  rxBuffer (run (rxd_ticks line 894) (init_state 0)) = 0x41.
Proof.
  cbv zeta.
  assert (Hi : rx_idle (init_state 0)) by apply rx_idle_init.
  apply rx_idle_armed in Hi. destruct Hi as [Ha Hc].
  assert (Hr : timer_running (init_state 0))
    by (apply timer_running_init; split; [discriminate | reflexivity]).
  assert (H1 : 1 <= 10) by discriminate.
  assert (Hq : forall i, 0 < i < 10 ->
             sender_line 0x41 104 10 (i - 1) && negb (sender_line 0x41 104 10 i)
             = false).
  { intros i Hi. assert (E : sender_line 0x41 104 10 i = true).
    { unfold sender_line, uart_level.
      destruct (Z.ltb_spec ((i - 10) / 104) 0); [reflexivity|].
      Z.div_mod_to_equations. lia. }
    rewrite E. apply andb_false_r. }
  split; [exact (conj Hr (conj Ha (conj Hc (conj H1 (conj eq_refl eq_refl)))))|].
  destruct (rx_external_frame (sender_line 0x41 104 10) 10 (init_state 0)
              Hr Ha Hc H1 Hq eq_refl eq_refl) as (_ & H & _).
  change (Z.to_nat (10 + 8 * UART_TBIT + UART_TBIT_DIV_2)) with 894%nat in H.
  rewrite H. reflexivity.
Defined.

Lemma sender_line_frame b P e :
  1 <= P ->
  (forall i, 0 < i < e ->
     sender_line b P e (i - 1) && negb (sender_line b P e i) = false) /\
  sender_line b P e (e - 1) = true /\ sender_line b P e e = false /\
  (1 <= e -> sender_line b P e 0 = true).
Proof.
  intros HP.
  assert (Hm : forall i, i < e -> sender_line b P e i = true).
  { intros i Hi. unfold sender_line, uart_level.
    destruct (Z.ltb_spec ((i - e) / P) 0); [reflexivity|].
    assert ((i - e) / P < 0) by (apply Z.div_lt_upper_bound; lia). lia. }
  split; [|split; [|split]].
  - intros i Hi. rewrite (Hm i) by lia. apply andb_false_r.
  - apply Hm. lia.
  - unfold sender_line. rewrite Z.sub_diag, Z.div_0_l by lia. reflexivity.
  - intros He. apply Hm. lia.
Qed.

Lemma sender_line_sample b P e k :
  1 <= P -> 0 <= k ->
  sender_line b P e (sample_tick e k) = uart_level b ((156 + 104 * k) / P).
Proof.
  intros HP Hk. unfold sender_line, sample_tick. tbit. f_equal. f_equal. lia.
Qed.

Lemma ext_frame_sender b P e s :
  1 <= P -> 1 <= e -> timer_running s -> rx_idle s ->
  let s' := run (rxd_ticks (sender_line b P e)
                   (Z.to_nat (e + 8 * UART_TBIT + UART_TBIT_DIV_2))) s in
  rxBuffer s' = rx_byte (sender_line b P e) e /\ main_awake s' = true.
Proof.
  intros HP He Hrun Hidle. cbv zeta.
  apply rx_idle_armed in Hidle. destruct Hidle as [Ha Hc].
  destruct (sender_line_frame b P e HP) as (Hq & Hm & Hf & H0).
  destruct (ext_frame (sender_line b P e) e s Hrun Ha) as (_ & Hpost); auto.
  - rewrite H0 by exact He. exact Hc.
  - cbv zeta in Hpost.
    replace (e + 8 * UART_TBIT + UART_TBIT_DIV_2) with (sample_tick e 7)
      by (unfold sample_tick; tbit; lia).
    split; apply Hpost.
Qed.

(** X7: tolerance to the sender's bit rate.  An outside sender with a bit
    period of [P] timer ticks has every byte received right exactly when
    [P] is between 99 and 110: the receiver, sampling every 104 ticks
    from one and a half bit periods after the start edge, stays inside
    the right bit of all eight. *)
Theorem rx_baud_tolerance (P e : Z) (s : machine) :
  1 <= P -> 1 <= e -> timer_running s -> rx_idle s ->
  (forall b, 0 <= b < 2 ^ 8 ->
     rxBuffer (run (rxd_ticks (sender_line b P e)
                      (Z.to_nat (e + 8 * UART_TBIT + UART_TBIT_DIV_2))) s) = b)
  <-> 99 <= P <= 110.
Proof.
  intros HP He Hrun Hidle. split.
  - intros H.
    destruct (Z_le_gt_dec P 98) as [Hlo|Hlo].
    + exfalso. specialize (H 0 ltac:(lia)).
      destruct (ext_frame_sender 0 P e s HP He Hrun Hidle) as [E _].
      rewrite E in H. apply (f_equal (fun z => Z.testbit z 7)) in H.
      rewrite rx_byte_bit, sender_line_sample in H by lia.
      change (156 + 104 * 7) with 884 in H.
      assert (9 <= 884 / P) by (apply Z.div_le_lower_bound; lia).
      unfold uart_level in H.
      destruct (Z.ltb_spec (884 / P) 0); [lia|].
      destruct (Z.eqb_spec (884 / P) 0); [lia|].
      destruct (Z.leb_spec (884 / P) 8); [lia|]. discriminate.
    + destruct (Z_le_gt_dec P 110) as [Hhi|Hhi]; [lia|].
      exfalso. specialize (H 128 ltac:(lia)).
      destruct (ext_frame_sender 128 P e s HP He Hrun Hidle) as [E _].
      rewrite E in H. apply (f_equal (fun z => Z.testbit z 7)) in H.
      rewrite rx_byte_bit, sender_line_sample in H by lia.
      change (156 + 104 * 7) with 884 in H.
      assert (0 <= 884 / P) by (apply Z.div_pos; lia).
      assert (884 / P < 8) by (apply Z.div_lt_upper_bound; lia).
      unfold uart_level in H.
      destruct (Z.ltb_spec (884 / P) 0); [lia|].
      destruct (Z.eqb_spec (884 / P) 0); [discriminate|].
      destruct (Z.leb_spec (884 / P) 8); [|lia].
      assert (Hq : 884 / P - 1 = 0 \/ 884 / P - 1 = 1 \/ 884 / P - 1 = 2 \/
                   884 / P - 1 = 3 \/ 884 / P - 1 = 4 \/ 884 / P - 1 = 5 \/
                   884 / P - 1 = 6) by lia.
      destruct Hq as [Hq|[Hq|[Hq|[Hq|[Hq|[Hq|Hq]]]]]]; rewrite Hq in H;
        discriminate.
  - intros HPr b Hb.
    destruct (ext_frame_sender b P e s HP He Hrun Hidle) as [E _].
    rewrite E. apply (bits_eq_range _ _ 8); [lia | apply rx_byte_range | exact Hb |].
    intros k Hk. rewrite rx_byte_bit, sender_line_sample by lia.
    assert (Hd : (156 + 104 * k) / P = k + 1).
    { symmetry. apply (Z.div_unique _ _ _ (156 + 104 * k - P * (k + 1))).
      - left. assert (Hc : k = 0 \/ k = 1 \/ k = 2 \/ k = 3 \/ k = 4 \/ k = 5 \/
                           k = 6 \/ k = 7) by lia.
        destruct Hc as [->|[->|[->|[->|[->|[->|[->| ->]]]]]]]; lia.
      - lia. }
    rewrite Hd. unfold uart_level.
    destruct (Z.ltb_spec (k + 1) 0); [lia|].
    destruct (Z.eqb_spec (k + 1) 0); [lia|].
    destruct (Z.leb_spec (k + 1) 8); [|lia].
    f_equal. lia.
Qed.

Lemma rx_baud_tolerance_witness :
  (1 <= 110 /\ 1 <= 3 /\ timer_running (init_state 0) /\
   rx_idle (init_state 0)) /\
  rxBuffer (run (rxd_ticks (sender_line 0xA5 110 3) 887) (init_state 0)) = 0xA5.
Proof.
  assert (HP : 1 <= 110) by discriminate.
  assert (He : 1 <= 3) by discriminate.
  assert (Hr : timer_running (init_state 0))
    by (apply timer_running_init; split; [discriminate | reflexivity]).
  split; [exact (conj HP (conj He (conj Hr (rx_idle_init 0))))|].
  destruct (rx_baud_tolerance 110 3 (init_state 0) HP He Hr (rx_idle_init 0))
    as [_ H].
  assert (HPr : 99 <= 110 <= 110) by (split; discriminate).
  apply (H HPr 0xA5). split; [discriminate | reflexivity].
Defined.

Lemma pulse_line_frame e w :
  1 <= w ->
  (forall i, 0 < i < e ->
     pulse_line e w (i - 1) && negb (pulse_line e w i) = false) /\
  pulse_line e w (e - 1) = true /\ pulse_line e w e = false /\
  (1 <= e -> pulse_line e w 0 = true).
Proof.
  intros Hw.
  assert (Hm : forall i, i < e -> pulse_line e w i = true).
  { intros i Hi. unfold pulse_line.
    destruct (Z.leb_spec e i); [lia | reflexivity]. }
  split; [|split; [|split]].
  - intros i Hi. rewrite (Hm i) by lia. apply andb_false_r.
  - apply Hm. lia.
  - unfold pulse_line. destruct (Z.leb_spec e e); [|lia].
    destruct (Z.ltb_spec e (e + w)); [reflexivity | lia].
  - intros He. apply Hm. lia.
Qed.

(** X8: no check of the start bit nor of the stop bit.  On a line at mark,
    a low pulse from tick [e] on is taken for a start edge whatever its
    width: 8 bit periods and a half later a byte is delivered and the
    foreground woken.  A pulse of at most one bit period and a half gives
    0xFF, a line held low past the last sample gives 0x00. *)
Theorem rx_no_framing_check (e w : Z) (s : machine) :
  1 <= e -> 1 <= w -> timer_running s -> rx_idle s ->
  let s' := run (rxd_ticks (pulse_line e w)
                   (Z.to_nat (e + 8 * UART_TBIT + UART_TBIT_DIV_2))) s in
  main_awake s' = true /\
  (forall k, 0 <= k < 8 ->
     Z.testbit (rxBuffer s') k =
     (w <=? UART_TBIT + UART_TBIT_DIV_2 + UART_TBIT * k)) /\
  (w <= UART_TBIT + UART_TBIT_DIV_2 -> rxBuffer s' = 0xFF) /\
  (8 * UART_TBIT + UART_TBIT_DIV_2 < w -> rxBuffer s' = 0x00).
Proof.
  intros He Hw Hrun Hidle. cbv zeta.
  apply rx_idle_armed in Hidle. destruct Hidle as [Ha Hc].
  destruct (pulse_line_frame e w Hw) as (Hq & Hm & Hf & H0).
  destruct (ext_frame (pulse_line e w) e s Hrun Ha) as (_ & Hpost); auto.
  { rewrite H0 by exact He. exact Hc. }
  cbv zeta in Hpost.
  replace (e + 8 * UART_TBIT + UART_TBIT_DIV_2) with (sample_tick e 7)
    by (unfold sample_tick; tbit; lia).
  destruct Hpost as (E & Hwake & _). rewrite E.
  assert (Hbits : forall k, 0 <= k < 8 ->
            Z.testbit (rx_byte (pulse_line e w) e) k =
            (w <=? UART_TBIT + UART_TBIT_DIV_2 + UART_TBIT * k)).
  { intros k Hk. rewrite rx_byte_bit by lia. unfold pulse_line, sample_tick.
    tbit. destruct (Z.leb_spec e (e + 104 + 52 + 104 * k)); [|lia].
    destruct (Z.ltb_spec (e + 104 + 52 + 104 * k) (e + w)),
             (Z.leb_spec w (104 + 52 + 104 * k)); try lia; reflexivity. }
  split; [exact Hwake|]. split; [exact Hbits|]. tbit. split.
  - intros Hs. apply (bits_eq_range _ _ 8); [lia | apply rx_byte_range | lia |].
    intros k Hk. rewrite Hbits by lia. tbit.
    destruct (Z.leb_spec w (104 + 52 + 104 * k)); [|lia].
    change 255 with (Z.ones 8). rewrite Z.ones_spec_low by lia. reflexivity.
  - intros Hl. apply (bits_eq_range _ _ 8); [lia | apply rx_byte_range | lia |].
    intros k Hk. rewrite Hbits by lia. tbit.
    destruct (Z.leb_spec w (104 + 52 + 104 * k)); [lia|].
    rewrite Z.bits_0. reflexivity.
Qed.

Lemma rx_no_framing_check_witness :
  (1 <= 5 /\ 1 <= 2 /\ timer_running (init_state 0) /\
   rx_idle (init_state 0)) /\
  rxBuffer (run (rxd_ticks (pulse_line 5 2) 889) (init_state 0)) = 0xFF.
Proof.
  assert (He : 1 <= 5) by discriminate.
  assert (Hw : 1 <= 2) by discriminate.
  assert (Hr : timer_running (init_state 0))
    by (apply timer_running_init; split; [discriminate | reflexivity]).
  split; [exact (conj He (conj Hw (conj Hr (rx_idle_init 0))))|].
  destruct (rx_no_framing_check 5 2 (init_state 0) He Hw Hr (rx_idle_init 0))
    as (_ & _ & H & _).
  apply H. discriminate.
Defined.

(** The first falling edge of a line within [n] ticks, if any. *)
Lemma first_fall (line : Z -> bool) (n : nat) :
  (forall i, 0 < i <= Z.of_nat n -> line (i - 1) && negb (line i) = false) \/
  (exists e, 1 <= e <= Z.of_nat n /\
     (forall i, 0 < i < e -> line (i - 1) && negb (line i) = false) /\
     line (e - 1) = true /\ line e = false).
Proof.
  induction n as [|n IH].
  - left. intros i Hi. lia.
  - destruct IH as [IH|(e & He & Hq & Hm & Hf)].
    + destruct (line (Z.of_nat (S n) - 1) && negb (line (Z.of_nat (S n))))
        eqn:E.
      * right. exists (Z.of_nat (S n)).
        apply andb_true_iff in E. destruct E as [E1 E2].
        apply negb_true_iff in E2.
        repeat split; auto; try lia. intros i Hi. apply IH. lia.
      * left. intros i Hi.
        destruct (Z.eq_dec i (Z.of_nat (S n))) as [->|Hne]; [exact E|].
        apply IH. lia.
    + right. exists e. repeat split; auto; lia.
Qed.

Lemma rxd_ticks_ext line line' n :
  (forall i, 0 < i <= Z.of_nat n -> line i = line' i) ->
  rxd_ticks line n = rxd_ticks line' n.
Proof.
  intros H. unfold rxd_ticks. apply map_ext_in. intros i Hi.
  apply in_seq in Hi. rewrite H by lia. reflexivity.
Qed.

Lemma mailbox_hold line s (n : nat) :
  timer_running s -> rx_armed s ->
  nonzero (Z.land (TACCTL1 s) CCI) = line 0 ->
  Z.of_nat n <= 8 * UART_TBIT + UART_TBIT_DIV_2 ->
  rxBuffer (run (rxd_ticks line n) s) = rxBuffer s /\
  SR (run (rxd_ticks line n) s) = SR s.
Proof.
  intros Hrun Ha Hc Hn.
  destruct (first_fall line n) as [Hq|(e & He & Hq & Hm & Hf)].
  - set (line' := fun i => if i <=? Z.of_nat n then line i
                           else (i =? Z.of_nat n + 1)).
    assert (Hag : forall i, i <= Z.of_nat n -> line' i = line i).
    { intros i Hi. unfold line'. destruct (Z.leb_spec i (Z.of_nat n)); [reflexivity | lia]. }
    rewrite (rxd_ticks_ext line line') by (intros; symmetry; apply Hag; lia).
    destruct (ext_frame line' (Z.of_nat n + 2) s Hrun Ha) as (Hpre & _).
    + rewrite Hag by lia. exact Hc.
    + lia.
    + intros i Hi. destruct (Z_le_gt_dec i (Z.of_nat n)).
      * rewrite !Hag by lia. apply Hq. lia.
      * assert (i = Z.of_nat n + 1) by lia. subst i. unfold line' at 2.
        destruct (Z.leb_spec (Z.of_nat n + 1) (Z.of_nat n)); [lia|].
        rewrite Z.eqb_refl. apply andb_false_r.
    + unfold line'.
      destruct (Z.leb_spec (Z.of_nat n + 2 - 1) (Z.of_nat n)); [lia|].
      apply Z.eqb_eq. lia.
    + unfold line'.
      destruct (Z.leb_spec (Z.of_nat n + 2) (Z.of_nat n)); [lia|].
      apply Z.eqb_neq. lia.
    + apply Hpre. unfold sample_tick. tbit. lia.
  - destruct (ext_frame line e s Hrun Ha Hc) as (Hpre & _); auto; try lia.
    apply Hpre. unfold sample_tick. tbit. lia.
Qed.

(** X9: how long a delivered byte can be read.  From a state with the
    receiver armed, as it is when a byte has just been delivered, the
    mailbox and the status register keep their values for the next 8 bit
    periods and a half, whatever the line does; a start edge in the next
    tick has them rewritten one tick later. *)
Theorem mailbox_hold_time (line : Z -> bool) (s : machine) :
  timer_running s -> rx_armed s ->
  nonzero (Z.land (TACCTL1 s) CCI) = line 0 ->
  (forall n, Z.of_nat n <= 8 * UART_TBIT + UART_TBIT_DIV_2 ->
     rxBuffer (run (rxd_ticks line n) s) = rxBuffer s /\
     SR (run (rxd_ticks line n) s) = SR s) /\
  (line 0 = true -> line 1 = false ->
   let s' := run (rxd_ticks line
                    (S (Z.to_nat (8 * UART_TBIT + UART_TBIT_DIV_2)))) s in
   rxBuffer s' =
     byte_of_bits (map (fun k => line (1 + UART_TBIT + UART_TBIT_DIV_2
                                       + UART_TBIT * Z.of_nat k)) (seq 0 8)) /\
   main_awake s' = true).
Proof.
  intros Hrun Ha Hc. split.
  - intros n Hn. apply mailbox_hold; assumption.
  - intros H0 H1. cbv zeta.
    destruct (ext_frame line 1 s Hrun Ha Hc) as (_ & Hpost); auto; try lia.
    cbv zeta in Hpost. destruct Hpost as (E & Hw & _).
    split; [exact E | exact Hw].
Qed.

Lemma mailbox_hold_time_witness :
  let s := set_rxBuffer 0x41 (init_state 0) in
  let line := sender_line 0x42 104 1 in
  (timer_running s /\ rx_armed s /\
   nonzero (Z.land (TACCTL1 s) CCI) = line 0) /\
  rxBuffer (run (rxd_ticks line 884) s) = 0x41 /\
  rxBuffer (run (rxd_ticks line 885) s) = 0x42.
Proof.
  cbv zeta.
  set (s := set_rxBuffer 0x41 (init_state 0)).
  assert (Hr : timer_running s)
    by (split; [reflexivity | split; [discriminate | reflexivity]]).
  assert (Ha : rx_armed s).
  { split; [|split; reflexivity].
    repeat split; (reflexivity || discriminate). }
  assert (Hc : nonzero (Z.land (TACCTL1 s) CCI) = sender_line 0x42 104 1 0)
    by reflexivity.
  destruct (mailbox_hold_time (sender_line 0x42 104 1) s Hr Ha Hc) as [H1 H2].
  split; [exact (conj Hr (conj Ha Hc))|].
  split.
  - assert (Hn : Z.of_nat 884 <= 8 * UART_TBIT + UART_TBIT_DIV_2)
      by (vm_compute; discriminate).
    rewrite (proj1 (H1 884%nat Hn)). reflexivity.
  - destruct (H2 eq_refl eq_refl) as [E _].
    change (S (Z.to_nat (8 * UART_TBIT + UART_TBIT_DIV_2))) with 885%nat in E.
    rewrite E. reflexivity.
Defined.

Lemma count_local s s' :
  TAR s = TAR s' -> TACTL s = TACTL s' -> TAR (count s) = TAR (count s').
Proof.
  intros H1 H2. unfold count. rewrite H2.
  destruct (Z.land (TACTL s') MC_3 =? MC_2); mproj; rewrite ?H1; reflexivity.
Qed.

Lemma tick_tx_local src src' s s' :
  TAR s = TAR s' -> TACTL s = TACTL s' -> tx_view s = tx_view s' ->
  TAR (tick src s) = TAR (tick src' s') /\
  TACTL (tick src s) = TACTL (tick src' s') /\
  tx_view (tick src s) = tx_view (tick src' s').
Proof.
  intros H1 H2 H3. unfold tick.
  destruct (rx_unit_frame (rxd_level src (tx_unit (count s))) (tx_unit (count s)))
    as (-> & -> & ->).
  destruct (rx_unit_frame (rxd_level src' (tx_unit (count s')))
              (tx_unit (count s'))) as (-> & -> & ->).
  destruct (tx_unit_frame (count s)) as (-> & -> & _).
  destruct (tx_unit_frame (count s')) as (-> & -> & _).
  destruct (count_frame s) as (C1 & C2 & _).
  destruct (count_frame s') as (C1' & C2' & _).
  split; [apply count_local; assumption|].
  split; [rewrite C1, C1'; exact H2|].
  apply tx_unit_local.
  - apply count_local; assumption.
  - rewrite C2, C2'. exact H3.
Qed.

Lemma tick_rx_local l s s' :
  TAR s = TAR s' -> TACTL s = TACTL s' -> rx_view s = rx_view s' ->
  TAR (tick (Level l) s) = TAR (tick (Level l) s') /\
  TACTL (tick (Level l) s) = TACTL (tick (Level l) s') /\
  rx_view (tick (Level l) s) = rx_view (tick (Level l) s').
Proof.
  intros H1 H2 H3. unfold tick. cbn [rxd_level].
  destruct (rx_unit_frame l (tx_unit (count s))) as (R1 & R2 & _).
  destruct (rx_unit_frame l (tx_unit (count s'))) as (R1' & R2' & _).
  destruct (tx_unit_frame (count s)) as (T1 & T2 & T3).
  destruct (tx_unit_frame (count s')) as (T1' & T2' & T3').
  destruct (count_frame s) as (C1 & _ & C3).
  destruct (count_frame s') as (C1' & _ & C3').
  pose proof (count_local s s' H1 H2) as HT.
  split; [rewrite R1, R1', T1, T1'; exact HT|].
  split; [rewrite R2, R2', T2, T2', C1, C1'; exact H2|].
  apply rx_unit_local.
  - rewrite T1, T1'. exact HT.
  - rewrite T3, T3', C3, C3'. exact H3.
Qed.

Lemma run_tx_local env : forall env' s s',
  length env = length env' ->
  TAR s = TAR s' -> TACTL s = TACTL s' -> tx_view s = tx_view s' ->
  TAR (run env s) = TAR (run env' s') /\
  TACTL (run env s) = TACTL (run env' s') /\
  tx_view (run env s) = tx_view (run env' s').
Proof.
  induction env as [|src env IH]; intros [|src' env'] s s' Hl H1 H2 H3;
    try discriminate Hl.
  - repeat split; assumption.
  - cbn [run]. injection Hl as Hl.
    destruct (tick_tx_local src src' s s' H1 H2 H3) as (T1 & T2 & T3).
    apply IH; assumption.
Qed.

Lemma run_rx_local ls : forall s s',
  TAR s = TAR s' -> TACTL s = TACTL s' -> rx_view s = rx_view s' ->
  TAR (run (map Level ls) s) = TAR (run (map Level ls) s') /\
  TACTL (run (map Level ls) s) = TACTL (run (map Level ls) s') /\
  rx_view (run (map Level ls) s) = rx_view (run (map Level ls) s').
Proof.
  induction ls as [|l ls IH]; intros s s' H1 H2 H3.
  - repeat split; assumption.
  - cbn [run map].
    destruct (tick_rx_local l s s' H1 H2 H3) as (T1 & T2 & T3).
    apply IH; assumption.
Qed.

(** X10: the two directions do not influence each other over whole runs.
    What the transmitter does, the level of TXD included, depends on its
    own state, the counter and the number of ticks, not on the receiver
    nor on what drives RXD; what the receiver does on an outside line
    depends on its own state, the counter and the levels, not on the
    transmitter. *)
Theorem full_duplex_runs (s s' : machine) (env env' : list rx_source)
  (ls : list bool) :
  TAR s = TAR s' -> TACTL s = TACTL s' ->
  (length env = length env' -> tx_view s = tx_view s' ->
   tx_view (run env s) = tx_view (run env' s') /\
   TXD (run env s) = TXD (run env' s')) /\
  (rx_view s = rx_view s' ->
   rx_view (run (map Level ls) s) = rx_view (run (map Level ls) s') /\
   rxBuffer (run (map Level ls) s) = rxBuffer (run (map Level ls) s') /\
   main_awake (run (map Level ls) s) = main_awake (run (map Level ls) s')).
Proof.
  intros H1 H2. split.
  - intros Hl H3.
    destruct (run_tx_local env env' s s' Hl H1 H2 H3) as (_ & _ & E).
    split; [exact E|].
    unfold tx_view in E. repeat (apply pair_equal_spec in E; destruct E as [E ?]).
    assumption.
  - intros H3.
    destruct (run_rx_local ls s s' H1 H2 H3) as (_ & _ & E).
    split; [exact E|].
    apply (rx_view_fields (run (map Level ls) s)) in E.
    destruct E as (_ & _ & _ & _ & E5 & E6).
    unfold main_awake. rewrite E5, E6. split; reflexivity.
Qed.

Lemma full_duplex_runs_witness :
  let s := TimerA_UART_tx_load 0x41 (init_state 0) in
  let s' := set_rxData 0x55 s in
  let ls := map (fun i => sender_line 0x42 104 10 (Z.of_nat i)) (seq 1 894) in
  (TAR s = TAR s' /\ TACTL s = TACTL s' /\
   length (repeat Loopback 500) = length (map Level (firstn 500 ls)) /\
   tx_view s = tx_view s') /\
  TXD (run (repeat Loopback 500) s) = TXD (run (map Level (firstn 500 ls)) s') /\
  (TAR s = TAR (init_state 0) /\ TACTL s = TACTL (init_state 0) /\
   rx_view s = rx_view (init_state 0)) /\
  rxBuffer (run (map Level ls) s) = rxBuffer (run (map Level ls) (init_state 0)).
Proof.
  cbv zeta.
  set (s := TimerA_UART_tx_load 0x41 (init_state 0)).
  set (ls := map (fun i => sender_line 0x42 104 10 (Z.of_nat i)) (seq 1 894)).
  assert (Hl : length (repeat Loopback 500) = length (map Level (firstn 500 ls)))
    by reflexivity.
  split; [repeat split; exact Hl|].
  split; [|split; [repeat split|]].
  - destruct (full_duplex_runs s (set_rxData 0x55 s) (repeat Loopback 500)
                (map Level (firstn 500 ls)) [] eq_refl eq_refl) as [H _].
    destruct (H Hl eq_refl) as [_ Hx]. exact Hx.
  - destruct (full_duplex_runs s (init_state 0) [] [] ls eq_refl eq_refl)
      as [_ H].
    destruct (H eq_refl) as (_ & Hx & _). exact Hx.
Defined.

Lemma tx_rest_idle s : tx_rest s -> tx_idle s.
Proof.
  intros (Hr & Hc & Hn & Hl). unfold tx_idle.
  repeat split; try apply Hr; auto.
  destruct Hc as [-> | ->]; reflexivity.
Qed.

Lemma tx_rest_tx_unit s :
  Z.land (TACTL s) MC_3 = MC_2 ->
  (TACCTL0 s = OUT \/ TACCTL0 s = OUTMOD0) -> txBitCnt s = 10 -> TXD s = true ->
  tx_view (tx_unit s) = tx_view s.
Proof.
  intros Hr Hc Hn Hl. unfold tx_unit.
  destruct (TAR s =? TACCR0 s); [|reflexivity].
  mproj.
  assert (Ho : out_unit0 (TACCTL0 s) (TXD s) = true)
    by (destruct Hc as [-> | ->]; reflexivity).
  assert (Hi : nonzero (Z.land (TACCTL0 s) CCIE) = false)
    by (destruct Hc as [-> | ->]; reflexivity).
  rewrite Hi, Ho. unfold tx_view. mproj. rewrite Hl. reflexivity.
Qed.

Lemma tx_rest_tick src s :
  tx_rest s ->
  tx_rest (tick src s) /\ TXD (tx_unit (count s)) = true /\
  tx_view (tick src s) = tx_view s.
Proof.
  intros ((Hrun & Hr) & Hc & Hn & Hl).
  assert (Hv : tx_view (tx_unit (count s)) = tx_view s).
  { destruct (count_frame s) as (C1 & C2 & _).
    rewrite <- C2. apply tx_rest_tx_unit.
    - rewrite C1. exact Hrun.
    - rewrite count_running by exact Hrun. exact Hc.
    - rewrite count_running by exact Hrun. exact Hn.
    - rewrite count_running by exact Hrun. exact Hl. }
  assert (Hv' : tx_view (tick src s) = tx_view s).
  { unfold tick.
    destruct (rx_unit_frame (rxd_level src (tx_unit (count s)))
                (tx_unit (count s))) as (_ & _ & ->). exact Hv. }
  split; [|split; [|exact Hv']].
  - apply (tx_view_fields (tick src s)) in Hv'.
    destruct Hv' as (_ & E2 & E3 & _ & E5).
    unfold tx_rest, timer_running. rewrite E2, E3, E5.
    unfold tick.
    destruct (rx_unit_frame (rxd_level src (tx_unit (count s)))
                (tx_unit (count s))) as (-> & -> & _).
    destruct (tx_unit_frame (count s)) as (-> & -> & _).
    destruct (count_frame s) as (-> & _ & _).
    rewrite count_running by exact Hrun. mproj.
    repeat split; auto; apply u16_range.
  - apply (tx_view_fields (tx_unit (count s))) in Hv.
    destruct Hv as (_ & _ & E3 & _). rewrite E3. exact Hl.
Qed.

Lemma tx_rest_run env : forall s,
  tx_rest s -> tx_rest (run env s) /\ tx_view (run env s) = tx_view s.
Proof.
  induction env as [|src env IH]; intros s H.
  - split; [exact H | reflexivity].
  - cbn [run]. destruct (tx_rest_tick src s H) as (H1 & _ & E).
    destruct (IH _ H1) as (H2 & E2). split; [exact H2|].
    rewrite E2. exact E.
Qed.

Lemma run_loopback_rest (n : nat) : forall s,
  tx_rest s -> run (repeat Loopback n) s = run (repeat (Level true) n) s.
Proof.
  induction n as [|n IH]; intros s H; [reflexivity|].
  cbn [repeat run].
  destruct (tx_rest_tick Loopback s H) as (H1 & E & _).
  assert (Et : tick Loopback s = tick (Level true) s).
  { unfold tick. cbn [rxd_level]. rewrite E. reflexivity. }
  rewrite Et. apply IH. rewrite <- Et. exact H1.
Qed.

Lemma tx_rest_init s :
  0 <= TAR s < 2 ^ 16 -> txBitCnt s = 10 -> tx_rest (TimerA_UART_init s).
Proof.
  intros Hr Hn. unfold tx_rest, timer_running, TimerA_UART_init, write_TACCTL0.
  mproj. repeat split; auto; lia.
Qed.

(** The receiver on a line without a falling edge. *)
Lemma rx_quiet_run line s (n : nat) :
  timer_running s -> rx_armed s ->
  nonzero (Z.land (TACCTL1 s) CCI) = line 0 ->
  (forall i, 0 < i <= Z.of_nat n -> line (i - 1) && negb (line i) = false) ->
  let s' := run (rxd_ticks line n) s in
  rx_armed s' /\ nonzero (Z.land (TACCTL1 s') CCI) = line (Z.of_nat n) /\
  rxBuffer s' = rxBuffer s /\ SR s' = SR s.
Proof.
  intros Hrun Ha Hc Hq. cbv zeta.
  set (line' := fun i => if i <=? Z.of_nat n then line i
                         else (i =? Z.of_nat n + 1)).
  assert (Hag : forall i, i <= Z.of_nat n -> line' i = line i).
  { intros i Hi. unfold line'.
    destruct (Z.leb_spec i (Z.of_nat n)); [reflexivity | lia]. }
  rewrite (rxd_ticks_ext line line') by (intros; symmetry; apply Hag; lia).
  assert (H0 : ext_inv line' (TAR s) (Z.of_nat n + 2) (rxBuffer s) (SR s) 0 s).
  { apply ext_inv_start; auto; [lia|]. rewrite Hag by lia. exact Hc. }
  assert (H : ext_inv line' (TAR s) (Z.of_nat n + 2) (rxBuffer s) (SR s)
                (Z.of_nat n) (run (rxd_ticks line' n) s)).
  { apply ext_inv_run; auto.
    - intros i Hi. destruct (Z_le_gt_dec i (Z.of_nat n)).
      + rewrite !Hag by lia. apply Hq. lia.
      + assert (i = Z.of_nat n + 1) by lia. subst i. unfold line' at 2.
        destruct (Z.leb_spec (Z.of_nat n + 1) (Z.of_nat n)); [lia|].
        rewrite Z.eqb_refl. apply andb_false_r.
    - unfold line'.
      destruct (Z.leb_spec (Z.of_nat n + 2 - 1) (Z.of_nat n)); [lia|].
      apply Z.eqb_eq. lia.
    - unfold line'.
      destruct (Z.leb_spec (Z.of_nat n + 2) (Z.of_nat n)); [lia|].
      apply Z.eqb_neq. lia.
    - unfold sample_tick. tbit. lia. }
  destruct H as (_ & _ & Hie & Hm1 & Hm0 & Hi & Hph).
  destruct (Z.ltb_spec (Z.of_nat n) (Z.of_nat n + 2)); [|lia].
  destruct Hph as (Hcap & Hcnt & Hd & Hx & Hsr).
  rewrite Hag in Hi by lia.
  unfold rx_armed, rx_ready, capturing, rx_irq_enabled.
  rewrite tst_CAP, tst_CCIE, tst_CM1, tst_CM0, tst_CCI.
  repeat split; auto; lia.
Qed.

Lemma rxd_ticks_const l n : rxd_ticks (fun _ => l) n = repeat (Level l) n.
Proof.
  unfold rxd_ticks. generalize 1%nat.
  induction n as [|n IH]; intros k; [reflexivity|].
  cbn [seq map repeat]. rewrite IH. reflexivity.
Qed.

(** X11: [TimerA_UART_init], called with the handlers' counters at their
    initial values, leaves the transmitter free and TXD at mark for as
    long as nothing is sent, whatever RXD does; with RXD at mark, or tied
    to TXD, the receiver waits for a start edge, the mailbox untouched. *)
Theorem init_leaves_uart_idle (s : machine) (env : list rx_source) (n : nat) :
  0 <= TAR s < 2 ^ 16 -> txBitCnt s = 10 -> rxBitCnt s = 8 ->
  0 <= rxData s < 2 ^ 8 ->
  let s0 := TimerA_UART_init s in
  (tx_idle (run env s0) /\ TXD (run env s0) = true /\
   forall b env', TimerA_UART_tx b env' (run env s0) =
                  Some (TimerA_UART_tx_load b (run env s0), env')) /\
  (forall src, src = Loopback \/ src = Level true ->
     let s1 := run (repeat src (S n)) s0 in
     rx_idle s1 /\ rxBuffer s1 = rxBuffer s /\ SR s1 = SR s).
Proof.
  intros Hr Hn Hc Hd. cbv zeta.
  pose proof (tx_rest_init s Hr Hn) as H0.
  split.
  - destruct (tx_rest_run env _ H0) as [H1 _].
    pose proof (tx_rest_idle _ H1) as Hi.
    split; [exact Hi|]. split; [apply Hi|].
    intros b env'. apply TimerA_UART_tx_idle. apply Hi.
  - intros src Hsrc.
    assert (E : run (repeat src (S n)) (TimerA_UART_init s) =
                run (rxd_ticks (fun i => 0 <? i) (S n)) (TimerA_UART_init s)).
    { rewrite (rxd_ticks_ext _ (fun _ => true)), rxd_ticks_const.
      - destruct Hsrc as [-> | ->]; [apply run_loopback_rest; exact H0 | reflexivity].
      - intros i Hi. destruct (Z.ltb_spec 0 i); [reflexivity | lia]. }
    rewrite E.
    destruct (rx_quiet_run (fun i => 0 <? i) (TimerA_UART_init s) (S n))
      as (Ha & Hcci & Hx & Hsr).
    + destruct H0 as [H0 _]. exact H0.
    + unfold rx_armed, rx_ready, capturing, rx_irq_enabled,
        TimerA_UART_init, write_TACCTL0. mproj. repeat split; auto; lia.
    + reflexivity.
    + intros i Hi. destruct (Z.ltb_spec 0 i); [|lia]. apply andb_false_r.
    + cbv zeta in *. split; [|split; [exact Hx | exact Hsr]].
      apply rx_idle_armed. split; [exact Ha|].
      rewrite Hcci. apply Z.ltb_lt. lia.
Qed.

Lemma init_leaves_uart_idle_witness :
  let s := reset_state 65535 in
  (0 <= TAR s < 2 ^ 16 /\ txBitCnt s = 10 /\ rxBitCnt s = 8 /\
   0 <= rxData s < 2 ^ 8) /\
  tx_idle (run (repeat Loopback 1000) (TimerA_UART_init s)) /\
  rx_idle (run (repeat Loopback 1000) (TimerA_UART_init s)).
Proof.
  cbv zeta.
  assert (H1 : 0 <= TAR (reset_state 65535) < 2 ^ 16)
    by (split; [discriminate | reflexivity]).
  assert (H2 : 0 <= rxData (reset_state 65535) < 2 ^ 8)
    by (split; [discriminate | reflexivity]).
  split; [exact (conj H1 (conj eq_refl (conj eq_refl H2)))|].
  destruct (init_leaves_uart_idle (reset_state 65535) (repeat Loopback 1000) 999
              H1 eq_refl eq_refl H2) as ((Ht & _) & Hr).
  split; [exact Ht|].
  apply (Hr Loopback (or_introl eq_refl)).
Defined.

Lemma char_code_range c : 0 <= char_code c < 2 ^ 8.
Proof.
  unfold char_code. pose proof (Ascii.N_ascii_bounded c).
  change (2 ^ 8) with 256. lia.
Qed.

(** X12: [TimerA_UART_print] sends nothing for an empty text, stops at the
    first NUL, and on a text without NUL followed by another does what
    printing the first and then the second does. *)
Theorem print_append (s1 s2 : String.string) (env : list rx_source)
  (s : machine) :
  TimerA_UART_print String.EmptyString env s = Some (s, env) /\
  TimerA_UART_print (String.append s1 (String.String Ascii.zero s2)) env s =
  TimerA_UART_print s1 env s /\
  (no_nul s1 = true ->
   TimerA_UART_print (String.append s1 s2) env s =
   match TimerA_UART_print s1 env s with
   | None => None
   | Some (s', env') => TimerA_UART_print s2 env' s'
   end).
Proof.
  split; [reflexivity|]. revert env s.
  induction s1 as [|c r IH]; intros env s.
  - split; reflexivity.
  - cbn [String.append TimerA_UART_print no_nul].
    destruct (nonzero (char_code c)).
    + destruct (TimerA_UART_tx (char_code c) env s) as [[s' env']|].
      * destruct (IH env' s') as [H1 H2]. split; [exact H1 | exact H2].
      * split; [reflexivity | intros _; reflexivity].
    + split; [reflexivity | intros H; discriminate H].
Qed.

Lemma print_append_witness :
  let env := repeat Loopback 4000 in
  no_nul "READY."%string = true /\
  TimerA_UART_print
    (String.append "READY."%string
       (String.String Ascii.zero "NOT SENT"%string)) env (init_state 0) =
  TimerA_UART_print "READY."%string env (init_state 0).
Proof.
  cbv zeta. split; [reflexivity|].
  destruct (print_append "READY."%string "NOT SENT"%string
              (repeat Loopback 4000) (init_state 0)) as (_ & H & _).
  exact H.
Defined.

Lemma skipn_skipn' {A : Type} (a b : nat) (l : list A) :
  skipn b (skipn a l) = skipn (a + b) l.
Proof.
  revert l. induction a as [|a IH]; intros l; [reflexivity|].
  destruct l as [|x l]; [destruct b; reflexivity|]. cbn [skipn Nat.add]. apply IH.
Qed.

Lemma tx_wait_done b1 b2 t n env s :
  0 <= b1 < 2 ^ 8 -> 0 <= b2 < 2 ^ 8 -> 0 <= n <= 11 * UART_TBIT ->
  tx_inv b1 t n s ->
  let k := Z.to_nat (11 * UART_TBIT - n) in
  ((length env < k)%nat -> TimerA_UART_tx b2 env s = None) /\
  ((k <= length env)%nat ->
   exists s', TimerA_UART_tx b2 env s = Some (s', skipn k env) /\
     tx_inv b2 (TAR s') 0 s' /\ TAR s' = u16 (t + 11 * UART_TBIT)).
Proof.
  intros Hb1 Hb2 Hn H. cbv zeta.
  rewrite (TimerA_UART_tx_wait b1 b2 t env n s Hb1 Hn H). cbv zeta.
  set (k := Z.to_nat (11 * UART_TBIT - n)).
  split; intros Hl.
  - destruct (Nat.ltb_spec (length env) k); [reflexivity | lia].
  - destruct (Nat.ltb_spec (length env) k); [lia|].
    eexists. split; [reflexivity|].
    pose proof (tx_inv_run b1 t (firstn k env) n s ltac:(lia) Hb1 H) as H1.
    rewrite length_firstn, Nat.min_l in H1 by exact Hl.
    replace (n + Z.of_nat k) with (11 * UART_TBIT) in H1 by lia.
    pose proof (tx_inv_idle b1 t _ _ (Z.le_refl _) H1) as Hi.
    pose proof (tx_inv_load b2 _ Hb2 Hi) as H2.
    assert (ET : TAR (TimerA_UART_tx_load b2 (run (firstn k env) s)) =
                 TAR (run (firstn k env) s)) by reflexivity.
    rewrite ET. split; [exact H2|]. apply H1.
Qed.

Lemma print_wait str : forall c b t n s env,
  0 <= b < 2 ^ 8 -> tx_inv b t n s -> 0 <= n <= 11 * UART_TBIT ->
  no_nul str = true -> nonzero (char_code c) = true ->
  let k := (Z.to_nat (11 * UART_TBIT - n)
            + Z.to_nat (11 * UART_TBIT) * String.length str)%nat in
  let text := String.append str (String.String c String.EmptyString) in
  ((length env < k)%nat -> TimerA_UART_print text env s = None) /\
  ((k <= length env)%nat ->
   exists s', TimerA_UART_print text env s = Some (s', skipn k env) /\
     tx_inv (char_code c) (TAR s') 0 s' /\
     TAR s' = u16 (t + n + Z.of_nat k)).
Proof.
  induction str as [|a r IH]; intros c b t n s env Hb H Hn Hnn Hc; cbv zeta.
  - cbn [String.append String.length TimerA_UART_print]. rewrite Hc.
    rewrite Nat.mul_0_r, Nat.add_0_r.
    destruct (tx_wait_done b (char_code c) t n env s Hb (char_code_range c) Hn H)
      as [W1 W2].
    split; intros Hl.
    + rewrite (W1 Hl). reflexivity.
    + destruct (W2 Hl) as (s' & E & Hi & HT). exists s'. rewrite E.
      split; [reflexivity|]. split; [exact Hi|]. rewrite HT. f_equal. lia.
  - cbn [no_nul] in Hnn. apply andb_true_iff in Hnn. destruct Hnn as [Ha Hr].
    cbn [String.append String.length TimerA_UART_print]. rewrite Ha.
    destruct (tx_wait_done b (char_code a) t n env s Hb (char_code_range a) Hn H)
      as [W1 W2].
    set (k0 := Z.to_nat (11 * UART_TBIT - n)) in *.
    destruct (Nat.lt_ge_cases (length env) k0) as [Hlt|Hge].
    + split; intros Hl; [|lia]. rewrite (W1 Hlt). reflexivity.
    + destruct (W2 Hge) as (s1 & E & Hi & HT). rewrite E.
      destruct (IH c (char_code a) (TAR s1) 0 s1 (skipn k0 env)
                  (char_code_range a) Hi ltac:(tbit; lia) Hr Hc) as [I1 I2].
      cbv zeta in I1, I2. rewrite length_skipn in I1, I2.
      rewrite Z.sub_0_r in I1, I2.
      split; intros Hl.
      * apply I1. lia.
      * destruct I2 as (s' & E' & Hi' & HT'); [lia|].
        exists s'. rewrite E', skipn_skipn'.
        split; [f_equal; f_equal; f_equal; lia|].
        split; [exact Hi'|]. rewrite HT', HT, Z.add_0_r, u16_add_l.
        f_equal. lia.
Qed.

Lemma print_idle str c env s :
  tx_idle s -> no_nul str = true -> nonzero (char_code c) = true ->
  let k := (Z.to_nat (11 * UART_TBIT) * String.length str)%nat in
  let text := String.append str (String.String c String.EmptyString) in
  ((length env < k)%nat -> TimerA_UART_print text env s = None) /\
  ((k <= length env)%nat ->
   exists s', TimerA_UART_print text env s = Some (s', skipn k env) /\
     tx_inv (char_code c) (TAR s') 0 s' /\
     TAR s' = u16 (TAR s + Z.of_nat k)).
Proof.
  intros Hidle Hnn Hc. cbv zeta.
  destruct str as [|a r].
  - cbn [String.append String.length TimerA_UART_print]. rewrite Hc.
    rewrite Nat.mul_0_r.
    rewrite TimerA_UART_tx_idle by apply Hidle.
    split; intros Hl; [lia|].
    eexists. split; [reflexivity|].
    change (TAR (TimerA_UART_tx_load (char_code c) s)) with (TAR s).
    split.
    + apply tx_inv_load; [apply char_code_range | exact Hidle].
    + rewrite Z.add_0_r. symmetry. apply u16_small. apply Hidle.
  - cbn [no_nul] in Hnn. apply andb_true_iff in Hnn. destruct Hnn as [Ha Hr].
    cbn [String.append String.length TimerA_UART_print]. rewrite Ha.
    rewrite TimerA_UART_tx_idle by apply Hidle.
    pose proof (tx_inv_load (char_code a) s (char_code_range a) Hidle) as Hi.
    destruct (print_wait r c (char_code a) (TAR s) 0
                (TimerA_UART_tx_load (char_code a) s) env
                (char_code_range a) Hi ltac:(tbit; lia) Hr Hc) as [I1 I2].
    cbv zeta in I1, I2. rewrite Z.sub_0_r in I1, I2.
    replace (Z.to_nat (11 * UART_TBIT) * S (String.length r))%nat
      with (Z.to_nat (11 * UART_TBIT)
            + Z.to_nat (11 * UART_TBIT) * String.length r)%nat by lia.
    split; [exact I1|].
    intros Hl. destruct (I2 Hl) as (s' & E & Hi' & HT).
    exists s'. split; [exact E|]. split; [exact Hi'|].
    rewrite HT. f_equal. lia.
Qed.

(** X13: the pace of [TimerA_UART_print].  Called with the transmitter
    free on a text without NUL, it loads the first character at once and
    each next one 11 bit periods after the one before: the call returns,
    the last character [c] just loaded, after 11 bit periods per
    character before [c], and does not return on fewer ticks; from then
    on TXD carries the frame of [c]. *)
Theorem print_paces (str : String.string) (c : Ascii.ascii)
  (env : list rx_source) (s : machine) :
  tx_idle s -> no_nul str = true -> nonzero (char_code c) = true ->
  let k := (Z.to_nat (11 * UART_TBIT) * String.length str)%nat in
  let text := String.append str (String.String c String.EmptyString) in
  ((length env < k)%nat -> TimerA_UART_print text env s = None) /\
  ((k <= length env)%nat ->
   exists s', TimerA_UART_print text env s = Some (s', skipn k env) /\
     TAR s' = u16 (TAR s + Z.of_nat k) /\
     forall ticks,
       TXD (run ticks s') = wave (char_code c) (Z.of_nat (length ticks))).
Proof.
  intros Hidle Hnn Hc. cbv zeta.
  destruct (print_idle str c env s Hidle Hnn Hc) as [I1 I2].
  split; [exact I1|].
  intros Hl. destruct (I2 Hl) as (s' & E & Hi' & HT).
  exists s'. split; [exact E|]. split; [exact HT|].
  intros ticks. apply (tx_inv_TXD _ (TAR s')).
  apply (tx_inv_run _ _ ticks 0 s'); [lia | apply char_code_range | exact Hi'].
Qed.

Lemma tx_idle_init t : 0 <= t < 2 ^ 16 -> tx_idle (init_state t).
Proof. intros H. repeat split; try reflexivity; apply H. Defined.

Lemma print_paces_witness :
  let str := String.append "READY."%string
               (String.String "013"%char String.EmptyString) in
  let env := repeat Loopback 4004 ++ repeat Loopback 4004 in
  (tx_idle (init_state 0) /\ no_nul str = true /\
   nonzero (char_code "010"%char) = true) /\
  TimerA_UART_print
    (String.append str (String.String "010"%char String.EmptyString))
    (repeat Loopback 4004) (init_state 0) = None /\
  exists s',
    TimerA_UART_print
      (String.append str (String.String "010"%char String.EmptyString))
      env (init_state 0) = Some (s', []) /\
    TAR s' = 8008.
Proof.
  cbv zeta.
  assert (Hi : tx_idle (init_state 0))
    by (apply tx_idle_init; split; [discriminate | reflexivity]).
  split; [exact (conj Hi (conj eq_refl eq_refl))|].
  split.
  - destruct (print_paces
                (String.append "READY."%string
                   (String.String "013"%char String.EmptyString))
                "010"%char
                (repeat Loopback 4004)
                (init_state 0) Hi eq_refl eq_refl) as [H _].
    apply H. rewrite repeat_length. apply Nat.ltb_lt. vm_compute. reflexivity.
  - destruct (print_paces
                (String.append "READY."%string
                   (String.String "013"%char String.EmptyString))
                "010"%char (repeat Loopback 4004 ++ repeat Loopback 4004)
                (init_state 0) Hi eq_refl eq_refl) as [_ H].
    destruct H as (s' & E & HT & _);
      [rewrite length_app, !repeat_length; apply Nat.leb_le; vm_compute;
       reflexivity|].
    exists s'. split; [exact E | exact HT].
Defined.


(** ** The program *)

Lemma main_wait_awake env s :
  main_awake s = true -> main_wait env s = Some (s, env).
Proof. intros H. destruct env; cbn [main_wait]; rewrite H; reflexivity. Qed.

Lemma main_wait_run (k : nat) : forall env s,
  (k <= length env)%nat ->
  (forall j, (j < k)%nat -> main_awake (run (firstn j env) s) = false) ->
  main_awake (run (firstn k env) s) = true ->
  main_wait env s = Some (run (firstn k env) s, skipn k env).
Proof.
  induction k as [|k IH]; intros env s Hl Hs Hw.
  - apply main_wait_awake. exact Hw.
  - destruct env as [|src env]; [cbn [length] in Hl; lia|].
    assert (H0 : main_awake s = false) by (apply (Hs 0%nat); lia).
    cbn [main_wait firstn skipn run]. rewrite H0.
    apply IH.
    + cbn [length] in Hl. lia.
    + intros j Hj. apply (Hs (S j)). lia.
    + exact Hw.
Qed.

Lemma main_wait_none env : forall s,
  (forall j, (j <= length env)%nat -> main_awake (run (firstn j env) s) = false) ->
  main_wait env s = None.
Proof.
  induction env as [|src env IH]; intros s Hs.
  - assert (H0 : main_awake s = false) by (apply (Hs 0%nat); cbn; lia).
    cbn [main_wait]. rewrite H0. reflexivity.
  - assert (H0 : main_awake s = false) by (apply (Hs 0%nat); cbn; lia).
    cbn [main_wait]. rewrite H0.
    apply IH. intros j Hj. apply (Hs (S j)). cbn [length]. lia.
Qed.

Lemma rxd_ticks_length line n : length (rxd_ticks line n) = n.
Proof. unfold rxd_ticks. rewrite length_map, length_seq. reflexivity. Qed.

Lemma rxd_ticks_firstn line (k n : nat) :
  (k <= n)%nat -> firstn k (rxd_ticks line n) = rxd_ticks line k.
Proof.
  intros H. unfold rxd_ticks. rewrite firstn_map. f_equal.
  replace n with (k + (n - k))%nat by lia.
  rewrite seq_app, firstn_app, length_seq, Nat.sub_diag, firstn_O, app_nil_r.
  apply firstn_all2. rewrite length_seq. lia.
Qed.

Lemma map_seq_shift {A : Type} (f : nat -> A) (k m : nat) : forall a,
  map f (seq (a + k) m) = map (fun i => f (i + k)%nat) (seq a m).
Proof.
  induction m as [|m IH]; intros a; [reflexivity|].
  cbn [seq map]. f_equal. apply (IH (S a)).
Qed.

Lemma rxd_ticks_skipn line (k n : nat) :
  skipn k (rxd_ticks line n) =
  rxd_ticks (fun i => line (i + Z.of_nat k)) (n - k).
Proof.
  unfold rxd_ticks. rewrite skipn_map, skipn_seq.
  replace (k + 1)%nat with (1 + k)%nat by lia.
  rewrite (map_seq_shift _ k (n - k) 1).
  apply map_ext. intros i. rewrite Nat2Z.inj_add. reflexivity.
Qed.

Lemma tx_call b1 b2 t n env s :
  0 <= b1 < 2 ^ 8 -> 0 <= b2 < 2 ^ 8 -> 0 <= n -> tx_inv b1 t n s ->
  let k := Z.to_nat (11 * UART_TBIT - n) in
  ((length env < k)%nat -> TimerA_UART_tx b2 env s = None) /\
  ((k <= length env)%nat ->
   exists s', TimerA_UART_tx b2 env s = Some (s', skipn k env) /\
     tx_inv b2 (TAR s') 0 s').
Proof.
  intros Hb1 Hb2 Hn H. cbv zeta.
  destruct (Z_le_gt_dec n (11 * UART_TBIT)) as [Hle|Hgt].
  - destruct (tx_wait_done b1 b2 t n env s Hb1 Hb2 (conj Hn Hle) H) as [W1 W2].
    split; [exact W1|]. intros Hl.
    destruct (W2 Hl) as (s' & E & Hi & _). exists s'. split; assumption.
  - replace (Z.to_nat (11 * UART_TBIT - n)) with 0%nat by lia.
    split; intros Hl; [lia|].
    pose proof (tx_inv_idle b1 t n s ltac:(lia) H) as Hi.
    rewrite TimerA_UART_tx_idle by apply Hi.
    eexists. split; [reflexivity|].
    change (TAR (TimerA_UART_tx_load b2 s)) with (TAR s).
    apply tx_inv_load; assumption.
Qed.

Lemma tx_inv_ext b t n s s' :
  TAR s' = TAR s -> TACTL s' = TACTL s -> tx_view s' = tx_view s ->
  tx_inv b t n s -> tx_inv b t n s'.
Proof.
  intros H1 H2 H3. unfold tx_inv. rewrite H1, H2, H3. exact (fun H => H).
Qed.

Lemma rx_armed_sleep s : rx_armed s -> rx_armed (main_sleep s).
Proof. exact (fun H => H). Qed.

Lemma main_sleep_asleep s : main_awake (main_sleep s) = false.
Proof.
  unfold main_awake, main_sleep. mproj. rewrite tst_LPM0.
  rewrite (testbit_set _ LPM0_bits 4) by (try reflexivity; lia).
  reflexivity.
Qed.

Lemma asleep_SR s s' : SR s' = SR s -> main_awake s' = main_awake s.
Proof. intros H. unfold main_awake. rewrite H. reflexivity. Qed.

(** X14: one pass of the loop of [main].  The receiver armed, a start edge
    in tick [e], [setRows] taking no longer than 8 bit periods and a
    half: the pass sleeps until the byte is delivered, calls [setRows]
    with row 0 and that byte, which leaves Port 1's output register with
    the row bits at 0 and the CLOCK and LATCH bits at 0, waits for a
    frame still in flight and loads the same byte for sending; TXD then
    carries its frame.  The pass takes the ticks to the delivery, those
    of [setRows] and the wait, and does not end on fewer.  Of Port 1 only
    the register is spoken of: bits 1 and 2 are not pin levels in [main],
    which gives those pins to the timer. *)
Theorem main_echo (line : Z -> bool) (e : Z) (busy N : nat) (b0 t0 n0 : Z)
  (s : machine) (p : port) :
  0 <= b0 < 2 ^ 8 -> 0 <= n0 -> tx_inv b0 t0 n0 s ->
  rx_armed s -> nonzero (Z.land (TACCTL1 s) CCI) = line 0 ->
  1 <= e ->
  (forall i, 0 < i < e -> line (i - 1) && negb (line i) = false) ->
  line (e - 1) = true -> line e = false ->
  clocks_low (P1OUT p) ->
  Z.of_nat busy <= 8 * UART_TBIT + UART_TBIT_DIV_2 ->
  let byte := rx_byte line e in
  let wake := Z.to_nat (e + 8 * UART_TBIT + UART_TBIT_DIV_2) in
  let k := (wake + busy
            + Z.to_nat (11 * UART_TBIT - (n0 + Z.of_nat (wake + busy))))%nat in
  ((N < k)%nat -> main_loop busy (rxd_ticks line N) s p = None) /\
  ((k <= N)%nat ->
   exists s',
     main_loop busy (rxd_ticks line N) s p =
     Some (s', setRows 0 byte p, skipn k (rxd_ticks line N)) /\
     (forall ticks,
        TXD (run ticks s') = wave byte (Z.of_nat (length ticks))) /\
     row_of (P1OUT (setRows 0 byte p)) = 0 /\
     Z.land (P1OUT (setRows 0 byte p)) 0x88 = Z.land (P1OUT p) 0x88 /\
     clocks_low (P1OUT (setRows 0 byte p))).
Proof.
  intros Hb0 Hn0 Htx Harm Hcci He Hq Hm Hf Hlow Hbusy. cbv zeta.
  assert (Hs7 : sample_tick e 7 = e + 8 * UART_TBIT + UART_TBIT_DIV_2)
    by (unfold sample_tick; tbit; lia).
  rewrite <- Hs7.
  set (wake := Z.to_nat (sample_tick e 7)).
  assert (Hwake : Z.of_nat wake = e + 884) by (unfold wake; rewrite Hs7; tbit; lia).
  set (s1 := main_sleep s).
  assert (Hrun : timer_running s).
  { destruct Htx as (H1 & H2 & _). split; [exact H1|]. rewrite H2. apply u16_range. }
  destruct (ext_frame line e s1 Hrun Harm Hcci He Hq Hm Hf) as (Hpre & Hpost).
  cbv zeta in Hpost. fold wake in Hpost.
  destruct Hpost as (Hx & Hw & Hrun2 & Harm2 & Hcci2).
  set (s2 := run (rxd_ticks line wake) s1) in *.
  assert (Hbyte : 0 <= rx_byte line e < 2 ^ 8) by apply rx_byte_range.
  (* the display *)
  destruct (setRows_port 0 (rx_byte line e) p [] Hlow)
    as (_ & _ & _ & Hrow & Hlow').
  cbv zeta in Hrow, Hlow'.
  change (new_row 0 (P1OUT p)) with 0 in Hrow.
  assert (Hkeep : Z.land (P1OUT (setRows 0 (rx_byte line e) p)) 0x88 =
                  Z.land (P1OUT p) 0x88).
  { rewrite (tracks_P1OUT (setRows 0 (rx_byte line e)) p)
      by apply tracks_setRows.
    apply (setRows_spec 0 (rx_byte line e) (P1OUT p) Hlow). }
  unfold main_loop. fold s1.
  destruct (Nat.lt_ge_cases N wake) as [HN1|HN1].
  { (* the line ends before the byte is in *)
    split; intros Hl; [|lia].
    rewrite main_wait_none; [reflexivity|].
    intros j Hj. rewrite rxd_ticks_length in Hj.
    rewrite rxd_ticks_firstn by exact Hj.
    rewrite (asleep_SR s1) by (apply Hpre; lia).
    apply main_sleep_asleep. }
  rewrite (main_wait_run wake).
  2:{ rewrite rxd_ticks_length. exact HN1. }
  2:{ intros j Hj. rewrite rxd_ticks_firstn by lia.
      rewrite (asleep_SR s1) by (apply Hpre; lia).
      apply main_sleep_asleep. }
  2:{ rewrite rxd_ticks_firstn by exact HN1. exact Hw. }
  rewrite rxd_ticks_firstn by exact HN1. fold s2.
  unfold main_read. rewrite Hx.
  rewrite rxd_ticks_skipn.
  set (line2 := fun i => line (i + Z.of_nat wake)).
  rewrite rxd_ticks_length.
  destruct (Nat.ltb_spec (N - wake) busy) as [HN2|HN2].
  { split; intros Hl; [reflexivity | lia]. }
  rewrite rxd_ticks_firstn by exact HN2.
  destruct (mailbox_hold line2 s2 busy Hrun2 Harm2) as [Hx3 _].
  { unfold line2. rewrite Z.add_0_l, Hcci2. f_equal.
    rewrite Hwake, Hs7. tbit. lia. }
  { exact Hbusy. }
  set (s3 := run (rxd_ticks line2 busy) s2) in *.
  rewrite Hx3, Hx.
  assert (Htx3 : tx_inv b0 t0 (n0 + Z.of_nat (wake + busy)) s3).
  { assert (Htx1 : tx_inv b0 t0 n0 s1)
      by (apply (tx_inv_ext b0 t0 n0 s); auto).
    pose proof (tx_inv_run b0 t0 (rxd_ticks line wake) n0 s1 Hn0 Hb0 Htx1) as H2.
    rewrite rxd_ticks_length in H2. fold s2 in H2.
    pose proof (tx_inv_run b0 t0 (rxd_ticks line2 busy) (n0 + Z.of_nat wake) s2
                  ltac:(lia) Hb0 H2)
      as H3.
    rewrite rxd_ticks_length in H3. fold s3 in H3.
    rewrite Nat2Z.inj_add, Z.add_assoc. exact H3. }
  rewrite rxd_ticks_skipn.
  set (line3 := fun i => line2 (i + Z.of_nat busy)).
  set (k3 := Z.to_nat (11 * UART_TBIT - (n0 + Z.of_nat (wake + busy)))).
  destruct (tx_call b0 (rx_byte line e) t0 (n0 + Z.of_nat (wake + busy))
              (rxd_ticks line3 (N - wake - busy))
              s3 Hb0 Hbyte ltac:(lia) Htx3) as [C1 C2].
  cbv zeta in C1, C2. fold k3 in C1, C2. rewrite rxd_ticks_length in C1, C2.
  split; intros Hl.
  - rewrite C1 by lia. reflexivity.
  - destruct C2 as (s' & E & Hi); [lia|].
    exists s'. rewrite E.
    split; [|split; [|split; [exact Hrow | split; [exact Hkeep | exact Hlow']]]].
    + f_equal. f_equal. unfold line3.
      rewrite <- (rxd_ticks_skipn line2 busy (N - wake)).
      unfold line2. rewrite <- (rxd_ticks_skipn line wake N).
      rewrite !skipn_skipn'. f_equal. lia.
    + intros ticks. apply (tx_inv_TXD _ (TAR s')).
      apply (tx_inv_run _ _ ticks 0 s'); [lia | exact Hbyte | exact Hi].
Qed.

Lemma tx_result b env : forall s s' env',
  TimerA_UART_tx b env s = Some (s', env') ->
  exists k, (k <= length env)%nat /\ env' = skipn k env /\
    s' = TimerA_UART_tx_load b (run (firstn k env) s).
Proof.
  induction env as [|src env IH]; intros s s' env' H; cbn [TimerA_UART_tx] in H.
  - destruct (nonzero (Z.land (TACCTL0 s) CCIE)); [discriminate H|].
    injection H as <- <-. exists 0%nat. repeat split. reflexivity.
  - destruct (nonzero (Z.land (TACCTL0 s) CCIE)).
    + destruct (IH _ _ _ H) as (k & Hk & -> & ->).
      exists (S k). cbn [length firstn skipn run]. repeat split. lia.
    + injection H as <- <-. exists 0%nat. cbn [length]. repeat split. lia.
Qed.

Lemma firstn_add {A : Type} (a b : nat) : forall l : list A,
  firstn (a + b) l = firstn a l ++ firstn b (skipn a l).
Proof.
  induction a as [|a IH]; intros l; [reflexivity|].
  destruct l as [|x l]; [destruct b; reflexivity|].
  cbn [Nat.add firstn skipn app]. f_equal. apply IH.
Qed.

Lemma print_result str : forall ls s s' env',
  TimerA_UART_print str (map Level ls) s = Some (s', env') ->
  exists k, (k <= length ls)%nat /\ env' = map Level (skipn k ls) /\
    TAR s' = TAR (run (map Level (firstn k ls)) s) /\
    TACTL s' = TACTL (run (map Level (firstn k ls)) s) /\
    rx_view s' = rx_view (run (map Level (firstn k ls)) s).
Proof.
  induction str as [|c r IH]; intros ls s s' env' H; cbn [TimerA_UART_print] in H.
  - injection H as <- <-. exists 0%nat. repeat split. lia.
  - destruct (nonzero (char_code c)).
    + destruct (TimerA_UART_tx (char_code c) (map Level ls) s)
        as [[s1 env1]|] eqn:E; [|discriminate H].
      destruct (tx_result _ _ _ _ _ E) as (k1 & Hk1 & -> & ->).
      rewrite length_map in Hk1. rewrite skipn_map in H.
      destruct (IH _ _ _ _ H) as (k2 & Hk2 & -> & H1 & H2 & H3).
      rewrite length_skipn in Hk2.
      exists (k1 + k2)%nat.
      rewrite firstn_map in H1, H2, H3.
      set (x := run (map Level (firstn k1 ls)) s) in *.
      destruct (run_rx_local (firstn k2 (skipn k1 ls))
                  (TimerA_UART_tx_load (char_code c) x) x
                  eq_refl eq_refl eq_refl) as (R1 & R2 & R3).
      rewrite firstn_add, map_app, run_app. fold x.
      rewrite skipn_skipn'.
      split; [lia|]. split; [reflexivity|].
      split; [rewrite H1; exact R1|]. split; [rewrite H2; exact R2|].
      rewrite H3. exact R3.
    + injection H as <- <-. exists 0%nat. repeat split. lia.
Qed.

(** X15: printing does not disturb reception.  When [TimerA_UART_print]
    returns, on an outside line, the receiver, the mailbox and the wake
    flag are as the ticks gone by alone would have left them. *)
Theorem print_keeps_receiving (str : String.string) (ls : list bool)
  (s s' : machine) (env' : list rx_source) :
  TimerA_UART_print str (map Level ls) s = Some (s', env') ->
  exists k, (k <= length ls)%nat /\ env' = map Level (skipn k ls) /\
    rx_view s' = rx_view (run (map Level (firstn k ls)) s) /\
    rxBuffer s' = rxBuffer (run (map Level (firstn k ls)) s) /\
    main_awake s' = main_awake (run (map Level (firstn k ls)) s).
Proof.
  intros H. destruct (print_result str ls s s' env' H)
    as (k & Hk & He & _ & _ & Hv).
  exists k. split; [exact Hk|]. split; [exact He|]. split; [exact Hv|].
  apply (rx_view_fields s') in Hv.
  destruct Hv as (_ & _ & _ & _ & E5 & E6).
  unfold main_awake. rewrite E5, E6. split; reflexivity.
Qed.

Lemma rxd_ticks_levels line n :
  rxd_ticks line n = map Level (map (fun i => line (Z.of_nat i)) (seq 1 n)).
Proof. unfold rxd_ticks. rewrite map_map. reflexivity. Qed.

Lemma print_rx_ticks str line (N k : nat) s s' :
  (k <= N)%nat ->
  TimerA_UART_print str (rxd_ticks line N) s =
  Some (s', skipn k (rxd_ticks line N)) ->
  TAR s' = TAR (run (rxd_ticks line k) s) /\
  TACTL s' = TACTL (run (rxd_ticks line k) s) /\
  rx_view s' = rx_view (run (rxd_ticks line k) s).
Proof.
  intros Hk H. rewrite rxd_ticks_levels in H.
  destruct (print_result _ _ _ _ _ H) as (k' & Hk' & He & H1 & H2 & H3).
  rewrite length_map, length_seq in Hk'.
  assert (k' = k).
  { apply (f_equal (@length _)) in He.
    rewrite length_skipn, !length_map, length_skipn, length_map, length_seq in He.
    lia. }
  subst k'.
  rewrite <- firstn_map, <- rxd_ticks_levels, rxd_ticks_firstn in H1, H2, H3
    by exact Hk.
  repeat split; assumption.
Qed.

Lemma banner_name_text :
  banner_name =
  String.append
    (String.append "G2xx1 TimerA UART"%string
       (String.String "013"%char String.EmptyString))
    (String.String "010"%char String.EmptyString).
Proof. reflexivity. Qed.

Lemma banner_ready_text :
  banner_ready =
  String.append
    (String.append "READY."%string
       (String.String "013"%char String.EmptyString))
    (String.String "010"%char String.EmptyString).
Proof. reflexivity. Qed.

Lemma rx_armed_view s s' :
  rx_view s' = rx_view s -> rx_armed s ->
  rx_armed s' /\
  nonzero (Z.land (TACCTL1 s') CCI) = nonzero (Z.land (TACCTL1 s) CCI) /\
  rxBuffer s' = rxBuffer s /\ SR s' = SR s.
Proof.
  intros H Ha. apply (rx_view_fields s') in H.
  destruct H as (_ & E2 & E3 & E4 & E5 & E6).
  unfold rx_armed, rx_ready, capturing, rx_irq_enabled in *.
  rewrite E2, E3, E4. repeat split; auto; apply Ha.
Qed.

(** X16: [main] on its way to the loop.  From reset it clears Port 1's
    register, starts the UART and prints its two texts, 27 characters:
    it enters the loop 26 times 11 bit periods after the start, the last
    line feed just loaded, and not on fewer ticks.  With no falling edge
    on RXD meanwhile the receiver is armed and the mailbox untouched. *)
Theorem main_start_enters_loop (line : Z -> bool) (N : nat) (s : machine)
  (p : port) :
  0 <= TAR s < 2 ^ 16 -> txBitCnt s = 10 -> rxBitCnt s = 8 ->
  0 <= rxData s < 2 ^ 8 ->
  let k := (26 * Z.to_nat (11 * UART_TBIT))%nat in
  ((N < k)%nat -> main_start (rxd_ticks line N) s p = None) /\
  ((k <= N)%nat ->
   exists s',
     main_start (rxd_ticks line N) s p =
     Some (s', store_P1OUT 0 p, skipn k (rxd_ticks line N)) /\
     clocks_low (P1OUT (store_P1OUT 0 p)) /\
     TAR s' = u16 (TAR s + Z.of_nat k) /\
     tx_inv (char_code "010"%char) (TAR s') 0 s' /\
     ((forall i, 1 < i <= Z.of_nat k ->
         line (i - 1) && negb (line i) = false) ->
      rx_armed s' /\
      nonzero (Z.land (TACCTL1 s') CCI) = line (Z.of_nat k) /\
      rxBuffer s' = rxBuffer s /\ SR s' = SR s)).
Proof.
  intros Hr Hn Hc Hd. cbv zeta.
  set (T := Z.to_nat (11 * UART_TBIT)).
  assert (HT : T = 1144%nat) by reflexivity.
  pose proof (tx_rest_init s Hr Hn) as Hrest.
  pose proof (tx_rest_idle _ Hrest) as Hidle.
  set (s0 := TimerA_UART_init s) in *.
  unfold main_start. fold s0.
  rewrite banner_name_text, banner_ready_text.
  set (env := rxd_ticks line N).
  assert (Hlen : length env = N) by apply rxd_ticks_length.
  destruct (print_idle
              (String.append "G2xx1 TimerA UART"%string
                 (String.String "013"%char String.EmptyString))
              "010"%char env s0 Hidle eq_refl eq_refl) as [A1 A2].
  cbv zeta in A1, A2. fold T in A1, A2.
  change (String.length _) with 18%nat in A1, A2.
  rewrite Hlen in A1, A2.
  destruct (Nat.lt_ge_cases N (T * 18)) as [HN1|HN1].
  { split; intros Hl; [|lia]. rewrite (A1 HN1). reflexivity. }
  destruct (A2 HN1) as (s1 & E1 & Hi1 & HT1). rewrite E1.
  destruct (print_wait
              (String.append "READY."%string
                 (String.String "013"%char String.EmptyString))
              "010"%char (char_code "010"%char) (TAR s1) 0 s1
              (skipn (T * 18) env) (char_code_range _) Hi1
              ltac:(tbit; lia) eq_refl eq_refl) as [B1 B2].
  cbv zeta in B1, B2. rewrite Z.sub_0_r in B1, B2. fold T in B1, B2.
  change (String.length _) with 7%nat in B1, B2.
  rewrite length_skipn, Hlen in B1, B2.
  split; intros Hl.
  - rewrite B1 by lia. reflexivity.
  - destruct B2 as (s2 & E2 & Hi2 & HT2); [lia|].
    exists s2. rewrite E2, skipn_skipn'.
    replace (T * 18 + (T + T * 7))%nat with (26 * T)%nat by lia.
    split; [reflexivity|].
    split; [repeat split; (reflexivity || discriminate)|].
    assert (HTAR : TAR s2 = u16 (TAR s + Z.of_nat (26 * T))).
    { rewrite HT2, HT1, Z.add_0_r, u16_add_l. f_equal.
      change (TAR s0) with (TAR s). lia. }
    split; [exact HTAR|]. split; [exact Hi2|].
    intros Hq.
    (* the receiver *)
    destruct (print_rx_ticks _ line N (T * 18) s0 s1 HN1 E1) as (P1 & P2 & P3).
    assert (E2' : TimerA_UART_print
                    (String.append
                       (String.append "READY."%string
                          (String.String "013"%char String.EmptyString))
                       (String.String "010"%char String.EmptyString))
                    (rxd_ticks (fun i => line (i + Z.of_nat (T * 18)))
                       (N - T * 18)) s1 =
                  Some (s2, skipn (T + T * 7)
                              (rxd_ticks (fun i => line (i + Z.of_nat (T * 18)))
                                 (N - T * 18)))).
    { rewrite <- rxd_ticks_skipn. exact E2. }
    assert (HN2 : (T + T * 7 <= N - T * 18)%nat) by lia.
    destruct (print_rx_ticks _ _ _ (T + T * 7) s1 s2 HN2 E2')
      as (_ & _ & Q3).
    set (ls2 := map (fun i => line (Z.of_nat i + Z.of_nat (T * 18)))
                    (seq 1 (T + T * 7))).
    assert (Hls2 : rxd_ticks (fun i => line (i + Z.of_nat (T * 18))) (T + T * 7)
                   = map Level ls2).
    { unfold ls2. rewrite rxd_ticks_levels. reflexivity. }
    rewrite Hls2 in Q3.
    destruct (run_rx_local ls2 s1 (run (rxd_ticks line (T * 18)) s0) P1 P2 P3)
      as (_ & _ & R3).
    rewrite R3, <- Hls2 in Q3.
    rewrite <- (rxd_ticks_skipn line (T * 18) (26 * T)) in Q3
      || (replace (T + T * 7)%nat with (26 * T - T * 18)%nat in Q3 by lia;
          rewrite <- (rxd_ticks_skipn line (T * 18) (26 * T)) in Q3).
    rewrite <- (rxd_ticks_firstn line (T * 18) (26 * T)) in Q3 by lia.
    rewrite <- run_app, firstn_skipn in Q3.
    (* the quiet line *)
    set (line' := fun i => if i =? 0 then false else line i).
    assert (Hx : rxd_ticks line (26 * T) = rxd_ticks line' (26 * T)).
    { apply rxd_ticks_ext. intros i Hi. unfold line'.
      destruct (Z.eqb_spec i 0); [lia | reflexivity]. }
    destruct (rx_quiet_run line' s0 (26 * T)) as (Ha & Hcci & Hb & Hsr).
    + apply Hrest.
    + unfold s0, rx_armed, rx_ready, capturing, rx_irq_enabled,
        TimerA_UART_init, write_TACCTL0. mproj. repeat split; auto; lia.
    + reflexivity.
    + intros i Hi. unfold line'.
      destruct (Z.eqb_spec (i - 1) 0); [reflexivity|].
      destruct (Z.eqb_spec i 0); [lia|]. apply Hq. lia.
    + cbv zeta in Ha, Hcci, Hb, Hsr. rewrite <- Hx in Ha, Hcci, Hb, Hsr.
      destruct (rx_armed_view _ _ Q3 Ha) as (Ha' & Hc' & Hb' & Hs').
      split; [exact Ha'|]. split; [|split].
      * rewrite Hc', Hcci. unfold line'.
        destruct (Z.eqb_spec (Z.of_nat (26 * T)) 0); [lia | reflexivity].
      * rewrite Hb', Hb. reflexivity.
      * rewrite Hs', Hsr. reflexivity.
Qed.

Lemma print_keeps_receiving_witness :
  let ls := map (fun i => sender_line 0x41 104 10 (Z.of_nat i)) (seq 1 1200) in
  let s' := TimerA_UART_tx_load (char_code "K"%char)
              (run (map Level (firstn 1144 ls))
                 (TimerA_UART_tx_load (char_code "O"%char) (init_state 0))) in
  TimerA_UART_print "OK"%string (map Level ls) (init_state 0) =
  Some (s', map Level (skipn 1144 ls)) /\
  exists k, (k <= length ls)%nat /\
    map Level (skipn 1144 ls) = map Level (skipn k ls) /\
    rxBuffer s' = rxBuffer (run (map Level (firstn k ls)) (init_state 0)).
Proof.
  cbv zeta.
  set (ls := map (fun i => sender_line 0x41 104 10 (Z.of_nat i)) (seq 1 1200)).
  set (s' := TimerA_UART_tx_load (char_code "K"%char)
               (run (map Level (firstn 1144 ls))
                  (TimerA_UART_tx_load (char_code "O"%char) (init_state 0)))).
  assert (H : TimerA_UART_print "OK"%string (map Level ls) (init_state 0) =
              Some (s', map Level (skipn 1144 ls)))
    by (vm_compute; reflexivity).
  split; [exact H|].
  destruct (print_keeps_receiving "OK"%string ls (init_state 0) s'
              (map Level (skipn 1144 ls)) H) as (k & Hk & He & _ & Hx & _).
  exists k. split; [exact Hk|]. split; [exact He | exact Hx].
Defined.

Lemma main_echo_witness :
  let line := sender_line 0x41 104 10 in
  let s := TimerA_UART_tx_load 0x0A (init_state 0) in
  let p := Port 0 [] in
  (0 <= 0x0A < 2 ^ 8 /\ 0 <= 0 /\ tx_inv 0x0A 0 0 s /\ rx_armed s /\
   nonzero (Z.land (TACCTL1 s) CCI) = line 0 /\ 1 <= 10 /\
   line (10 - 1) = true /\ line 10 = false /\ clocks_low (P1OUT p) /\
   Z.of_nat 500 <= 8 * UART_TBIT + UART_TBIT_DIV_2) /\
  main_loop 500 (rxd_ticks line 1393) s p = None /\
  exists s',
    main_loop 500 (rxd_ticks line 2000) s p =
    Some (s', setRows 0 0x41 p, skipn 1394 (rxd_ticks line 2000)) /\
    TXD (run (repeat Loopback 208) s') = false /\
    row_of (P1OUT (setRows 0 0x41 p)) = 0.
Proof.
  cbv zeta.
  set (line := sender_line 0x41 104 10).
  set (s := TimerA_UART_tx_load 0x0A (init_state 0)).
  assert (Hb : 0 <= 0x0A < 2 ^ 8) by (split; [discriminate | reflexivity]).
  assert (H0 : 0 <= 0) by discriminate.
  assert (Hi : tx_idle (init_state 0))
    by (apply tx_idle_init; split; [discriminate | reflexivity]).
  assert (Htx : tx_inv 0x0A 0 0 s) by (apply (tx_inv_load 0x0A _ Hb Hi)).
  assert (Ha : rx_armed s)
    by exact (proj1 (proj1 (rx_idle_armed (init_state 0)) (rx_idle_init 0))).
  assert (Hc : nonzero (Z.land (TACCTL1 s) CCI) = line 0) by reflexivity.
  assert (He : 1 <= 10) by discriminate.
  assert (HP : 1 <= 104) by discriminate.
  destruct (sender_line_frame 0x41 104 10 HP) as (Hq & Hm & Hf & _).
  assert (Hl : clocks_low (P1OUT (Port 0 [])))
    by (repeat split; (reflexivity || discriminate)).
  assert (Hbusy : Z.of_nat 500 <= 8 * UART_TBIT + UART_TBIT_DIV_2)
    by (vm_compute; discriminate).
  split.
  { exact (conj Hb (conj H0 (conj Htx (conj Ha (conj Hc (conj He
             (conj Hm (conj Hf (conj Hl Hbusy))))))))). }
  split.
  - destruct (main_echo line 10 500 1393 0x0A 0 0 s (Port 0 [])
                Hb H0 Htx Ha Hc He Hq Hm Hf Hl Hbusy) as [H _].
    apply H. apply Nat.ltb_lt. vm_compute. reflexivity.
  - destruct (main_echo line 10 500 2000 0x0A 0 0 s (Port 0 [])
                Hb H0 Htx Ha Hc He Hq Hm Hf Hl Hbusy) as [_ H].
    destruct H as (s' & E & Hw & Hst & _);
      [apply Nat.leb_le; vm_compute; reflexivity|].
    exists s'. split; [exact E|]. split; [|exact Hst].
    rewrite Hw. reflexivity.
Defined.

Lemma main_start_enters_loop_witness :
  let s := reset_state 0 in
  let N := (26 * 1144 + 256)%nat in
  (0 <= TAR s < 2 ^ 16 /\ txBitCnt s = 10 /\ rxBitCnt s = 8 /\
   0 <= rxData s < 2 ^ 8) /\
  main_start (rxd_ticks (fun _ => true) 1144) s (Port 0xFF []) = None /\
  exists s',
    main_start (rxd_ticks (fun _ => true) N) s (Port 0xFF []) =
    Some (s', Port 0 [0], rxd_ticks (fun _ => true) 256) /\
    TAR s' = 29744 /\ rx_armed s'.
Proof.
  cbv zeta.
  assert (H1 : 0 <= TAR (reset_state 0) < 2 ^ 16)
    by (split; [discriminate | reflexivity]).
  assert (H2 : 0 <= rxData (reset_state 0) < 2 ^ 8)
    by (split; [discriminate | reflexivity]).
  split; [exact (conj H1 (conj eq_refl (conj eq_refl H2)))|].
  split.
  - destruct (main_start_enters_loop (fun _ => true) 1144 (reset_state 0)
                (Port 0xFF []) H1 eq_refl eq_refl H2) as [H _].
    apply H. apply Nat.ltb_lt. vm_compute. reflexivity.
  - destruct (main_start_enters_loop (fun _ => true) (26 * 1144 + 256)
                (reset_state 0) (Port 0xFF []) H1 eq_refl eq_refl H2)
      as [_ H].
    destruct H as (s' & E & _ & HT & _ & Hr);
      [apply Nat.leb_le; vm_compute; reflexivity|].
    exists s'. split; [|split; [exact HT | apply Hr; intros; reflexivity]].
    rewrite E. reflexivity.
Defined.

(** X17: a pass of the loop ends only on a byte delivered while it sleeps.
    Whatever the mailbox holds when the pass begins, a byte delivered
    while the foreground was busy included, is neither shown nor sent
    back as long as no start edge comes: nothing is stored to Port 1
    and the pass does not end. *)
Theorem main_sleeps_without_delivery (line : Z -> bool) (busy N : nat)
  (s : machine) (p : port) :
  timer_running s -> rx_armed s ->
  nonzero (Z.land (TACCTL1 s) CCI) = line 0 ->
  (forall i, 0 < i <= Z.of_nat N -> line (i - 1) && negb (line i) = false) ->
  main_loop busy (rxd_ticks line N) s p = None /\
  main_wait (rxd_ticks line N) (main_sleep s) = None /\
  rxBuffer (run (rxd_ticks line N) (main_sleep s)) = rxBuffer s.
Proof.
  intros Hrun Ha Hc Hq.
  assert (Hw : main_wait (rxd_ticks line N) (main_sleep s) = None).
  { apply main_wait_none. intros j Hj. rewrite rxd_ticks_length in Hj.
    rewrite rxd_ticks_firstn by exact Hj.
    destruct (rx_quiet_run line (main_sleep s) j Hrun Ha Hc) as (_ & _ & _ & Hsr).
    - intros i Hi. apply Hq. lia.
    - cbv zeta in Hsr. rewrite (asleep_SR (main_sleep s)) by exact Hsr.
      apply main_sleep_asleep. }
  split; [unfold main_loop; rewrite Hw; reflexivity|].
  split; [exact Hw|].
  destruct (rx_quiet_run line (main_sleep s) N Hrun Ha Hc Hq) as (_ & _ & Hx & _).
  exact Hx.
Qed.

Lemma main_sleeps_without_delivery_witness :
  let s := run (rxd_ticks (sender_line 0x41 104 10) 894) (init_state 0) in
  let line := fun i : Z => 0 <? i in
  rxBuffer s = 0x41 /\
  (timer_running s /\ rx_armed s /\
   nonzero (Z.land (TACCTL1 s) CCI) = line 0) /\
  main_loop 100 (rxd_ticks line 3000) s (Port 0 []) = None.
Proof.
  cbv zeta.
  set (s := run (rxd_ticks (sender_line 0x41 104 10) 894) (init_state 0)).
  assert (Hs : s = Machine 894 (TASSEL_2 + MC_2) 0 OUT 998
                     (SCS + CM1 + CAP + CCIE) 0 true 0 0x41 10 8 0x41)
    by (vm_compute; reflexivity).
  assert (Hr : timer_running s).
  { rewrite Hs. split; [reflexivity | split; [discriminate | reflexivity]]. }
  assert (Ha : rx_armed s).
  { rewrite Hs. split; [|split; reflexivity].
    repeat split; (reflexivity || discriminate). }
  assert (Hc : nonzero (Z.land (TACCTL1 s) CCI) = (0 <? 0)).
  { rewrite Hs. reflexivity. }
  split; [rewrite Hs; reflexivity|].
  split; [exact (conj Hr (conj Ha Hc))|].
  destruct (main_sleeps_without_delivery (fun i => 0 <? i) 100 3000 s (Port 0 [])
              Hr Ha Hc) as (H & _).
  - intros i Hi. destruct (Z.ltb_spec 0 i); [|lia]. apply andb_false_r.
  - exact H.
Defined.

